(** * Snipr (Linux): capture backends, display-server detection and the
      recording supervisor, embedded from [snipr/services/*.py].

    Python integers are [Z], strings are [string], dictionaries are
    [gmap], sets are [gset].  Calls that leave the Python process (the
    X server, the desktop portal, the encoder process, the file system)
    act on an explicit world value, and their outcome -- including the
    exceptions the source catches or lets escape -- is an explicit input
    or result. *)

From Stdlib Require Import ZArith Lia Bool List Ascii String.
From stdpp Require Import base option list gmap strings pretty.

Local Open Scope string_scope.
Local Open Scope list_scope.
Local Open Scope Z_scope.

(** ** Python values shared by all modules *)

(** A call either returns or raises; the exception keeps its Python class
    and message. *)
Inductive exn :=
  | RuntimeError (msg : string)
  | GLibError (msg : string)
  | XError (msg : string)
  | ValueError (msg : string).

Inductive result (A : Type) :=
  | Ok (a : A)
  | Raise (e : exn).
Arguments Ok {A} a.
Arguments Raise {A} e.

Definition rbind {A B} (m : result A) (k : A -> result B) : result B :=
  match m with
  | Ok a => k a
  | Raise e => Raise e
  end.

(** Truthiness of [str | None], as tested by [if value:]. *)
Definition truthy (v : option string) : bool :=
  match v with
  | Some s => negb (String.eqb s "")
  | None => false
  end.

(** [str.lower] on the ASCII range. *)
Definition lower_ascii (c : ascii) : ascii :=
  let n := nat_of_ascii c in
  if (andb (Nat.leb 65 n) (Nat.leb n 90)) then ascii_of_nat (n + 32) else c.

Fixpoint lower (s : string) : string :=
  match s with
  | EmptyString => EmptyString
  | String c r => String (lower_ascii c) (lower r)
  end.

(** ** services/display_server.py *)
Module DisplayServerDetector.

Inductive DisplayServer := X11 | WAYLAND | UNKNOWN.

#[global] Instance DisplayServer_eq_dec : EqDecision DisplayServer.
Proof. solve_decision. Defined.

(** [os.environ.get(key, default)] *)
Definition environ_get (environ : gmap string string) (key default : string) : string :=
  match environ !! key with
  | Some v => v
  | None => default
  end.

Definition get_display_server (environ : gmap string string) : DisplayServer :=
  let session_type := lower (environ_get environ "XDG_SESSION_TYPE" "") in
  if String.eqb session_type "wayland" then WAYLAND
  else if String.eqb session_type "x11" then X11
  else
    let gdk_backend := lower (environ_get environ "GDK_BACKEND" "") in
    if String.eqb gdk_backend "wayland" then WAYLAND
    else if String.eqb gdk_backend "x11" then X11
    else if truthy (environ !! "WAYLAND_DISPLAY") then WAYLAND
    else if truthy (environ !! "DISPLAY") then X11
    else UNKNOWN.

(** The priority list of the specification: each signal either decides
    or abstains, and the first one that decides wins. *)
Definition named_backend (value : string) : option DisplayServer :=
  if String.eqb (lower value) "wayland" then Some WAYLAND
  else if String.eqb (lower value) "x11" then Some X11
  else None.

Definition session_type_signal (environ : gmap string string) : option DisplayServer :=
  named_backend (environ_get environ "XDG_SESSION_TYPE" "").

Definition backend_override_signal (environ : gmap string string) : option DisplayServer :=
  named_backend (environ_get environ "GDK_BACKEND" "").

Definition wayland_display_handle (environ : gmap string string) : option DisplayServer :=
  if truthy (environ !! "WAYLAND_DISPLAY") then Some WAYLAND else None.

Definition x11_display_handle (environ : gmap string string) : option DisplayServer :=
  if truthy (environ !! "DISPLAY") then Some X11 else None.

Fixpoint first_match (signals : list (option DisplayServer)) : DisplayServer :=
  match signals with
  | [] => UNKNOWN
  | Some d :: _ => d
  | None :: rest => first_match rest
  end.

Definition detect_by_priority (environ : gmap string string) : DisplayServer :=
  first_match [ session_type_signal environ;
                backend_override_signal environ;
                wayland_display_handle environ;
                x11_display_handle environ ].

End DisplayServerDetector.

(** ** models/recording_state.py and services/video_recording.py *)
Module VideoRecording.
Import DisplayServerDetector.

Inductive RecordingState :=
  IDLE | PREPARING | RECORDING | STOPPING | COMPLETED | FAILED.

#[global] Instance RecordingState_eq_dec : EqDecision RecordingState.
Proof. solve_decision. Defined.

(** One invocation of a callback registered on the service. *)
Inductive callback_call :=
  | StateChanged (state : RecordingState)
  | DurationChanged (ticks : nat)
  | RecordingCompleted (path : string)
  | RecordingFailed (message : string).

(** The instance attributes.  [_process] holds the pid of the [Popen]
    object; [_duration_seconds] is kept as its number of 0.1 s
    increments; each [on_*] attribute records whether a callable is
    assigned (the service only tests it and calls it). *)
Record VideoRecordingService := {
  _display_server : DisplayServer;
  _process : option nat;
  _state : RecordingState;
  _duration_seconds : nat;
  _timer_id : option nat;
  _current_path : option string;
  _pipewire_node_id : option string;
  on_state_changed : bool;
  on_duration_changed : bool;
  on_recording_completed : bool;
  on_recording_failed : bool
}.

(** [VideoRecordingService.__init__] *)
Definition init (display_server : DisplayServer) : VideoRecordingService :=
  {| _display_server := display_server; _process := None; _state := IDLE;
     _duration_seconds := 0%nat; _timer_id := None; _current_path := None;
     _pipewire_node_id := None;
     on_state_changed := false; on_duration_changed := false;
     on_recording_completed := false; on_recording_failed := false |}.

Definition with_process (p : option nat) (s : VideoRecordingService) :=
  {| _display_server := _display_server s; _process := p; _state := _state s;
     _duration_seconds := _duration_seconds s; _timer_id := _timer_id s;
     _current_path := _current_path s; _pipewire_node_id := _pipewire_node_id s;
     on_state_changed := on_state_changed s; on_duration_changed := on_duration_changed s;
     on_recording_completed := on_recording_completed s;
     on_recording_failed := on_recording_failed s |}.

Definition with_state (st : RecordingState) (s : VideoRecordingService) :=
  {| _display_server := _display_server s; _process := _process s; _state := st;
     _duration_seconds := _duration_seconds s; _timer_id := _timer_id s;
     _current_path := _current_path s; _pipewire_node_id := _pipewire_node_id s;
     on_state_changed := on_state_changed s; on_duration_changed := on_duration_changed s;
     on_recording_completed := on_recording_completed s;
     on_recording_failed := on_recording_failed s |}.

Definition with_duration (d : nat) (s : VideoRecordingService) :=
  {| _display_server := _display_server s; _process := _process s; _state := _state s;
     _duration_seconds := d; _timer_id := _timer_id s;
     _current_path := _current_path s; _pipewire_node_id := _pipewire_node_id s;
     on_state_changed := on_state_changed s; on_duration_changed := on_duration_changed s;
     on_recording_completed := on_recording_completed s;
     on_recording_failed := on_recording_failed s |}.

Definition with_timer (t : option nat) (s : VideoRecordingService) :=
  {| _display_server := _display_server s; _process := _process s; _state := _state s;
     _duration_seconds := _duration_seconds s; _timer_id := t;
     _current_path := _current_path s; _pipewire_node_id := _pipewire_node_id s;
     on_state_changed := on_state_changed s; on_duration_changed := on_duration_changed s;
     on_recording_completed := on_recording_completed s;
     on_recording_failed := on_recording_failed s |}.

Definition with_path (p : option string) (s : VideoRecordingService) :=
  {| _display_server := _display_server s; _process := _process s; _state := _state s;
     _duration_seconds := _duration_seconds s; _timer_id := _timer_id s;
     _current_path := p; _pipewire_node_id := _pipewire_node_id s;
     on_state_changed := on_state_changed s; on_duration_changed := on_duration_changed s;
     on_recording_completed := on_recording_completed s;
     on_recording_failed := on_recording_failed s |}.

Definition with_node (n : option string) (s : VideoRecordingService) :=
  {| _display_server := _display_server s; _process := _process s; _state := _state s;
     _duration_seconds := _duration_seconds s; _timer_id := _timer_id s;
     _current_path := _current_path s; _pipewire_node_id := n;
     on_state_changed := on_state_changed s; on_duration_changed := on_duration_changed s;
     on_recording_completed := on_recording_completed s;
     on_recording_failed := on_recording_failed s |}.

(** What the service touches outside the Python process. *)
Record World := {
  environ : gmap string string;     (* os.environ *)
  files : gmap string Z;            (* existing paths and their sizes *)
  unlink_denied : gset string;      (* paths on which os.remove raises OSError *)
  running : gset nat;               (* pids of live child processes *)
  next_pid : nat;
  popen_calls : list (list string); (* every argv handed to subprocess.Popen *)
  glib_sources : gset nat;          (* installed GLib timeout sources *)
  next_source : nat
}.

Definition with_files (f : gmap string Z) (w : World) :=
  {| environ := environ w; files := f; unlink_denied := unlink_denied w;
     running := running w; next_pid := next_pid w; popen_calls := popen_calls w;
     glib_sources := glib_sources w; next_source := next_source w |}.

Definition with_running (r : gset nat) (w : World) :=
  {| environ := environ w; files := files w; unlink_denied := unlink_denied w;
     running := r; next_pid := next_pid w; popen_calls := popen_calls w;
     glib_sources := glib_sources w; next_source := next_source w |}.

Definition with_sources (g : gset nat) (n : nat) (w : World) :=
  {| environ := environ w; files := files w; unlink_denied := unlink_denied w;
     running := running w; next_pid := next_pid w; popen_calls := popen_calls w;
     glib_sources := g; next_source := n |}.

Definition with_popen (argv : list string) (spawned : bool) (w : World) :=
  {| environ := environ w; files := files w; unlink_denied := unlink_denied w;
     running := if spawned then running w ∪ {[ next_pid w ]} else running w;
     next_pid := if spawned then S (next_pid w) else next_pid w;
     popen_calls := popen_calls w ++ [argv];
     glib_sources := glib_sources w; next_source := next_source w |}.

(** [os.path.exists], [os.path.getsize], [os.remove] *)
Definition os_path_exists (w : World) (path : string) : bool :=
  negb (String.eqb path "") && bool_decide (is_Some (files w !! path)).

Definition os_path_getsize (w : World) (path : string) : Z :=
  match files w !! path with Some n => n | None => 0 end.

Definition os_remove (w : World) (path : string) : option World :=
  if bool_decide (path ∈ unlink_denied w) then None
  else if os_path_exists w path then Some (with_files (delete path (files w)) w)
  else None.

(** The closures handed to [GLib.idle_add] by the stop worker. *)
Inductive idle_callback :=
  | _on_done (returncode : Z) (file_path : option string) (file_size : Z)
             (stderr_data : string)
  | _on_timeout
  | _on_error (err_msg : string).

(** The service, its world, the callback invocations made so far, the
    stop workers still waiting on their process, and the idle callbacks
    queued for the UI thread. *)
Record System := {
  svc : VideoRecordingService;
  world : World;
  calls : list callback_call;
  stop_workers : list nat;
  idle_queue : list idle_callback
}.

Definition on_svc (f : VideoRecordingService -> VideoRecordingService) (y : System) :=
  {| svc := f (svc y); world := world y; calls := calls y;
     stop_workers := stop_workers y; idle_queue := idle_queue y |}.

Definition on_world (f : World -> World) (y : System) :=
  {| svc := svc y; world := f (world y); calls := calls y;
     stop_workers := stop_workers y; idle_queue := idle_queue y |}.

Definition invoke (registered : bool) (c : callback_call) (y : System) :=
  if registered
  then {| svc := svc y; world := world y; calls := calls y ++ [c];
          stop_workers := stop_workers y; idle_queue := idle_queue y |}
  else y.

Definition spawn_worker (proc : nat) (y : System) :=
  {| svc := svc y; world := world y; calls := calls y;
     stop_workers := stop_workers y ++ [proc]; idle_queue := idle_queue y |}.

Definition idle_add (c : idle_callback) (y : System) :=
  {| svc := svc y; world := world y; calls := calls y;
     stop_workers := stop_workers y; idle_queue := idle_queue y ++ [c] |}.

Definition _set_state (state : RecordingState) (y : System) : System :=
  if bool_decide (_state (svc y) ≠ state)
  then invoke (on_state_changed (svc y)) (StateChanged state) (on_svc (with_state state) y)
  else y.

Definition _stop_duration_timer (y : System) : System :=
  match _timer_id (svc y) with
  | Some id =>
      on_svc (with_timer None)
        (on_world (fun w => with_sources (glib_sources w ∖ {[ id ]}) (next_source w) w) y)
  | None => y
  end.

Definition _start_duration_timer (y : System) : System :=
  let id := next_source (world y) in
  on_svc (with_timer (Some id))
    (on_world (fun w => with_sources (glib_sources w ∪ {[ id ]}) (S id) w)
       (on_svc (with_duration 0%nat) y)).

(** The body of [tick], run by GLib for timeout source [id]. *)
Definition tick (id : nat) (y : System) : System :=
  if bool_decide (id ∈ glib_sources (world y)) then
    if bool_decide (_state (svc y) = RECORDING) then
      let y1 := on_svc (fun s => with_duration (S (_duration_seconds s)) s) y in
      invoke (on_duration_changed (svc y1)) (DurationChanged (_duration_seconds (svc y1))) y1
    else on_world (fun w => with_sources (glib_sources w ∖ {[ id ]}) (next_source w) w) y
  else y.

(** [display[:display.index(".")]] when ["." in display], else [display]. *)
Fixpoint before_dot (display : string) : string :=
  match display with
  | EmptyString => EmptyString
  | String c r => if Ascii.eqb c "."%char then EmptyString else String c (before_dot r)
  end.

Definition environ_get (w : World) (key default : string) : string :=
  match environ w !! key with Some v => v | None => default end.

Definition _build_ffmpeg_command (s : VideoRecordingService) (os : World)
    (region : option (Z * Z * Z * Z)) : list string :=
  let cmd := ["ffmpeg"; "-y"] in
  let cmd :=
    if bool_decide (_display_server s = WAYLAND) && truthy (_pipewire_node_id s)
    then cmd ++ ["-f"; "pipewire"; "-i"; default "" (_pipewire_node_id s)]
    else
      let display := before_dot (environ_get os "DISPLAY" ":0") in
      let cmd := cmd ++ ["-f"; "x11grab"; "-framerate"; "30"; "-draw_mouse"; "0"] in
      match region with
      | Some (x, y, w, h) =>
          let x := Z.max 0 x in
          let y := Z.max 0 y in
          cmd ++ ["-video_size"; pretty w +:+ "x" +:+ pretty h;
                  "-i"; display +:+ "+" +:+ pretty x +:+ "," +:+ pretty y]
      | None => cmd ++ ["-i"; display]
      end in
  cmd ++ ["-c:v"; "libx264"; "-preset"; "ultrafast"; "-crf"; "23";
          "-pix_fmt"; "yuv420p"; "-r"; "30"; default "" (_current_path s)].

(** What one start call reads from its surroundings: the temp directory,
    the formatted clock, and whether [subprocess.Popen] raises (with the
    text of the exception).  Creating the [snipr] directory under the
    temp directory is taken to succeed; the [print] calls are left out. *)
Record Launch := {
  tempdir : string;
  timestamp : string;
  popen_error : option string
}.

Definition _start_recording (region : option (Z * Z * Z * Z)) (l : Launch)
    (y : System) : System :=
  if bool_decide (_state (svc y) = RECORDING) || bool_decide (_state (svc y) = PREPARING)
     || bool_decide (_state (svc y) = STOPPING)
  then y
  else
    let y := _set_state PREPARING y in
    let path := tempdir l +:+ "/snipr/Recording_" +:+ timestamp l +:+ ".mp4" in
    let y := on_svc (with_path (Some path)) y in
    let cmd := _build_ffmpeg_command (svc y) (world y) region in
    match popen_error l with
    | None =>
        let pid := next_pid (world y) in
        let y := on_world (with_popen cmd true) y in
        let y := on_svc (with_process (Some pid)) y in
        let y := on_svc (with_duration 0%nat) y in
        let y := _set_state RECORDING y in
        _start_duration_timer y
    | Some e =>
        let y := on_world (with_popen cmd false) y in
        let y := _set_state FAILED y in
        invoke (on_recording_failed (svc y))
               (RecordingFailed ("Failed to start recording: " +:+ e)) y
    end.

Definition start_recording_region (x y width height : Z) (l : Launch)
    (sys : System) : System :=
  let width := width + (width mod 2) in
  let height := height + (height mod 2) in
  _start_recording (Some (x, y, width, height)) l sys.

Definition start_recording_fullscreen (l : Launch) (sys : System) : System :=
  _start_recording None l sys.

Definition start_recording_window (x y width height : Z) (l : Launch)
    (sys : System) : System :=
  start_recording_region x y width height l sys.

Definition stop_recording (y : System) : System :=
  match _process (svc y) with
  | None => y
  | Some proc =>
      if bool_decide (_state (svc y) ≠ RECORDING) then y
      else
        let y := _set_state STOPPING y in
        let y := _stop_duration_timer y in
        let y := on_svc (with_process None) y in
        spawn_worker proc y
  end.

(** How [proc.communicate(input=b"q", timeout=10)] ends in the worker
    thread: the process exits, the call times out, or it raises. *)
Inductive communicate_outcome :=
  | Exited (returncode : Z) (stderr_data : string)
  | TimeoutExpired
  | CommunicateError (message : string).

(** A killed or exited child leaves the process table. *)
Definition reap (proc : nat) (w : World) : World :=
  with_running (running w ∖ {[ proc ]}) w.

(** [_stop_worker], executed off the UI thread for the process taken
    over by [stop_recording]; it reads the service and the file system
    at the moment [communicate] returns and queues one idle callback. *)
Definition _stop_worker (proc : nat) (o : communicate_outcome) (y : System) : System :=
  match o with
  | Exited returncode stderr_data =>
      let y := on_world (reap proc) y in
      let file_path := _current_path (svc y) in
      let file_size :=
        if truthy file_path && os_path_exists (world y) (default "" file_path)
        then os_path_getsize (world y) (default "" file_path)
        else -1 in
      idle_add (_on_done returncode file_path file_size stderr_data) y
  | TimeoutExpired =>
      let y := on_world (reap proc) y in
      idle_add _on_timeout y
  | CommunicateError message =>
      idle_add (_on_error message) y
  end.

(** A [string] holds the UTF-8 encoding of a Python [str]; one character
    is a lead byte followed by its continuation bytes ([10xxxxxx]). *)
Definition is_continuation (c : ascii) : bool :=
  (128 <=? nat_of_ascii c)%nat && (nat_of_ascii c <? 192)%nat.

(** [len(s)]: the number of characters. *)
Fixpoint char_length (s : string) : nat :=
  match s with
  | EmptyString => 0%nat
  | String c r => ((if is_continuation c then 0 else 1) + char_length r)%nat
  end.

Fixpoint drop_continuation (s : string) : string :=
  match s with
  | EmptyString => EmptyString
  | String c r => if is_continuation c then drop_continuation r else s
  end.

(** [s[k:]] for [k >= 0] *)
Fixpoint drop_chars (k : nat) (s : string) : string :=
  match k, s with
  | O, _ => s
  | S _, EmptyString => EmptyString
  | S k', String _ r => drop_chars k' (drop_continuation r)
  end.

(** The string does not begin inside a character, as no encoding of a
    [str] does. *)
Definition starts_at_boundary (s : string) : bool :=
  match s with
  | EmptyString => true
  | String c _ => negb (is_continuation c)
  end.

(** [stderr_data[-n:]]: the last [n] characters, the whole string when
    it has fewer (and when [n] is 0, as [-0] is [0]). *)
Definition last_chars (n : nat) (s : string) : string :=
  if (n =? 0)%nat then s else drop_chars (char_length s - n) s.

(** An idle callback run by the UI thread. *)
Definition run_idle (c : idle_callback) (y : System) : System :=
  match c with
  | _on_done returncode file_path file_size stderr_data =>
      if Z.eqb returncode 0 && truthy file_path && Z.ltb 0 file_size then
        let y := _set_state COMPLETED y in
        invoke (on_recording_completed (svc y))
               (RecordingCompleted (default "" file_path)) y
      else
        let y := _set_state FAILED y in
        invoke (on_recording_failed (svc y))
               (RecordingFailed ("FFmpeg exited with code " +:+ pretty returncode
                                 +:+ ": " +:+ last_chars 500 stderr_data)) y
  | _on_timeout =>
      let y := _set_state FAILED y in
      invoke (on_recording_failed (svc y)) (RecordingFailed "Recording stop timed out") y
  | _on_error err_msg =>
      let y := _set_state FAILED y in
      invoke (on_recording_failed (svc y)) (RecordingFailed err_msg) y
  end.

(** [proc.kill(); proc.wait(timeout=5)] sit in a [try] whose handler is
    [pass], and [_close_pipes] swallows its own errors: whatever they do,
    control reaches the file deletion.  [os.remove] may raise [OSError],
    which is swallowed too, leaving the file in place. *)
Definition cancel_recording (y : System) : System :=
  let y := _stop_duration_timer y in
  let y :=
    match _process (svc y) with
    | Some proc => on_world (reap proc) (on_svc (with_process None) y)
    | None => y
    end in
  let y :=
    if truthy (_current_path (svc y))
       && os_path_exists (world y) (default "" (_current_path (svc y)))
    then
      match os_remove (world y) (default "" (_current_path (svc y))) with
      | Some w' => on_world (fun _ => w') y
      | None => y
      end
    else y in
  _set_state IDLE y.

Definition set_pipewire_node (node_id : string) (y : System) : System :=
  on_svc (with_node (Some node_id)) y.

Definition cleanup (y : System) : System := cancel_recording y.

(** *** The supervisor as a transition system

    A run is a sequence of the things that can happen to the service:
    the UI thread calls a public method, GLib fires the tick timer or
    runs the next queued idle callback, a stop worker's [communicate]
    returns, or the encoder writes to its output file.  The [on_*]
    attributes are assigned once, by the window that owns the service,
    before any of these; no operation here changes them. *)
Inductive op :=
  | StartRegion (x y width height : Z) (l : Launch)
  | StartFullscreen (l : Launch)
  | StartWindow (x y width height : Z) (l : Launch)
  | Stop
  | Cancel
  | Cleanup
  | SetPipewireNode (node_id : string)
  | Tick (id : nat)
  | WorkerReturns (i : nat) (o : communicate_outcome)
  | Idle
  | EncoderWrites (path : string) (size : Z).

Definition take_worker (i : nat) (y : System) : System :=
  {| svc := svc y; world := world y; calls := calls y;
     stop_workers := delete i (stop_workers y); idle_queue := idle_queue y |}.

Definition pop_idle (y : System) : System :=
  {| svc := svc y; world := world y; calls := calls y;
     stop_workers := stop_workers y; idle_queue := tail (idle_queue y) |}.

Definition step (o : op) (y : System) : System :=
  match o with
  | StartRegion x y0 width height l => start_recording_region x y0 width height l y
  | StartFullscreen l => start_recording_fullscreen l y
  | StartWindow x y0 width height l => start_recording_window x y0 width height l y
  | Stop => stop_recording y
  | Cancel => cancel_recording y
  | Cleanup => cleanup y
  | SetPipewireNode node_id => set_pipewire_node node_id y
  | Tick id => tick id y
  | WorkerReturns i o =>
      match stop_workers y !! i with
      | Some proc => _stop_worker proc o (take_worker i y)
      | None => y
      end
  | Idle =>
      match idle_queue y with
      | c :: _ => run_idle c (pop_idle y)
      | [] => y
      end
  | EncoderWrites path size =>
      on_world (fun w => with_files (<[ path := size ]> (files w)) w) y
  end.

Definition run (ops : list op) (y : System) : System :=
  fold_left (fun acc o => step o acc) ops y.

(** The state values handed to [on_state_changed], in call order. *)
Definition state_notifications (cs : list callback_call) : list RecordingState :=
  omap (fun c => match c with StateChanged s => Some s | _ => None end) cs.

(** The paths handed to [on_recording_completed], in call order. *)
Definition completed_notifications (cs : list callback_call) : list string :=
  omap (fun c => match c with RecordingCompleted p => Some p | _ => None end) cs.

(** Is the call a Completed or Failed report? *)
Definition is_outcome_report (c : callback_call) : bool :=
  match c with
  | RecordingCompleted _ | RecordingFailed _ => true
  | _ => false
  end.

Fixpoint no_adjacent_repeat (l : list RecordingState) : Prop :=
  match l with
  | a :: (b :: _) as rest => a ≠ b ∧ no_adjacent_repeat rest
  | _ => True
  end.

(** A fresh system around a service. *)
Definition boot (s : VideoRecordingService) (w : World) : System :=
  {| svc := s; world := w; calls := []; stop_workers := []; idle_queue := [] |}.

(** The notifications made so far agree with the service: none repeats
    its predecessor, there is none without a registered handler, and the
    latest one names the current state. *)
Definition notifications_track_state (y : System) : Prop :=
  no_adjacent_repeat (state_notifications (calls y))
  /\ (on_state_changed (svc y) = false -> state_notifications (calls y) = [])
  /\ (forall st, last (state_notifications (calls y)) = Some st -> st = _state (svc y)).

(** Two systems that an observer of state notifications cannot tell
    apart. *)
Definition same_view (y y' : System) : Prop :=
  state_notifications (calls y') = state_notifications (calls y)
  /\ _state (svc y') = _state (svc y)
  /\ on_state_changed (svc y') = on_state_changed (svc y).

(** The claim of the specification about [cancel_recording], at one
    system: Idle afterwards, nothing at the output path, and no
    Completed or Failed report among the calls it makes. *)
Definition cancel_leaves_no_file (y : System) : Prop :=
  _state (svc (cancel_recording y)) = IDLE
  /\ (forall p, _current_path (svc y) = Some p ->
                os_path_exists (world (cancel_recording y)) p = false)
  /\ (exists new, calls (cancel_recording y) = calls y ++ new
                  /\ forallb (fun c => negb (is_outcome_report c)) new = true).

(** A recording in progress whose output file the OS refuses to unlink. *)
Definition recording_with_undeletable_output : System :=
  {| svc := {| _display_server := X11; _process := Some 7%nat; _state := RECORDING;
               _duration_seconds := 12%nat; _timer_id := Some 1%nat;
               _current_path := Some "/tmp/snipr/Recording_20240101_120000.mp4";
               _pipewire_node_id := None;
               on_state_changed := true; on_duration_changed := true;
               on_recording_completed := true; on_recording_failed := true |};
     world := {| environ := ∅;
                 files := {[ "/tmp/snipr/Recording_20240101_120000.mp4" := 4096 ]};
                 unlink_denied := {[ "/tmp/snipr/Recording_20240101_120000.mp4" ]};
                 running := {[ 7%nat ]}; next_pid := 8%nat;
                 popen_calls := []; glib_sources := {[ 1%nat ]};
                 next_source := 2%nat |};
     calls := []; stop_workers := []; idle_queue := [] |}.

(** The same recording with an output file that can be deleted. *)
Definition recording_with_output : System :=
  on_world (fun w => {| environ := environ w; files := files w; unlink_denied := ∅;
                        running := running w; next_pid := next_pid w;
                        popen_calls := popen_calls w; glib_sources := glib_sources w;
                        next_source := next_source w |})
           recording_with_undeletable_output.

(** The states in which the start guard returns at once. *)
Definition busy (st : RecordingState) : bool :=
  match st with
  | RECORDING | PREPARING | STOPPING => true
  | _ => false
  end.

(** The surroundings read by a start call, for the three start methods. *)
Definition start_of (o : op) : option Launch :=
  match o with
  | StartRegion _ _ _ _ l | StartFullscreen l | StartWindow _ _ _ _ l => Some l
  | _ => None
  end.

(** The argv handed to [Popen] by an accepted start. *)
Definition argv_of (region : option (Z * Z * Z * Z)) (l : Launch) (y : System)
    : list string :=
  _build_ffmpeg_command
    (with_path (Some (tempdir l +:+ "/snipr/Recording_" +:+ timestamp l +:+ ".mp4"))
               (with_state PREPARING (svc y)))
    (world y) region.

(** Between [y] and [y'] exactly one encoder launch was made. *)
Definition launches_encoder (y y' : System) : Prop :=
  length (popen_calls (world y')) = S (length (popen_calls (world y))).

(** The claim of the specification about start calls, at one call:
    accepted exactly from Idle, and otherwise state and process handle
    stay as they are. *)
Definition start_only_from_idle (o : op) (y : System) : Prop :=
  (launches_encoder y (step o y) <-> _state (svc y) = IDLE)
  /\ (_state (svc y) <> IDLE ->
      _state (svc (step o y)) = _state (svc y)
      /\ _process (svc (step o y)) = _process (svc y)).

(** A service whose last recording completed. *)
Definition after_completed_recording : System :=
  {| svc := {| _display_server := X11; _process := None; _state := COMPLETED;
               _duration_seconds := 30%nat; _timer_id := None;
               _current_path := Some "/tmp/snipr/Recording_20240101_120000.mp4";
               _pipewire_node_id := None;
               on_state_changed := true; on_duration_changed := true;
               on_recording_completed := true; on_recording_failed := true |};
     world := {| environ := {[ "DISPLAY" := ":0.0" ]};
                 files := {[ "/tmp/snipr/Recording_20240101_120000.mp4" := 4096 ]};
                 unlink_denied := ∅;
                 running := ∅; next_pid := 8%nat;
                 popen_calls := []; glib_sources := ∅;
                 next_source := 2%nat |};
     calls := []; stop_workers := []; idle_queue := [] |}.

Definition launch_at_noon : Launch :=
  {| tempdir := "/tmp"; timestamp := "20240101_120500"; popen_error := None |}.

(** A recording that was cancelled: the service is Idle again, with all
    its handlers registered and the Idle notification already made. *)
Definition cancelled_recording : System :=
  cancel_recording recording_with_output.

End VideoRecording.

(** ** services/screen_capture_x11.py, screen_capture_portal.py *)
Module ScreenCapture.

(** *** Raster images (PIL images and GdkPixbufs)

    Pixels are stored row by row.  An image carries its three colour
    channels and at most one further band: the padding byte of mode
    ["RGBX"], or the alpha channel of mode ["RGBA"] (a pixbuf with
    [has_alpha]). *)
Definition rgb : Type := Byte.byte * Byte.byte * Byte.byte.

Inductive band :=
  | NoBand
  | Pad (data : list Byte.byte)
  | Alpha (data : list Byte.byte).

Record Image := {
  width : nat;
  height : nat;
  pixels : list rgb;
  extra : band
}.

Definition black : rgb := (Byte.x00, Byte.x00, Byte.x00).

(** Every pixel has full opacity: no alpha channel, or alpha 255
    throughout. *)
Definition fully_opaque (img : Image) : bool :=
  match extra img with
  | Alpha a => forallb (Byte.eqb Byte.xff) a
  | _ => true
  end.

(** The image has an alpha channel and it is 0 throughout. *)
Definition fully_transparent (img : Image) : bool :=
  match extra img with
  | Alpha a => forallb (Byte.eqb Byte.x00) a
  | _ => false
  end.

(** The values [f i j] for the columns [x .. x+w-1] of the rows
    [y .. y+h-1], row by row. *)
Definition raster {A} (f : nat -> nat -> A) (x y w h : nat) : list A :=
  flat_map (fun j => map (fun i => f i j) (seq x w)) (seq y h).

Definition band_at (b : band) (k : nat) : Byte.byte :=
  match b with
  | NoBand => Byte.xff
  | Pad d | Alpha d => nth k d Byte.x00
  end.

Definition pixel_at (img : Image) (i j : nat) : rgb :=
  nth (j * width img + i) (pixels img) black.

Definition sub_band (img : Image) (x y w h : nat) : band :=
  match extra img with
  | NoBand => NoBand
  | Pad d => Pad (raster (fun i j => nth (j * width img + i) d Byte.x00) x y w h)
  | Alpha d => Alpha (raster (fun i j => nth (j * width img + i) d Byte.x00) x y w h)
  end.

(** [GdkPixbuf.Pixbuf.new_subpixbuf(x, y, width, height)]: the crop of a
    pixbuf to a rectangle.  The rectangle must lie inside the pixbuf and
    be non-empty, else the call yields no pixbuf ([None] in Python). *)
Definition new_subpixbuf (x y w h : Z) (img : Image) : option Image :=
  if (0 <=? x) && (0 <=? y) && (0 <? w) && (0 <? h)
     && (x + w <=? Z.of_nat (width img)) && (y + h <=? Z.of_nat (height img))
  then Some {| width := Z.to_nat w; height := Z.to_nat h;
               pixels := raster (pixel_at img) (Z.to_nat x) (Z.to_nat y)
                                (Z.to_nat w) (Z.to_nat h);
               extra := sub_band img (Z.to_nat x) (Z.to_nat y)
                                 (Z.to_nat w) (Z.to_nat h) |}
  else None.


(** Pixel equality with the crop, in the words of the specification:
    [region] has the size of the rectangle, and its pixel at column [i],
    row [j] is the pixel of [full] at [(x + i, y + j)], colour and
    further band alike. *)
Definition pixel_equal_crop (full : Image) (x y w h : Z) (region : Image) : Prop :=
  width region = Z.to_nat w
  /\ height region = Z.to_nat h
  /\ length (pixels region) = (Z.to_nat w * Z.to_nat h)%nat
  /\ forall i j, (i < Z.to_nat w)%nat -> (j < Z.to_nat h)%nat ->
       pixel_at region i j = pixel_at full (Z.to_nat x + i) (Z.to_nat y + j)
       /\ band_at (extra region) (j * width region + i)
          = band_at (extra full) ((Z.to_nat y + j) * width full + (Z.to_nat x + i)).

(** [image.convert("RGB")] and [image.convert("RGBA")] *)
Definition convert_RGB (img : Image) : Image :=
  {| width := width img; height := height img; pixels := pixels img;
     extra := NoBand |}.

Definition convert_RGBA (img : Image) : Image :=
  {| width := width img; height := height img; pixels := pixels img;
     extra := match extra img with
              | Alpha a => Alpha a
              | _ => Alpha (replicate (width img * height img) Byte.xff)
              end |}.

(** [image.putalpha(mask)] for an ["L"] mask of the image's size. *)
Definition putalpha (mask : list Byte.byte) (img : Image) : Image :=
  {| width := width img; height := height img; pixels := pixels img;
     extra := Alpha mask |}.

(** Saving as PNG and loading the bytes into a pixbuf keeps size, colour
    and alpha (PNG is lossless); PNG has no images with a zero
    dimension, so an empty image cannot make the trip. *)
Definition png_roundtrip (img : Image) : result Image :=
  if (width img =? 0)%nat || (height img =? 0)%nat
  then Raise (ValueError "cannot write empty image as PNG")
  else Ok img.

Definition rmap {A B} (f : A -> B) (m : result A) : result B :=
  rbind m (fun a => Ok (f a)).

(** *** The X server, as seen through the root window *)
Record xpixel := {
  red : Byte.byte;
  green : Byte.byte;
  blue : Byte.byte;
  padding : Byte.byte
}.

Record RootWindow := {
  connected : bool;                     (* the display connection answers *)
  root_width : nat;
  root_height : nat;
  framebuffer : nat -> nat -> xpixel    (* column, row *)
}.

Definition get_geometry (root : RootWindow) : result (nat * nat) :=
  if connected root then Ok (root_width root, root_height root)
  else Raise (XError "ConnectionClosedError").

(** [root.get_image(x, y, width, height, ZPixmap, 0xFFFFFFFF).data]: four
    bytes per pixel in the order blue, green, red, padding; a rectangle
    that leaves the window is a BadMatch error. *)
Definition get_image (root : RootWindow) (x y w h : Z) : result (list Byte.byte) :=
  if negb (connected root) then Raise (XError "ConnectionClosedError")
  else if (0 <=? x) && (0 <=? y) && (0 <=? w) && (0 <=? h)
          && (x + w <=? Z.of_nat (root_width root))
          && (y + h <=? Z.of_nat (root_height root))
  then Ok (concat (raster (fun i j => let p := framebuffer root i j in
                                      [blue p; green p; red p; padding p])
                          (Z.to_nat x) (Z.to_nat y) (Z.to_nat w) (Z.to_nat h)))
  else Raise (XError "BadMatch").

(** The raw decoder ["BGRX"]: four bytes make one pixel. *)
Fixpoint unpack_BGRX (data : list Byte.byte) : list (rgb * Byte.byte) :=
  match data with
  | b :: g :: r :: x :: rest => ((r, g, b), x) :: unpack_BGRX rest
  | _ => []
  end.

(** [Image.frombytes("RGBX", (width, height), data, "raw", "BGRX")] *)
Definition frombytes_RGBX (w h : Z) (data : list Byte.byte) : result Image :=
  if (w <? 0) || (h <? 0) then Raise (ValueError "Width and height must be >= 0")
  else
    let n := (Z.to_nat w * Z.to_nat h)%nat in
    if (length data <? 4 * n)%nat then Raise (ValueError "not enough image data")
    else
      let px := take n (unpack_BGRX data) in
      Ok {| width := Z.to_nat w; height := Z.to_nat h;
            pixels := map fst px; extra := Pad (map snd px) |}.

(** [Image.new("L", (width, height), 0)] *)
Definition new_L (w h : Z) : result (list Byte.byte) :=
  if (w <? 0) || (h <? 0) then Raise (ValueError "Width and height must be >= 0")
  else Ok (replicate (Z.to_nat w * Z.to_nat h) Byte.x00).

(** *** The portal's session bus *)
Record Bus := {
  subscriptions : gset nat;   (* ids of the signal handlers now subscribed *)
  next_subscription : nat
}.

Definition signal_subscribe (bus : Bus) : nat * Bus :=
  (next_subscription bus,
   {| subscriptions := subscriptions bus ∪ {[ next_subscription bus ]};
      next_subscription := S (next_subscription bus) |}).

Definition signal_unsubscribe (sub_id : nat) (bus : Bus) : Bus :=
  {| subscriptions := subscriptions bus ∖ {[ sub_id ]};
     next_subscription := next_subscription bus |}.

(** The [results] dictionary of a Response signal, by the keys read. *)
Record Results := {
  uri : option string;
  streams : option (list N)
}.

(** What the portal does with a request made after subscribing: the
    method call itself raises [GLib.Error]; or it returns and the
    Response signal arrives; or it returns and the 30 s timer fires
    first. *)
Inductive portal_outcome :=
  | CallRaises (message : string)
  | Responds (response : Z) (results : Results)
  | TimesOut.

(** The session bus and the image files the portal has written. *)
Record Portal := {
  bus : Bus;
  image_files : gmap string Image
}.

Definition with_bus (b : Bus) (p : Portal) : Portal :=
  {| bus := b; image_files := image_files p |}.

(** [image.crop((x, y, x + width, y + height))] on an RGBA image: the
    part of the box that leaves the image is transparent black. *)
Definition inside (img : Image) (i j : Z) : bool :=
  (0 <=? i) && (i <? Z.of_nat (width img))
  && (0 <=? j) && (j <? Z.of_nat (height img)).

Definition at_box {A} (img : Image) (x y : Z) (f : nat -> nat -> A) (d : A)
    (i j : nat) : A :=
  if inside img (x + Z.of_nat i) (y + Z.of_nat j)
  then f (Z.to_nat (x + Z.of_nat i)) (Z.to_nat (y + Z.of_nat j))
  else d.

Definition pil_crop (x y w h : Z) (img : Image) : result Image :=
  if (w <? 0) || (h <? 0)
  then Raise (ValueError "Coordinate 'right' is less than 'left'")
  else
    Ok {| width := Z.to_nat w;
          height := Z.to_nat h;
          pixels := raster (at_box img x y (pixel_at img) black) 0 0
                           (Z.to_nat w) (Z.to_nat h);
          extra := Alpha (raster (at_box img x y
                                    (fun i j => band_at (extra img) (j * width img + i))
                                    Byte.x00) 0 0
                                 (Z.to_nat w) (Z.to_nat h)) |}.

(** The replies to the three calls of the screencast negotiation. *)
Record ScreencastReplies := {
  create_session : result string;   (* CreateSession: the session handle *)
  select_sources : result unit;     (* SelectSources *)
  start : portal_outcome            (* Start, made after subscribing *)
}.

(** A capture backend together with what its platform will answer. *)
Inductive Backend :=
  | X11Backend (root : RootWindow)
  | PortalBackend (o : portal_outcome) (p : Portal).

Section Backends.

(** [ImageDraw.Draw(mask).polygon(local_points, fill=255)] on a mask of
    the given size, and [unquote(urlparse(uri).path)]: library code
    that is taken as given. *)
Variable polygon : list (Z * Z) -> Z -> Z -> list Byte.byte -> list Byte.byte.
Variable unquote_path : string -> string.

(** **** X11ScreenCapture *)
Definition _pil_to_pixbuf (image : Image) : result Image :=
  png_roundtrip image.

Definition x11_capture_region (root : RootWindow) (x y width height : Z)
    : result Image :=
  rbind (get_image root x y width height) (fun raw =>
  rbind (frombytes_RGBX width height raw) (fun image =>
  let image := convert_RGB image in
  _pil_to_pixbuf image)).

Definition x11_capture_fullscreen (root : RootWindow) : result Image :=
  rbind (get_geometry root) (fun geom =>
  x11_capture_region root 0 0 (Z.of_nat (fst geom)) (Z.of_nat (snd geom))).

Definition local_points (x y : Z) (points : list (Z * Z)) : list (Z * Z) :=
  map (fun p => (fst p - x, snd p - y)) points.

Definition polygon_mask (x y width height : Z) (points : list (Z * Z))
    : result (list Byte.byte) :=
  rbind (new_L width height) (fun mask =>
  let local_points := local_points x y points in
  if (3 <=? length local_points)%nat
  then Ok (polygon local_points width height mask)
  else Ok mask).

Definition x11_capture_freeform (root : RootWindow) (x y width height : Z)
    (points : list (Z * Z)) : result Image :=
  rbind (get_image root x y width height) (fun raw =>
  rbind (frombytes_RGBX width height raw) (fun image =>
  let image := convert_RGBA image in
  rbind (polygon_mask x y width height points) (fun mask =>
  let image := putalpha mask image in
  _pil_to_pixbuf image))).

Definition x11_get_screen_size (root : RootWindow) : result (nat * nat) :=
  rbind (get_geometry root) (fun geom => Ok (fst geom, snd geom)).

(** **** PortalScreenCapture *)
Definition _uri_to_path (uri : string) : string := unquote_path uri.

Definition _load_uri (p : Portal) (uri : string) : result Image :=
  match image_files p !! _uri_to_path uri with
  | Some pixbuf => Ok pixbuf
  | None => Raise (GLibError "Failed to open file")
  end.

(** [_screenshot]: subscribe, call the portal, run the loop until the
    response or the timer, unsubscribe, then report.  An exception of
    [call_sync] leaves the function at the call. *)
Definition _screenshot (interactive : bool) (o : portal_outcome) (p : Portal)
    : result string * Portal :=
  let '(sub_id, b) := signal_subscribe (bus p) in
  match o with
  | CallRaises message => (Raise (GLibError message), with_bus b p)
  | _ =>
      let '(result_uri, error) :=
        match o with
        | Responds response results =>
            if (response =? 0) && bool_decide (is_Some (uri results))
            then (uri results, None)
            else (None, Some ("Portal screenshot failed with response "
                              +:+ pretty response))
        | _ => (None, None)
        end in
      let b := signal_unsubscribe sub_id b in
      (if truthy error then Raise (RuntimeError (default "" error))
       else match result_uri with
            | None => Raise (RuntimeError "No URI returned from screenshot portal")
            | Some u => Ok u
            end,
       with_bus b p)
  end.

Definition start_screencast (rep : ScreencastReplies) (p : Portal)
    : result string * Portal :=
  match create_session rep with
  | Raise e => (Raise e, p)
  | Ok session_handle =>
      match select_sources rep with
      | Raise e => (Raise e, p)
      | Ok _ =>
          let '(sub_id, b) := signal_subscribe (bus p) in
          match start rep with
          | CallRaises message => (Raise (GLibError message), with_bus b p)
          | o =>
              let node_id :=
                match o with
                | Responds response results =>
                    if (response =? 0) && bool_decide (is_Some (streams results))
                    then match default [] (streams results) with
                         | n :: _ => Some (pretty n)
                         | [] => None
                         end
                    else None
                | _ => None
                end in
              let b := signal_unsubscribe sub_id b in
              (match node_id with
               | None => Raise (RuntimeError
                           "Failed to get PipeWire node from screencast portal")
               | Some n => Ok n
               end,
               with_bus b p)
          end
      end
  end.

Definition portal_capture_fullscreen (o : portal_outcome) (p : Portal)
    : result Image * Portal :=
  let '(r, p) := _screenshot false o p in
  (rbind r (fun uri => _load_uri p uri), p).

Definition portal_capture_region (o : portal_outcome) (p : Portal)
    (x y width height : Z) : result (option Image) * Portal :=
  let '(r, p) := _screenshot false o p in
  (rbind r (fun uri =>
   rbind (_load_uri p uri) (fun pixbuf =>
   Ok (new_subpixbuf x y width height pixbuf))), p).

Definition portal_capture_freeform (o : portal_outcome) (p : Portal)
    (x y width height : Z) (points : list (Z * Z)) : result Image * Portal :=
  let '(r, p) := _screenshot false o p in
  (rbind r (fun uri =>
   rbind (_load_uri p uri) (fun pixbuf =>
   rbind (png_roundtrip pixbuf) (fun image =>
   let image := convert_RGBA image in
   rbind (pil_crop x y width height image) (fun cropped =>
   rbind (polygon_mask x y width height points) (fun mask =>
   let cropped := putalpha mask cropped in
   png_roundtrip cropped))))), p).

Definition portal_get_screen_size (o : portal_outcome) (p : Portal)
    : result (nat * nat) * Portal :=
  let '(r, p) := _screenshot false o p in
  (match rbind r (fun uri => _load_uri p uri) with
   | Ok pixbuf => Ok (ScreenCapture.width pixbuf, ScreenCapture.height pixbuf)
   | Raise _ => Ok (1920%nat, 1080%nat)
   end, p).

(** The two variants behind the one capability. *)
Definition get_screen_size (b : Backend) : result (nat * nat) :=
  match b with
  | X11Backend root => x11_get_screen_size root
  | PortalBackend o p => fst (portal_get_screen_size o p)
  end.

End Backends.

(** The claim of the specification about [get_screen_size], at one
    backend: the call returns a size, it does not raise. *)
Definition screen_size_fails_soft (unquote_path : string -> string) (b : Backend) : Prop :=
  exists size, get_screen_size unquote_path b = Ok size.

(** A root window whose display connection is gone. *)
Definition lost_display : RootWindow :=
  {| connected := false; root_width := 1920; root_height := 1080;
     framebuffer := fun _ _ => {| red := Byte.x00; green := Byte.x00;
                                  blue := Byte.x00; padding := Byte.x00 |} |}.

Definition quiet_portal : Portal :=
  {| bus := {| subscriptions := ∅; next_subscription := 0 |}; image_files := ∅ |}.

(** A rectangle of the specification: a non-empty part of a [W] x [H]
    screen. *)
Definition valid_rectangle (W H : nat) (x y w h : Z) : Prop :=
  0 <= x /\ 0 <= y /\ 0 < w /\ 0 < h
  /\ x + w <= Z.of_nat W /\ y + h <= Z.of_nat H.

Definition rgb_of (p : xpixel) : rgb := (red p, green p, blue p).

(** The four bytes of one pixel in a ZPixmap reply. *)
Definition bgrx (p : xpixel) : list Byte.byte := [blue p; green p; red p; padding p].


(** The mask left by [Image.new("L", (width, height), 0)] when nothing
    is drawn on it. *)
Definition transparent_mask (w h : Z) : list Byte.byte :=
  replicate (Z.to_nat w * Z.to_nat h) Byte.x00.

(** The claim of the specification about degenerate polygons, at one
    X11 capture: the freeform capture is fully opaque and has the pixels
    of the region capture of the same box. *)
Definition degenerate_freeform_is_opaque_region
    (polygon : list (Z * Z) -> Z -> Z -> list Byte.byte -> list Byte.byte)
    (root : RootWindow) (x y w h : Z) (points : list (Z * Z)) : Prop :=
  exists img region,
    x11_capture_freeform polygon root x y w h points = Ok img
    /\ x11_capture_region root x y w h = Ok region
    /\ fully_opaque img = true
    /\ pixels img = pixels region.

(** A one-pixel screen, a rasterizer that fills the whole mask, and the
    identity for the path of a URI: concrete values to evaluate on. *)
Definition one_pixel_screen : RootWindow :=
  {| connected := true; root_width := 1; root_height := 1;
     framebuffer := fun _ _ => {| red := Byte.x10; green := Byte.x20;
                                  blue := Byte.x30; padding := Byte.x00 |} |}.

(** A 4 x 3 screen whose red channel tells the column and whose green
    channel tells the row. *)
Definition striped_screen : RootWindow :=
  {| connected := true; root_width := 4; root_height := 3;
     framebuffer := fun i j =>
       {| red := nth i [Byte.x10; Byte.x20; Byte.x30; Byte.x40] Byte.x00;
          green := nth j [Byte.x01; Byte.x02; Byte.x03] Byte.x00;
          blue := Byte.xff; padding := Byte.x00 |} |}.

Definition fill_all (points : list (Z * Z)) (w h : Z) (mask : list Byte.byte)
    : list Byte.byte :=
  map (fun _ => Byte.xff) mask.

Definition path_as_is (uri : string) : string := uri.

End ScreenCapture.

(** ** models/capture_mode.py, and the dispatch on it in ui/main_window.py *)
Module CaptureModes.

Inductive CaptureMode :=
  | RECTANGLE_SNIP
  | WINDOW_SNIP
  | FULLSCREEN_SNIP
  | FREEFORM_SNIP
  | RECTANGLE_VIDEO
  | WINDOW_VIDEO
  | FULLSCREEN_VIDEO.

#[global] Instance CaptureMode_eq_dec : EqDecision CaptureMode.
Proof. solve_decision. Defined.

Definition display_name (self : CaptureMode) : string :=
  match self with
  | RECTANGLE_SNIP => "Rectangle Snip"
  | WINDOW_SNIP => "Window Snip"
  | FULLSCREEN_SNIP => "Full-screen Snip"
  | FREEFORM_SNIP => "Freeform Snip"
  | RECTANGLE_VIDEO => "Rectangle Video"
  | WINDOW_VIDEO => "Window Video"
  | FULLSCREEN_VIDEO => "Full-screen Video"
  end.

(** [self in (a, b, ...)] *)
Definition among (self : CaptureMode) (modes : list CaptureMode) : bool :=
  existsb (fun m => bool_decide (self = m)) modes.

Definition is_video (self : CaptureMode) : bool :=
  among self [RECTANGLE_VIDEO; WINDOW_VIDEO; FULLSCREEN_VIDEO].

Definition is_screenshot (self : CaptureMode) : bool :=
  negb (is_video self).

Definition requires_window_selection (self : CaptureMode) : bool :=
  among self [WINDOW_SNIP; WINDOW_VIDEO].

Definition requires_rectangle_selection (self : CaptureMode) : bool :=
  among self [RECTANGLE_SNIP; RECTANGLE_VIDEO].

Definition requires_freeform_selection (self : CaptureMode) : bool :=
  bool_decide (self = FREEFORM_SNIP).

Definition is_fullscreen (self : CaptureMode) : bool :=
  among self [FULLSCREEN_SNIP; FULLSCREEN_VIDEO].

(** What [MainWindow._execute_capture] goes on to do; its [if]/[elif]
    chain has no [else], so a mode matching no test would do nothing. *)
Inductive capture_step :=
  | ShowRectangleOverlay
  | ShowWindowOverlay
  | ShowFreeformOverlay
  | CaptureFullscreen.

Definition _execute_capture (mode : CaptureMode) : option capture_step :=
  if requires_rectangle_selection mode then Some ShowRectangleOverlay
  else if requires_window_selection mode then Some ShowWindowOverlay
  else if requires_freeform_selection mode then Some ShowFreeformOverlay
  else if is_fullscreen mode then Some CaptureFullscreen
  else None.

End CaptureModes.

(** ** services/screen_capture.py *)
Module BackendFactory.
Import DisplayServerDetector.



End BackendFactory.

(** ** services/clipboard.py: the format a pixbuf is saved in *)
Module Clipboard.

(** ["." in path] *)
Fixpoint has_dot (path : string) : bool :=
  match path with
  | EmptyString => false
  | String c r => Ascii.eqb c "."%char || has_dot r
  end.

(** [path.rsplit(".", 1)[-1]]: what follows the last dot, the whole
    string when there is none. *)
Fixpoint rsplit_last (path : string) : string :=
  match path with
  | EmptyString => EmptyString
  | String c r =>
      if has_dot r then rsplit_last r
      else if Ascii.eqb c "."%char then r
      else String c r
  end.

Definition fmt_map : gmap string string :=
  <[ "jpg" := "jpeg" ]> (<[ "jpeg" := "jpeg" ]> (<[ "png" := "png" ]>
    (<[ "bmp" := "bmp" ]> (<[ "gif" := "gif" ]> ∅)))).

(** The [fmt] handed to [pixbuf.savev]. *)
Definition save_format (path : string) : string :=
  let ext := if has_dot path then lower (rsplit_last path) else "png" in
  match fmt_map !! ext with
  | Some fmt => fmt
  | None => "png"
  end.

(** [save_pixbuf]: [savev] either writes the file or raises, and the
    exception becomes [False]. *)
Definition save_pixbuf (savev : string -> string -> result unit) (path : string) : bool :=
  match savev path (save_format path) with
  | Ok _ => true
  | Raise _ => false
  end.

End Clipboard.

(** ** services/window_enum.py *)
Module WindowEnumeration.

Record WindowInfo := {
  window_id : Z;
  title : string;
  x : Z;
  y : Z;
  width : Z;
  height : Z
}.

(** What [get_geometry] answers for one window. *)
Record Geometry := {
  g_x : Z;
  g_y : Z;
  g_width : Z;
  g_height : Z
}.

(** What the X server answers about one id of the client list: whether
    any of the requests on it raises; the window's own geometry; the
    geometries of its successive parents up to, not including, the root
    (the windows the [while] loop visits after the first); the decoded
    [_NET_WM_NAME] and [WM_NAME], when set; and the value of
    [_NET_FRAME_EXTENTS], when set. *)
Record Client := {
  wid : Z;
  raises : bool;
  geom : Geometry;
  parents : list Geometry;
  net_wm_name : option string;
  wm_name : option string;
  frame_extents : option (list Z)
}.

(** The display: whether [Display()] and the atom and property requests
    go through, and the [_NET_CLIENT_LIST] property, when set. *)
Record Display := {
  answers : bool;
  client_list : option (list Client)
}.

(** The [while True] walk up the parent chain, summing the offsets. *)
Fixpoint walk (abs_x abs_y : Z) (g : Geometry) (above : list Geometry) : Z * Z :=
  let abs_x := abs_x + g_x g in
  let abs_y := abs_y + g_y g in
  match above with
  | [] => (abs_x, abs_y)
  | parent :: rest => walk abs_x abs_y parent rest
  end.

Definition absolute_position (c : Client) : Z * Z :=
  walk 0 0 (geom c) (parents c).

(** [left, right, top, bottom], zero unless the property has four values. *)
Definition extents (c : Client) : Z * Z * Z * Z :=
  match frame_extents c with
  | Some (left_ :: right_ :: top_ :: bottom_ :: _) => (left_, right_, top_, bottom_)
  | _ => (0, 0, 0, 0)
  end.

Definition resolve_title (c : Client) : string :=
  let title := if truthy (net_wm_name c) then default "" (net_wm_name c) else "" in
  if negb (String.eqb title "") then title
  else if truthy (wm_name c) then default "" (wm_name c) else "".

(** The body of the [for] loop: the entry appended for one id, if any. *)
Definition window_info (c : Client) : option WindowInfo :=
  if raises c then None
  else
    let '(abs_x, abs_y) := absolute_position c in
    let title := resolve_title c in
    if String.eqb title "" then None
    else
      let '(left_, right_, top_, bottom_) := extents c in
      let x := abs_x - left_ in
      let y := abs_y - top_ in
      let width := g_width (geom c) + left_ + right_ in
      let height := g_height (geom c) + top_ + bottom_ in
      if (1 <? width) && (1 <? height)
      then Some {| window_id := wid c; title := title; x := x; y := y;
                   width := width; height := height |}
      else None.

Definition _get_windows_xlib (d : Display) : result (list WindowInfo) :=
  if negb (answers d) then Raise (XError "DisplayConnectionError")
  else
    match client_list d with
    | None => Ok []
    | Some window_ids => Ok (omap window_info window_ids)
    end.

Definition get_windows (d : Display) : list WindowInfo :=
  match _get_windows_xlib d with
  | Ok windows => windows
  | Raise _ => []
  end.

Definition contains_point (win : WindowInfo) (px py : Z) : bool :=
  (x win <=? px) && (px <=? x win + width win)
  && (y win <=? py) && (py <=? y win + height win).

Definition get_window_at_position (d : Display) (px py : Z) : option WindowInfo :=
  let windows := get_windows d in
  find (fun win => contains_point win px py) (rev windows).

(** A desktop with a terminal (framed, inside a reparenting frame window)
    under an untitled helper window and a small dialog on top. *)
Definition terminal_client : Client :=
  {| wid := 4194310; raises := false;
     geom := {| g_x := 2; g_y := 30; g_width := 800; g_height := 600 |};
     parents := [ {| g_x := 100; g_y := 50; g_width := 804; g_height := 632 |} ];
     net_wm_name := Some "Terminal"; wm_name := Some "xterm";
     frame_extents := Some [2; 2; 30; 2] |}.

Definition helper_client : Client :=
  {| wid := 4194320; raises := false;
     geom := {| g_x := 0; g_y := 0; g_width := 10; g_height := 10 |};
     parents := []; net_wm_name := None; wm_name := Some "";
     frame_extents := None |}.

Definition dialog_client : Client :=
  {| wid := 4194330; raises := false;
     geom := {| g_x := 300; g_y := 200; g_width := 200; g_height := 100 |};
     parents := []; net_wm_name := Some ""; wm_name := Some "Save as";
     frame_extents := Some [1; 1] |}.

Definition desktop : Display :=
  {| answers := true;
     client_list := Some [terminal_client; helper_client; dialog_client] |}.

End WindowEnumeration.

(** ** More of the capture backends *)
Module CaptureRuns.
Import ScreenCapture.

(** [X11ScreenCapture.capture_desktop_image]: the PIL image, without the
    trip through PNG. *)
Definition x11_capture_desktop_image (root : RootWindow) : result Image :=
  rbind (get_geometry root) (fun geom =>
  rbind (get_image root 0 0 (Z.of_nat (fst geom)) (Z.of_nat (snd geom))) (fun raw =>
  rbind (frombytes_RGBX (Z.of_nat (fst geom)) (Z.of_nat (snd geom)) raw) (fun image =>
  Ok (convert_RGB image)))).

(** The alpha channel [capture_freeform] puts on a [width] x [height]
    box: the polygon drawn over the empty mask when it has three points
    or more, the empty mask otherwise. *)
Definition freeform_mask
    (polygon : list (Z * Z) -> Z -> Z -> list Byte.byte -> list Byte.byte)
    (x y width height : Z) (points : list (Z * Z)) : list Byte.byte :=
  if (3 <=? length points)%nat
  then polygon (local_points x y points) width height (transparent_mask width height)
  else transparent_mask width height.

(** A point lies in the box, or in the mask of the box. *)
Definition in_box (x y width height : Z) (p : Z * Z) : Prop :=
  x <= fst p < x + width /\ y <= snd p < y + height.

(** One [_screenshot] request after the other on the same bus, each with
    its own portal outcome. *)
Definition take_screenshots (outcomes : list portal_outcome) (p : Portal) : Portal :=
  fold_left (fun p o => snd (_screenshot false o p)) outcomes p.

Definition call_raises (o : portal_outcome) : bool :=
  match o with CallRaises _ => true | _ => false end.

(** Subscription ids are handed out in increasing order: every id in use
    is below the next one. *)
Definition bus_fresh (b : Bus) : Prop :=
  forall i, i ∈ subscriptions b -> (i < next_subscription b)%nat.

(** A portal that has written a two-pixel screenshot, and the reply that
    points at it. *)
Definition saved_shot : Image :=
  {| ScreenCapture.width := 2; ScreenCapture.height := 1;
     pixels := [(Byte.x10, Byte.x20, Byte.x30); (Byte.x40, Byte.x50, Byte.x60)];
     extra := NoBand |}.

Definition portal_with_shot : Portal :=
  {| bus := {| subscriptions := ∅; next_subscription := 0 |};
     image_files := {[ "/tmp/shot.png" := saved_shot ]} |}.

Definition shot_reply : portal_outcome :=
  Responds 0 {| uri := Some "/tmp/shot.png"; streams := None |}.

End CaptureRuns.

(** ** More of the recording supervisor *)
Module RecordingRuns.
Import DisplayServerDetector VideoRecording.

(** The idle callback a stop worker queues for an outcome of
    [communicate], given the service and the files it sees. *)
Definition worker_callback (o : communicate_outcome) (y : System) : idle_callback :=
  match o with
  | Exited returncode stderr_data =>
      _on_done returncode (_current_path (svc y))
        (if truthy (_current_path (svc y))
            && os_path_exists (world y) (default "" (_current_path (svc y)))
         then os_path_getsize (world y) (default "" (_current_path (svc y)))
         else -1)
        stderr_data
  | TimeoutExpired => _on_timeout
  | CommunicateError message => _on_error message
  end.

(** Whether an idle callback takes the Completed branch, the state it
    sets, the report it makes and the handler the report goes to. *)
Definition idle_succeeds (c : idle_callback) : bool :=
  match c with
  | _on_done returncode file_path file_size _ =>
      Z.eqb returncode 0 && truthy file_path && Z.ltb 0 file_size
  | _ => false
  end.

Definition idle_state (c : idle_callback) : RecordingState :=
  if idle_succeeds c then COMPLETED else FAILED.

Definition idle_report (c : idle_callback) : callback_call :=
  match c with
  | _on_done returncode file_path file_size stderr_data =>
      if idle_succeeds c then RecordingCompleted (default "" file_path)
      else RecordingFailed ("FFmpeg exited with code " +:+ pretty returncode
                            +:+ ": " +:+ last_chars 500 stderr_data)
  | _on_timeout => RecordingFailed "Recording stop timed out"
  | _on_error err_msg => RecordingFailed err_msg
  end.

Definition idle_handler (c : idle_callback) (s : VideoRecordingService) : bool :=
  if idle_succeeds c then on_recording_completed s else on_recording_failed s.

(** The owner of the service assigns its [on_*] attributes after
    constructing it, as [MainWindow.__init__] does with all four. *)
Definition with_handlers (state_changed duration_changed completed failed : bool)
    (s : VideoRecordingService) : VideoRecordingService :=
  {| _display_server := _display_server s; _process := _process s; _state := _state s;
     _duration_seconds := _duration_seconds s; _timer_id := _timer_id s;
     _current_path := _current_path s; _pipewire_node_id := _pipewire_node_id s;
     on_state_changed := state_changed; on_duration_changed := duration_changed;
     on_recording_completed := completed; on_recording_failed := failed |}.

(** The service as the main window holds it before the first request. *)
Definition wired_service (display_server : DisplayServer) : VideoRecordingService :=
  with_handlers true true true true (init display_server).

(** While Recording the service holds a process and its tick timer is
    installed. *)
Definition recording_is_equipped (y : System) : Prop :=
  _state (svc y) = RECORDING ->
  (exists proc, _process (svc y) = Some proc)
  /\ (exists id, _timer_id (svc y) = Some id /\ id ∈ glib_sources (world y)).

(** The string has no dot. *)
Fixpoint dot_free (s : string) : bool :=
  match s with
  | EmptyString => true
  | String c r => negb (Ascii.eqb c "."%char) && dot_free r
  end.

(** A launch on a machine without the encoder. *)
Definition failing_launch : Launch :=
  {| tempdir := "/tmp"; timestamp := "20240101_120500";
     popen_error := Some "[Errno 2] No such file or directory: 'ffmpeg'" |}.

(** Six characters in nine bytes: an accented letter takes two bytes,
    the euro sign three. *)
Definition accented_text : string :=
  "caf" +:+ String (ascii_of_nat 195) (String (ascii_of_nat 169)
    (String " " (String (ascii_of_nat 226) (String (ascii_of_nat 130)
      (String (ascii_of_nat 172) EmptyString))))).

End RecordingRuns.

(** * Properties *)

(** ** Display-server detection *)
Section DetectorProperties.
Import DisplayServerDetector.

(** C7: detection is a total function of the environment and equals the
    first-match scan over the four signals in the order session type,
    backend override, Wayland display handle, X11 display handle, with
    Unknown when none decides; with XDG_SESSION_TYPE=wayland the answer
    is Wayland whatever DISPLAY (or any other variable) holds. *)
Theorem get_display_server_priority :
  (forall environ : gmap string string,
      get_display_server environ = detect_by_priority environ)
  /\ (forall (environ : gmap string string) (display : string),
         get_display_server
           (<[ "XDG_SESSION_TYPE" := "wayland" ]> (<[ "DISPLAY" := display ]> environ))
         = WAYLAND).
Proof.
  split.
  - intros environ.
    unfold get_display_server, detect_by_priority, session_type_signal,
      backend_override_signal, wayland_display_handle, x11_display_handle,
      named_backend.
    destruct (String.eqb (lower (environ_get environ "XDG_SESSION_TYPE" "")) "wayland");
      [reflexivity |].
    destruct (String.eqb (lower (environ_get environ "XDG_SESSION_TYPE" "")) "x11");
      [reflexivity |].
    destruct (String.eqb (lower (environ_get environ "GDK_BACKEND" "")) "wayland");
      [reflexivity |].
    destruct (String.eqb (lower (environ_get environ "GDK_BACKEND" "")) "x11");
      [reflexivity |].
    cbn [first_match].
    destruct (truthy (environ !! "WAYLAND_DISPLAY")); [reflexivity |].
    destruct (truthy (environ !! "DISPLAY")); reflexivity.
  - intros environ display.
    unfold get_display_server, environ_get.
    rewrite lookup_insert_eq. reflexivity.
Qed.

End DetectorProperties.

(** ** The recording supervisor *)
Section RecordingProperties.
Import DisplayServerDetector VideoRecording.

(** How the building blocks act on each component of the system. *)
Lemma set_state_world st y : world (_set_state st y) = world y.
Proof.
  unfold _set_state, invoke. case_bool_decide; [| reflexivity].
  destruct (on_state_changed (svc y)); reflexivity.
Qed.

Lemma set_state_state st y : _state (svc (_set_state st y)) = st.
Proof.
  unfold _set_state, invoke. case_bool_decide as H.
  - destruct (on_state_changed (svc y)); reflexivity.
  - destruct (decide (_state (svc y) = st)) as [E | E]; [exact E | contradiction].
Qed.

Lemma set_state_svc st y : svc (_set_state st y) = with_state st (svc y).
Proof.
  unfold _set_state, invoke. case_bool_decide as H.
  - destruct (on_state_changed (svc y)); reflexivity.
  - destruct (decide (_state (svc y) = st)) as [E | E]; [| contradiction].
    subst st. destruct y as [s w c t q]. destruct s. reflexivity.
Qed.

Lemma set_state_calls st y :
  calls (_set_state st y) =
  calls y ++ (if bool_decide (_state (svc y) ≠ st) && on_state_changed (svc y)
              then [StateChanged st] else []).
Proof.
  unfold _set_state, invoke. case_bool_decide; simpl.
  - destruct (on_state_changed (svc y)); simpl; [reflexivity | now rewrite app_nil_r].
  - now rewrite app_nil_r.
Qed.

Lemma set_state_workers st y : stop_workers (_set_state st y) = stop_workers y.
Proof.
  unfold _set_state, invoke. case_bool_decide; [| reflexivity].
  destruct (on_state_changed (svc y)); reflexivity.
Qed.

Lemma set_state_idle st y : idle_queue (_set_state st y) = idle_queue y.
Proof.
  unfold _set_state, invoke. case_bool_decide; [| reflexivity].
  destruct (on_state_changed (svc y)); reflexivity.
Qed.

(** Setting the state to the value it has changes nothing. *)
Lemma set_state_same y : _set_state (_state (svc y)) y = y.
Proof.
  unfold _set_state. case_bool_decide as H; [contradiction | reflexivity].
Qed.

Lemma invoke_svc b c y : svc (invoke b c y) = svc y.
Proof. destruct b; reflexivity. Qed.

Lemma invoke_world b c y : world (invoke b c y) = world y.
Proof. destruct b; reflexivity. Qed.

Lemma invoke_calls b c y : calls (invoke b c y) = calls y ++ (if b then [c] else []).
Proof. destruct b; simpl; [reflexivity | now rewrite app_nil_r]. Qed.

Lemma stop_timer_calls y : calls (_stop_duration_timer y) = calls y.
Proof. unfold _stop_duration_timer. destruct (_timer_id (svc y)); reflexivity. Qed.

Lemma stop_timer_state y : _state (svc (_stop_duration_timer y)) = _state (svc y).
Proof. unfold _stop_duration_timer. destruct (_timer_id (svc y)); reflexivity. Qed.

Lemma stop_timer_path y :
  _current_path (svc (_stop_duration_timer y)) = _current_path (svc y).
Proof. unfold _stop_duration_timer. destruct (_timer_id (svc y)); reflexivity. Qed.

Lemma stop_timer_process y : _process (svc (_stop_duration_timer y)) = _process (svc y).
Proof. unfold _stop_duration_timer. destruct (_timer_id (svc y)); reflexivity. Qed.

Lemma stop_timer_handlers y :
  on_state_changed (svc (_stop_duration_timer y)) = on_state_changed (svc y)
  /\ on_recording_completed (svc (_stop_duration_timer y)) = on_recording_completed (svc y)
  /\ on_recording_failed (svc (_stop_duration_timer y)) = on_recording_failed (svc y).
Proof. unfold _stop_duration_timer. destruct (_timer_id (svc y)); auto. Qed.

Lemma stop_timer_files y : files (world (_stop_duration_timer y)) = files (world y).
Proof. unfold _stop_duration_timer. destruct (_timer_id (svc y)); reflexivity. Qed.

Lemma stop_timer_denied y :
  unlink_denied (world (_stop_duration_timer y)) = unlink_denied (world y).
Proof. unfold _stop_duration_timer. destruct (_timer_id (svc y)); reflexivity. Qed.

Lemma stop_timer_popen y :
  popen_calls (world (_stop_duration_timer y)) = popen_calls (world y).
Proof. unfold _stop_duration_timer. destruct (_timer_id (svc y)); reflexivity. Qed.

Lemma stop_timer_queues y :
  stop_workers (_stop_duration_timer y) = stop_workers y
  /\ idle_queue (_stop_duration_timer y) = idle_queue y.
Proof. unfold _stop_duration_timer. destruct (_timer_id (svc y)); auto. Qed.

(** *** Notifications follow state changes *)
Lemma no_adjacent_repeat_snoc (l : list RecordingState) (a : RecordingState) :
  no_adjacent_repeat l ->
  (forall b, last l = Some b -> b <> a) ->
  no_adjacent_repeat (l ++ [a]).
Proof.
  induction l as [| x l IH]; intros Hl Hlast; [exact I |].
  destruct l as [| x' l'].
  - simpl. split; [| exact I]. apply Hlast. reflexivity.
  - destruct Hl as [Hne Hrest]. change ((x :: x' :: l') ++ [a]) with (x :: (x' :: l') ++ [a]).
    change ((x' :: l') ++ [a]) with (x' :: l' ++ [a]) at 1.
    split; [exact Hne |].
    apply IH; [exact Hrest |].
    intros b Hb. apply Hlast. exact Hb.
Qed.

Lemma same_view_refl y : same_view y y.
Proof. repeat split. Qed.

Lemma same_view_trans y1 y2 y3 : same_view y1 y2 -> same_view y2 y3 -> same_view y1 y3.
Proof.
  intros (A1 & A2 & A3) (B1 & B2 & B3). repeat split; congruence.
Qed.

Lemma track_same_view y y' :
  same_view y y' -> notifications_track_state y -> notifications_track_state y'.
Proof.
  intros (Hc & Hs & Hh) (I1 & I2 & I3). unfold notifications_track_state.
  rewrite Hc, Hs, Hh. auto.
Qed.

Lemma track_set_state st y :
  notifications_track_state y -> notifications_track_state (_set_state st y).
Proof.
  intros (I1 & I2 & I3). unfold notifications_track_state.
  rewrite set_state_calls, set_state_svc. simpl.
  unfold state_notifications in *. rewrite omap_app.
  case_bool_decide as Hne; simpl.
  - destruct (on_state_changed (svc y)) eqn:Hh; simpl.
    + split; [| split].
      * apply no_adjacent_repeat_snoc; [exact I1 |].
        intros b Hb. apply I3 in Hb. congruence.
      * discriminate.
      * intros st'. rewrite last_snoc. congruence.
    + rewrite app_nil_r. rewrite (I2 eq_refl). simpl.
      split; [exact I | split; [reflexivity | discriminate]].
  - rewrite app_nil_r.
    assert (E : _state (svc y) = st) by (destruct (decide (_state (svc y) = st)); tauto).
    split; [exact I1 | split; [exact I2 |]].
    intros st' Hst'. apply I3 in Hst'. congruence.
Qed.

Lemma view_on_svc f y :
  (forall s, _state (f s) = _state s /\ on_state_changed (f s) = on_state_changed s) ->
  same_view y (on_svc f y).
Proof. intros H. destruct (H (svc y)). repeat split; assumption. Qed.

Lemma view_on_world f y : same_view y (on_world f y).
Proof. repeat split. Qed.

Lemma view_invoke b c y :
  (forall st, c <> StateChanged st) -> same_view y (invoke b c y).
Proof.
  intros Hc. destruct b; [| apply same_view_refl].
  repeat split. simpl. unfold state_notifications. rewrite omap_app. simpl.
  destruct c; try now rewrite app_nil_r. now specialize (Hc state).
Qed.

Lemma view_stop_timer y : same_view y (_stop_duration_timer y).
Proof.
  unfold _stop_duration_timer. destruct (_timer_id (svc y)); repeat split.
Qed.

Lemma view_start_timer y : same_view y (_start_duration_timer y).
Proof. repeat split. Qed.

Lemma view_tick id y : same_view y (tick id y).
Proof.
  unfold tick. repeat case_bool_decide; try apply same_view_refl.
  - eapply same_view_trans; [| apply view_invoke; discriminate].
    repeat split.
  - repeat split.
Qed.

Lemma view_spawn_worker proc y : same_view y (spawn_worker proc y).
Proof. repeat split. Qed.

Lemma view_idle_add c y : same_view y (idle_add c y).
Proof. repeat split. Qed.

Lemma view_take_worker i y : same_view y (take_worker i y).
Proof. repeat split. Qed.

Lemma view_pop_idle y : same_view y (pop_idle y).
Proof. repeat split. Qed.

Ltac frame :=
  lazymatch goal with
  | |- notifications_track_state (_set_state _ _) => apply track_set_state
  | |- notifications_track_state (invoke _ _ _) =>
      eapply track_same_view; [apply view_invoke; intros ?; discriminate |]
  | |- notifications_track_state (on_world _ _) =>
      eapply track_same_view; [apply view_on_world |]
  | |- notifications_track_state (on_svc _ _) =>
      eapply track_same_view; [apply view_on_svc; intros []; split; reflexivity |]
  | |- notifications_track_state (_stop_duration_timer _) =>
      eapply track_same_view; [apply view_stop_timer |]
  | |- notifications_track_state (_start_duration_timer _) =>
      eapply track_same_view; [apply view_start_timer |]
  | |- notifications_track_state (tick _ _) =>
      eapply track_same_view; [apply view_tick |]
  | |- notifications_track_state (spawn_worker _ _) =>
      eapply track_same_view; [apply view_spawn_worker |]
  | |- notifications_track_state (idle_add _ _) =>
      eapply track_same_view; [apply view_idle_add |]
  | |- notifications_track_state (take_worker _ _) =>
      eapply track_same_view; [apply view_take_worker |]
  | |- notifications_track_state (pop_idle _) =>
      eapply track_same_view; [apply view_pop_idle |]
  end.

Lemma track_start region l y :
  notifications_track_state y -> notifications_track_state (_start_recording region l y).
Proof.
  intros Hy. unfold _start_recording.
  destruct (_ || _); [exact Hy |].
  destruct (popen_error l); repeat frame; exact Hy.
Qed.

Lemma track_stop y :
  notifications_track_state y -> notifications_track_state (stop_recording y).
Proof.
  intros Hy. unfold stop_recording.
  destruct (_process (svc y)); [| exact Hy].
  case_bool_decide; [exact Hy |].
  repeat frame. exact Hy.
Qed.

Lemma track_cancel y :
  notifications_track_state y -> notifications_track_state (cancel_recording y).
Proof.
  intros Hy. unfold cancel_recording. frame.
  destruct (_ && _).
  - destruct (os_remove _ _); destruct (_process _); repeat frame; exact Hy.
  - destruct (_process _); repeat frame; exact Hy.
Qed.

Lemma track_stop_worker proc o y :
  notifications_track_state y -> notifications_track_state (_stop_worker proc o y).
Proof.
  intros Hy. destruct o; simpl; repeat frame; exact Hy.
Qed.

Lemma track_run_idle c y :
  notifications_track_state y -> notifications_track_state (run_idle c y).
Proof.
  intros Hy. destruct c; simpl; [destruct (_ && _) |..]; repeat frame; exact Hy.
Qed.

Lemma track_step o y :
  notifications_track_state y -> notifications_track_state (step o y).
Proof.
  intros Hy. destruct o; simpl.
  - apply track_start, Hy.
  - apply track_start, Hy.
  - apply track_start, Hy.
  - apply track_stop, Hy.
  - apply track_cancel, Hy.
  - apply track_cancel, Hy.
  - unfold set_pipewire_node. frame. exact Hy.
  - frame. exact Hy.
  - destruct (stop_workers y !! i); [| exact Hy].
    apply track_stop_worker. frame. exact Hy.
  - destruct (idle_queue y); [exact Hy |].
    apply track_run_idle. frame. exact Hy.
  - frame. exact Hy.
Qed.

Lemma track_run ops y :
  notifications_track_state y -> notifications_track_state (run ops y).
Proof.
  revert y. induction ops as [| o ops IH]; intros y Hy; [exact Hy |].
  simpl. apply IH, track_step, Hy.
Qed.

Lemma track_boot s w : notifications_track_state (boot s w).
Proof. split; [exact I | split; [reflexivity | discriminate]]. Qed.

(** *** What [cancel_recording] does to each component *)
Lemma cancel_decompose y :
  exists y1,
    cancel_recording y = _set_state IDLE y1
    /\ calls y1 = calls y
    /\ _state (svc y1) = _state (svc y)
    /\ on_state_changed (svc y1) = on_state_changed (svc y)
    /\ _current_path (svc y1) = _current_path (svc y)
    /\ _process (svc y1) = None
    /\ popen_calls (world y1) = popen_calls (world y).
Proof.
  unfold cancel_recording. eexists. split; [reflexivity |]. cbv zeta.
  destruct (stop_timer_handlers y) as (Hh & _ & _).
  destruct (_process (svc (_stop_duration_timer y))) eqn:Hp.
  - destruct (truthy _ && _).
    + destruct (os_remove _ _) eqn:Hr; simpl;
        rewrite ?stop_timer_calls, ?stop_timer_state, ?stop_timer_path,
          ?stop_timer_popen, ?Hh; auto 10.
      unfold os_remove in Hr. repeat case_match; try discriminate.
      injection Hr as <-. simpl. rewrite stop_timer_popen. auto 10.
    + simpl. rewrite ?stop_timer_calls, ?stop_timer_state, ?stop_timer_path,
          ?stop_timer_popen, ?Hh; auto 10.
  - destruct (truthy _ && _).
    + destruct (os_remove _ _) eqn:Hr; simpl;
        rewrite ?stop_timer_calls, ?stop_timer_state, ?stop_timer_path,
          ?stop_timer_popen, ?Hh, ?Hp; auto 10.
      unfold os_remove in Hr. repeat case_match; try discriminate.
      injection Hr as <-. simpl. rewrite stop_timer_popen. auto 10.
    + rewrite ?stop_timer_calls, ?stop_timer_state, ?stop_timer_path,
          ?stop_timer_popen, ?Hh, ?Hp; auto 10.
Qed.

Lemma cancel_state y : _state (svc (cancel_recording y)) = IDLE.
Proof. unfold cancel_recording. apply set_state_state. Qed.

Lemma cancel_calls y :
  calls (cancel_recording y) =
  calls y ++ (if bool_decide (_state (svc y) ≠ IDLE) && on_state_changed (svc y)
              then [StateChanged IDLE] else []).
Proof.
  destruct (cancel_decompose y) as (y1 & -> & Hc & Hs & Hh & _).
  rewrite set_state_calls, Hc, Hs, Hh. reflexivity.
Qed.

(** C10: [_set_state] with the current state changes nothing and
    notifies nobody; in every run of the supervisor from a fresh start,
    whatever the operations and their outcomes, no two consecutive
    [on_state_changed] calls carry the same state; and
    [cancel_recording] on an Idle service makes no callback call. *)
Theorem state_changed_only_on_change :
  (forall y, _set_state (_state (svc y)) y = y)
  /\ (forall s w ops,
         no_adjacent_repeat (state_notifications (calls (run ops (boot s w)))))
  /\ (forall y, _state (svc y) = IDLE -> calls (cancel_recording y) = calls y).
Proof.
  split; [exact set_state_same | split].
  - intros s w ops. apply (track_run ops (boot s w) (track_boot s w)).
  - intros y Hidle. rewrite cancel_calls, Hidle.
    rewrite bool_decide_eq_false_2 by (intros H; now apply H).
    apply app_nil_r.
Qed.

Lemma state_changed_only_on_change_witness :
  on_state_changed (svc cancelled_recording) = true
  /\ _state (svc cancelled_recording) = IDLE
  /\ calls cancelled_recording = [StateChanged IDLE]
  /\ calls (cancel_recording cancelled_recording) = calls cancelled_recording.
Proof.
  split; [reflexivity |]. split; [reflexivity |]. split; [reflexivity |].
  apply (proj2 (proj2 state_changed_only_on_change) cancelled_recording).
  reflexivity.
Defined.

Lemma cancel_files y :
  files (world (cancel_recording y)) =
  match _current_path (svc y) with
  | Some p =>
      if negb (String.eqb p "") && bool_decide (is_Some (files (world y) !! p))
         && negb (bool_decide (p ∈ unlink_denied (world y)))
      then delete p (files (world y))
      else files (world y)
  | None => files (world y)
  end.
Proof.
  unfold cancel_recording. rewrite set_state_world. cbv zeta.
  assert (Hw : forall y0 : System,
             files (world match _process (svc y0) with
                          | Some proc => on_world (reap proc) (on_svc (with_process None) y0)
                          | None => y0
                          end) = files (world y0)
             /\ unlink_denied (world match _process (svc y0) with
                          | Some proc => on_world (reap proc) (on_svc (with_process None) y0)
                          | None => y0
                          end) = unlink_denied (world y0)
             /\ _current_path (svc match _process (svc y0) with
                          | Some proc => on_world (reap proc) (on_svc (with_process None) y0)
                          | None => y0
                          end) = _current_path (svc y0)).
  { intros y0. destruct (_process (svc y0)); auto. }
  destruct (Hw (_stop_duration_timer y)) as (Hf & Hd & Hp).
  set (y1 := match _process (svc (_stop_duration_timer y)) with
             | Some proc => _ | None => _ end) in *.
  rewrite stop_timer_files in Hf. rewrite stop_timer_denied in Hd.
  rewrite stop_timer_path in Hp.
  rewrite Hp. unfold os_remove, os_path_exists. rewrite Hf, Hd.
  destruct (_current_path (svc y)) as [p |]; simpl; [| exact Hf].
  destruct (negb (String.eqb p "")); simpl; [| exact Hf].
  destruct (bool_decide (is_Some (files (world y) !! p))); simpl; [| exact Hf].
  destruct (bool_decide (p ∈ unlink_denied (world y))); simpl; [exact Hf |].
  reflexivity.
Qed.

Lemma exists_after_delete (w : World) (p : string) (m : gmap string Z) :
  files w = delete p m -> os_path_exists w p = false.
Proof.
  intros E. unfold os_path_exists. rewrite E, lookup_delete_eq.
  rewrite bool_decide_eq_false_2 by (intros [? ?]; discriminate).
  apply andb_false_r.
Qed.

(** C3 (as amended): from every prior state [cancel_recording] leaves
    the service Idle and makes no Completed or Failed report -- its only
    possible call is the Idle state notification.  It deletes the output
    file, so nothing is left at the output path, unless the OS refuses
    the deletion: that error is swallowed and the files stay as they
    were. *)
Theorem cancel_recording_idle_and_silent (y : System) :
  _state (svc (cancel_recording y)) = IDLE
  /\ (exists new, calls (cancel_recording y) = calls y ++ new
                  /\ (new = [] \/ new = [StateChanged IDLE]))
  /\ (forall p, _current_path (svc y) = Some p ->
                p ∉ unlink_denied (world y) ->
                os_path_exists (world (cancel_recording y)) p = false)
  /\ (forall p, _current_path (svc y) = Some p ->
                p ∈ unlink_denied (world y) ->
                files (world (cancel_recording y)) = files (world y)).
Proof.
  split; [apply cancel_state | split; [| split]].
  - eexists. split; [apply cancel_calls |].
    destruct (_ && _); auto.
  - intros p Hp Hfree.
    destruct (os_path_exists (world y) p) eqn:Hex.
    + apply exists_after_delete with (m := files (world y)).
      rewrite cancel_files, Hp. unfold os_path_exists in Hex. rewrite Hex.
      rewrite bool_decide_eq_false_2 by exact Hfree. reflexivity.
    + unfold os_path_exists in *. rewrite cancel_files, Hp.
      destruct (negb (String.eqb p "")); simpl in *; [| reflexivity].
      rewrite Hex. simpl. exact Hex.
  - intros p Hp Hden. rewrite cancel_files, Hp.
    rewrite (bool_decide_eq_true_2 _ Hden). simpl. rewrite andb_false_r. reflexivity.
Qed.

Lemma cancel_recording_idle_and_silent_witness :
  _current_path (svc recording_with_output)
    = Some "/tmp/snipr/Recording_20240101_120000.mp4"
  /\ ("/tmp/snipr/Recording_20240101_120000.mp4"
        ∉ unlink_denied (world recording_with_output))
  /\ os_path_exists (world (cancel_recording recording_with_output))
       "/tmp/snipr/Recording_20240101_120000.mp4" = false.
Proof.
  split; [reflexivity |].
  split; [simpl; set_solver |].
  apply (cancel_recording_idle_and_silent recording_with_output);
    [reflexivity | simpl; set_solver].
Defined.

(** C3 (as stated) fails: the recording whose output cannot be unlinked
    is Recording before the cancel and still has its file afterwards. *)
Lemma cancel_recording_may_leave_file :
  _state (svc recording_with_undeletable_output) = RECORDING
  /\ ~ cancel_leaves_no_file recording_with_undeletable_output.
Proof.
  split; [reflexivity |].
  intros (_ & Hfile & _).
  specialize (Hfile _ eq_refl).
  vm_compute in Hfile. discriminate.
Qed.

Ltac sys_simpl :=
  repeat (progress (rewrite ?set_state_world, ?set_state_svc, ?invoke_svc, ?invoke_world;
                    cbn [svc world calls stop_workers idle_queue on_svc on_world])).

(** *** Starting a recording *)
Lemma busy_guard st :
  bool_decide (st = RECORDING) || bool_decide (st = PREPARING)
  || bool_decide (st = STOPPING) = busy st.
Proof. destruct st; reflexivity. Qed.

Lemma start_busy region l y :
  busy (_state (svc y)) = true -> _start_recording region l y = y.
Proof. intros Hb. unfold _start_recording. rewrite busy_guard, Hb. reflexivity. Qed.

Lemma start_free region l y :
  busy (_state (svc y)) = false ->
  popen_calls (world (_start_recording region l y))
    = popen_calls (world y) ++ [argv_of region l y]
  /\ (exists rest,
         calls (_start_recording region l y) =
         calls y ++ (if on_state_changed (svc y) then [StateChanged PREPARING] else [])
                 ++ rest)
  /\ match popen_error l with
     | None =>
         _state (svc (_start_recording region l y)) = RECORDING
         /\ _process (svc (_start_recording region l y)) = Some (next_pid (world y))
         /\ next_pid (world y) ∈ running (world (_start_recording region l y))
     | Some e =>
         _state (svc (_start_recording region l y)) = FAILED
         /\ _process (svc (_start_recording region l y)) = _process (svc y)
     end.
Proof.
  intros Hb. unfold _start_recording. rewrite busy_guard, Hb. cbv zeta.
  assert (Hne : bool_decide (_state (svc y) ≠ PREPARING) = true).
  { apply bool_decide_eq_true_2. intros E. rewrite E in Hb. discriminate. }
  destruct (popen_error l) as [e |].
  - split; [| split; [| split]].
    + sys_simpl. cbn [with_popen popen_calls]. sys_simpl. reflexivity.
    + eexists. rewrite invoke_calls, set_state_calls.
      cbn [calls on_world on_svc svc]. rewrite set_state_calls, Hne.
      rewrite <- !app_assoc. reflexivity.
    + rewrite invoke_svc. apply set_state_state.
    + sys_simpl. reflexivity.
  - split; [| split; [| split; [| split]]].
    + unfold _start_duration_timer. sys_simpl.
      cbn [with_sources with_popen popen_calls]. sys_simpl. reflexivity.
    + eexists. unfold _start_duration_timer. cbn [calls on_world on_svc].
      rewrite set_state_calls. cbn [calls on_world on_svc svc].
      rewrite set_state_calls, Hne. rewrite <- !app_assoc. reflexivity.
    + unfold _start_duration_timer. sys_simpl. reflexivity.
    + unfold _start_duration_timer. sys_simpl. reflexivity.
    + unfold _start_duration_timer. sys_simpl.
      cbn [with_sources with_popen running]. sys_simpl. set_solver.
Qed.

Lemma step_start o l y :
  start_of o = Some l -> exists region, step o y = _start_recording region l y.
Proof.
  destruct o; simpl; intros [= <-]; eexists; reflexivity.
Qed.

(** C4 (as amended): a start call is accepted -- it makes one encoder
    launch, after going through Preparing -- exactly when the state is
    none of Recording, Preparing, Stopping, that is from Idle, Completed
    and Failed alike; in Recording, Preparing and Stopping it returns
    the system untouched (state, process handle and everything else).
    An accepted call notifies Preparing first when a handler is
    registered and ends in Recording holding the new process, or in
    Failed with the old handle when the launch raises. *)
Theorem start_accepted_unless_busy (o : op) (l : Launch) (y : System) :
  start_of o = Some l ->
  (launches_encoder y (step o y) <-> busy (_state (svc y)) = false)
  /\ (busy (_state (svc y)) = true -> step o y = y)
  /\ (busy (_state (svc y)) = false ->
      (exists rest,
          calls (step o y) =
          calls y ++ (if on_state_changed (svc y) then [StateChanged PREPARING] else [])
                  ++ rest)
      /\ match popen_error l with
         | None =>
             _state (svc (step o y)) = RECORDING
             /\ _process (svc (step o y)) = Some (next_pid (world y))
             /\ next_pid (world y) ∈ running (world (step o y))
         | Some _ =>
             _state (svc (step o y)) = FAILED
             /\ _process (svc (step o y)) = _process (svc y)
         end).
Proof.
  intros Ho. destruct (step_start o l y Ho) as [region ->].
  split; [| split].
  - unfold launches_encoder. split.
    + intros Hlen. destruct (busy (_state (svc y))) eqn:Hb; [| reflexivity].
      rewrite (start_busy region l y Hb) in Hlen. lia.
    + intros Hb. destruct (start_free region l y Hb) as (-> & _).
      rewrite length_app. simpl. lia.
  - apply start_busy.
  - intros Hb. destruct (start_free region l y Hb) as (_ & Hc & Hr).
    split; assumption.
Qed.

Lemma start_accepted_unless_busy_witness :
  start_of (StartFullscreen launch_at_noon) = Some launch_at_noon
  /\ busy (_state (svc after_completed_recording)) = false
  /\ launches_encoder after_completed_recording
       (step (StartFullscreen launch_at_noon) after_completed_recording).
Proof.
  split; [reflexivity |]. split; [reflexivity |].
  apply (start_accepted_unless_busy (StartFullscreen launch_at_noon) launch_at_noon
           after_completed_recording eq_refl).
  reflexivity.
Defined.

(** C4 (as stated) fails: from Completed a start call is accepted, and
    state and process handle change. *)
Lemma start_accepted_from_completed :
  _state (svc after_completed_recording) = COMPLETED
  /\ ~ start_only_from_idle (StartFullscreen launch_at_noon) after_completed_recording.
Proof.
  split; [reflexivity |].
  intros (_ & Hsame).
  destruct Hsame as (Hstate & _); [discriminate |].
  vm_compute in Hstate. discriminate.
Qed.

(** *** Even dimensions for region recordings *)
Lemma even_dimension (n : Z) :
  Z.even (n + n mod 2) = true
  /\ n + n mod 2 = (if Z.odd n then n + 1 else n).
Proof.
  rewrite Zmod_odd. destruct (Z.odd n) eqn:Ho.
  - split; [| reflexivity].
    rewrite Z.even_add, <- Z.negb_odd, Ho. reflexivity.
  - split; [| lia].
    rewrite Z.add_0_r, <- Z.negb_odd, Ho. reflexivity.
Qed.

(** C6: an accepted region recording request launches the encoder once,
    and the argv of that launch is built from the even width and height:
    an odd dimension plus one, an even dimension as it is.  With X11
    grabbing the argv carries ["-video_size"] followed by the two even
    numbers (101x151 goes out as ["102x152"]); with the PipeWire input
    it names no size at all. *)
Theorem region_dimensions_forced_even (x y width height : Z) (l : Launch)
    (sys : System) :
  busy (_state (svc sys)) = false ->
  let w := if Z.odd width then width + 1 else width in
  let h := if Z.odd height then height + 1 else height in
  Z.even w = true
  /\ Z.even h = true
  /\ popen_calls (world (start_recording_region x y width height l sys))
     = popen_calls (world sys)
       ++ [["ffmpeg"; "-y"]
           ++ (if bool_decide (_display_server (svc sys) = WAYLAND)
                  && truthy (_pipewire_node_id (svc sys))
               then ["-f"; "pipewire"; "-i"; default "" (_pipewire_node_id (svc sys))]
               else ["-f"; "x11grab"; "-framerate"; "30"; "-draw_mouse"; "0";
                     "-video_size"; pretty w +:+ "x" +:+ pretty h;
                     "-i"; before_dot (environ_get (world sys) "DISPLAY" ":0")
                           +:+ "+" +:+ pretty (Z.max 0 x)
                           +:+ "," +:+ pretty (Z.max 0 y)])
           ++ ["-c:v"; "libx264"; "-preset"; "ultrafast"; "-crf"; "23";
               "-pix_fmt"; "yuv420p"; "-r"; "30";
               tempdir l +:+ "/snipr/Recording_" +:+ timestamp l +:+ ".mp4"]].
Proof.
  intros Hb. cbv zeta.
  destruct (even_dimension width) as (Hw1 & Hw2).
  destruct (even_dimension height) as (Hh1 & Hh2).
  rewrite <- Hw2, <- Hh2.
  split; [exact Hw1 |]. split; [exact Hh1 |].
  unfold start_recording_region.
  destruct (start_free (Some (x, y, width + width mod 2, height + height mod 2))
              l sys Hb) as (-> & _).
  do 2 f_equal. unfold argv_of, _build_ffmpeg_command.
  cbn [_display_server _pipewire_node_id _current_path with_path with_state default
       from_option id].
  destruct (bool_decide (_display_server (svc sys) = WAYLAND)
            && truthy (_pipewire_node_id (svc sys))); reflexivity.
Qed.

Lemma region_dimensions_forced_even_witness :
  busy (_state (svc after_completed_recording)) = false
  /\ popen_calls (world (start_recording_region 10 20 101 151 launch_at_noon
                           after_completed_recording))
     = [["ffmpeg"; "-y"; "-f"; "x11grab"; "-framerate"; "30"; "-draw_mouse"; "0";
         "-video_size"; "102x152"; "-i"; ":0+10,20";
         "-c:v"; "libx264"; "-preset"; "ultrafast"; "-crf"; "23";
         "-pix_fmt"; "yuv420p"; "-r"; "30";
         "/tmp/snipr/Recording_20240101_120500.mp4"]].
Proof.
  split; [reflexivity |].
  exact (proj2 (proj2 (region_dimensions_forced_even 10 20 101 151 launch_at_noon
                         after_completed_recording eq_refl))).
Defined.

(** *** Stopping a recording *)
Lemma stop_recording_running y proc :
  _state (svc y) = RECORDING ->
  _process (svc y) = Some proc ->
  stop_recording y =
  spawn_worker proc
    (on_svc (with_process None) (_stop_duration_timer (_set_state STOPPING y))).
Proof.
  intros Hs Hp. unfold stop_recording. rewrite Hp, Hs.
  rewrite bool_decide_eq_false_2 by (intros H; now apply H). reflexivity.
Qed.

Lemma lookup_last_worker (ws : list nat) (proc : nat) :
  (ws ++ [proc]) !! length ws = Some proc /\ delete (length ws) (ws ++ [proc]) = ws.
Proof.
  induction ws as [| a ws [IH1 IH2]]; [split; reflexivity |].
  split; [exact IH1 |]. simpl. f_equal. exact IH2.
Qed.

Lemma worker_then_idle z proc path stderr_data :
  idle_queue z = [] ->
  _current_path (svc z) = Some path ->
  os_path_exists (world z) path = true ->
  0 < os_path_getsize (world z) path ->
  on_recording_completed (svc z) = true ->
  _state (svc (run [WorkerReturns (length (stop_workers z)) (Exited 0 stderr_data); Idle]
                   (spawn_worker proc z))) = COMPLETED
  /\ calls (run [WorkerReturns (length (stop_workers z)) (Exited 0 stderr_data); Idle]
                (spawn_worker proc z))
     = calls z
       ++ (if bool_decide (_state (svc z) ≠ COMPLETED) && on_state_changed (svc z)
           then [StateChanged COMPLETED] else [])
       ++ [RecordingCompleted path].
Proof.
  intros Hq Hpath Hex Hsize Hreg.
  unfold run. cbn [fold_left step]. cbn [stop_workers spawn_worker].
  destruct (lookup_last_worker (stop_workers z) proc) as [-> Hdel].
  cbn [_stop_worker].
  cbn [svc world idle_queue on_world take_worker spawn_worker idle_add].
  rewrite Hpath, Hq. cbn [default from_option app run_idle]. unfold id.
  change (os_path_exists (reap proc (world z)) path) with (os_path_exists (world z) path).
  change (os_path_getsize (reap proc (world z)) path) with (os_path_getsize (world z) path).
  assert (Ht : truthy (Some path) = true).
  { unfold os_path_exists in Hex. apply andb_true_iff in Hex. apply Hex. }
  rewrite Ht, Hex. cbn [andb Z.eqb].
  rewrite (proj2 (Z.ltb_lt 0 _) Hsize).
  sys_simpl.
  cbn [svc world calls pop_idle idle_add take_worker spawn_worker on_world on_svc].
  cbn [with_state on_recording_completed]. rewrite Hreg.
  split.
  - reflexivity.
  - rewrite invoke_calls, set_state_calls.
    cbn [svc world calls pop_idle idle_add take_worker spawn_worker on_world on_svc].
    rewrite <- app_assoc. reflexivity.
Qed.

(** C5: stop on a Recording service whose encoder then exits with code
    0, leaving a non-empty output file, ends in Completed, and the
    registered recording-completed handler is called exactly once, with
    the output path; the only other calls are the Stopping and Completed
    state notifications, and no failure is reported. *)
Theorem stop_clean_exit_completes (y : System) (proc : nat)
    (path stderr_data : string) :
  _state (svc y) = RECORDING ->
  _process (svc y) = Some proc ->
  _current_path (svc y) = Some path ->
  os_path_exists (world y) path = true ->
  0 < os_path_getsize (world y) path ->
  on_recording_completed (svc y) = true ->
  idle_queue y = [] ->
  _state (svc (run [Stop; WorkerReturns (length (stop_workers y)) (Exited 0 stderr_data);
                    Idle] y)) = COMPLETED
  /\ calls (run [Stop; WorkerReturns (length (stop_workers y)) (Exited 0 stderr_data);
                 Idle] y)
     = calls y
       ++ (if on_state_changed (svc y)
           then [StateChanged STOPPING; StateChanged COMPLETED] else [])
       ++ [RecordingCompleted path]
  /\ completed_notifications
       (calls (run [Stop; WorkerReturns (length (stop_workers y)) (Exited 0 stderr_data);
                    Idle] y))
     = completed_notifications (calls y) ++ [path].
Proof.
  intros Hs Hp Hpath Hex Hsize Hreg Hq.
  set (z := on_svc (with_process None) (_stop_duration_timer (_set_state STOPPING y))).
  assert (Hrun : run [Stop; WorkerReturns (length (stop_workers y)) (Exited 0 stderr_data);
                      Idle] y
                 = run [WorkerReturns (length (stop_workers z)) (Exited 0 stderr_data); Idle]
                       (spawn_worker proc z)).
  { unfold run. cbn [fold_left]. change (step Stop y) with (stop_recording y).
    rewrite (stop_recording_running y proc Hs Hp). fold z.
    replace (stop_workers z) with (stop_workers y); [reflexivity |].
    subst z. cbn [stop_workers on_svc].
    rewrite (proj1 (stop_timer_queues _)), set_state_workers. reflexivity. }
  assert (Hz : idle_queue z = []
               /\ _current_path (svc z) = Some path
               /\ world z = world (_stop_duration_timer (_set_state STOPPING y))
               /\ on_recording_completed (svc z) = true
               /\ on_state_changed (svc z) = on_state_changed (svc y)
               /\ _state (svc z) = STOPPING
               /\ calls z = calls y ++ (if on_state_changed (svc y)
                                        then [StateChanged STOPPING] else [])).
  { subst z. cbn [idle_queue calls world svc on_svc].
    destruct (stop_timer_handlers (_set_state STOPPING y)) as (Hh1 & Hh2 & _).
    cbn [with_process _current_path on_recording_completed on_state_changed _state].
    rewrite (proj2 (stop_timer_queues _)), set_state_idle, stop_timer_path, Hh1, Hh2,
      stop_timer_state, stop_timer_calls, set_state_calls, set_state_state, Hs.
    rewrite set_state_svc. cbn [with_state _current_path on_recording_completed
                                  on_state_changed].
    rewrite bool_decide_eq_true_2 by discriminate.
    repeat split; try assumption. }
  destruct Hz as (Hzq & Hzp & Hzw & Hzr & Hzh & Hzs & Hzc).
  assert (Hzex : os_path_exists (world z) path = true).
  { rewrite Hzw. unfold os_path_exists. rewrite stop_timer_files, set_state_world.
    exact Hex. }
  assert (Hzsize : 0 < os_path_getsize (world z) path).
  { rewrite Hzw. unfold os_path_getsize. rewrite stop_timer_files, set_state_world.
    exact Hsize. }
  destruct (worker_then_idle z proc path stderr_data Hzq Hzp Hzex Hzsize Hzr)
    as (Hst & Hcalls).
  rewrite Hrun. split; [exact Hst |].
  assert (Hall : calls (run [WorkerReturns (length (stop_workers z)) (Exited 0 stderr_data);
                              Idle] (spawn_worker proc z))
                 = calls y
                   ++ (if on_state_changed (svc y)
                       then [StateChanged STOPPING; StateChanged COMPLETED] else [])
                   ++ [RecordingCompleted path]).
  { rewrite Hcalls, Hzc, Hzs, Hzh.
    rewrite bool_decide_eq_true_2 by discriminate.
    destruct (on_state_changed (svc y)); simpl; rewrite <- !app_assoc; reflexivity. }
  split; [exact Hall |].
  rewrite Hall. unfold completed_notifications. rewrite !omap_app.
  destruct (on_state_changed (svc y)); reflexivity.
Qed.

Lemma stop_clean_exit_completes_witness :
  _state (svc recording_with_output) = RECORDING
  /\ completed_notifications
       (calls (run [Stop; WorkerReturns 0 (Exited 0 "frame= 360 fps= 30"); Idle]
                   recording_with_output))
     = ["/tmp/snipr/Recording_20240101_120000.mp4"].
Proof.
  split; [reflexivity |].
  apply (stop_clean_exit_completes recording_with_output 7
           "/tmp/snipr/Recording_20240101_120000.mp4" "frame= 360 fps= 30");
    try reflexivity.
Defined.

End RecordingProperties.

(** ** The capture backends *)
Section CaptureProperties.
Import ScreenCapture.

Variable polygon : list (Z * Z) -> Z -> Z -> list Byte.byte -> list Byte.byte.
Variable unquote_path : string -> string.

(** *** Rasters *)
Lemma raster_length {A} (f : nat -> nat -> A) x y w h :
  length (raster f x y w h) = (w * h)%nat.
Proof.
  unfold raster. generalize y. induction h as [| h IH]; intros y0; simpl.
  - lia.
  - rewrite length_app, length_map, length_seq, IH. lia.
Qed.

Lemma raster_map {A B} (g : A -> B) (f : nat -> nat -> A) x y w h :
  map g (raster f x y w h) = raster (fun i j => g (f i j)) x y w h.
Proof.
  unfold raster. generalize y. induction h as [| h IH]; intros y0; simpl.
  - reflexivity.
  - rewrite map_app, map_map, IH. reflexivity.
Qed.

Lemma raster_ext {A} (f g : nat -> nat -> A) x y w h :
  (forall i j, (x <= i < x + w)%nat -> (y <= j < y + h)%nat -> f i j = g i j) ->
  raster f x y w h = raster g x y w h.
Proof.
  unfold raster. revert y. induction h as [| h IH]; intros y Hfg; simpl.
  - reflexivity.
  - f_equal.
    + apply map_ext_in. intros i Hi. apply in_seq in Hi. apply Hfg; lia.
    + apply IH. intros i j Hi Hj. apply Hfg; lia.
Qed.

Lemma row_nth {A} (f : nat -> A) (w i : nat) (d : A) :
  (i < w)%nat -> nth i (map f (seq 0 w)) d = f i.
Proof.
  intros Hi. rewrite (nth_indep _ d (f 0%nat)) by (rewrite length_map, length_seq; lia).
  rewrite map_nth, seq_nth by lia. reflexivity.
Qed.

Lemma raster_nth_from {A} (f : nat -> nat -> A) (W H y0 i j : nat) (d : A) :
  (i < W)%nat -> (j < H)%nat ->
  nth (j * W + i) (raster f 0 y0 W H) d = f i (y0 + j)%nat.
Proof.
  unfold raster. revert y0 j. induction H as [| H IH]; intros y0 j Hi Hj; [lia |].
  simpl. destruct j as [| j].
  - rewrite app_nth1 by (rewrite length_map, length_seq; lia).
    simpl. rewrite row_nth by lia. f_equal. lia.
  - rewrite app_nth2 by (rewrite length_map, length_seq; lia).
    rewrite length_map, length_seq.
    replace (S j * W + i - W)%nat with (j * W + i)%nat by lia.
    rewrite IH by lia. f_equal. lia.
Qed.

Lemma raster_nth {A} (f : nat -> nat -> A) (W H i j : nat) (d : A) :
  (i < W)%nat -> (j < H)%nat -> nth (j * W + i) (raster f 0 0 W H) d = f i j.
Proof. intros Hi Hj. now rewrite raster_nth_from. Qed.


Lemma raster_shift {A} (f : nat -> nat -> A) x y w h :
  raster f x y w h = raster (fun i j => f (x + i)%nat (y + j)%nat) 0 0 w h.
Proof.
  unfold raster.
  assert (Hrow : forall (g : nat -> A) a,
             map g (seq (x + a) w) = map (fun i => g (x + i)%nat) (seq a w)).
  { intros g. induction w as [| w IH]; intros a; [reflexivity |].
    simpl. f_equal. rewrite <- IH. f_equal. f_equal. lia. }
  assert (Hrows : forall b,
             flat_map (fun j => map (fun i => f i j) (seq x w)) (seq (y + b) h)
             = flat_map (fun j => map (fun i => f (x + i)%nat (y + j)%nat) (seq 0 w))
                        (seq b h)).
  { induction h as [| h IH]; intros b; [reflexivity |].
    simpl. f_equal.
    - specialize (Hrow (fun i => f i (y + b)%nat) 0%nat).
      rewrite Nat.add_0_r in Hrow. exact Hrow.
    - rewrite <- IH. f_equal. f_equal. lia. }
  specialize (Hrows 0%nat). rewrite Nat.add_0_r in Hrows. exact Hrows.
Qed.

Lemma raster_nth_at {A} (f : nat -> nat -> A) (x y w h i j : nat) (d : A) :
  (i < w)%nat -> (j < h)%nat ->
  nth (j * w + i) (raster f x y w h) d = f (x + i)%nat (y + j)%nat.
Proof.
  intros Hi Hj. rewrite raster_shift. now rewrite raster_nth.
Qed.

(** *** Decoding what the X server sends *)
Lemma unpack_concat (ps : list xpixel) :
  unpack_BGRX (concat (map bgrx ps)) = map (fun p => (rgb_of p, padding p)) ps.
Proof.
  induction ps as [| p ps IH]; [reflexivity |].
  simpl. rewrite IH. reflexivity.
Qed.

Lemma concat_bgrx_length (ps : list xpixel) :
  length (concat (map bgrx ps)) = (4 * length ps)%nat.
Proof. induction ps as [| p ps IH]; simpl; [reflexivity | rewrite IH; lia]. Qed.

(** *** The X11 backend on a rectangle of the screen *)
Lemma in_bounds_true (W H : nat) (x y w h : Z) :
  valid_rectangle W H x y w h ->
  (0 <=? x) && (0 <=? y) && (0 <=? w) && (0 <=? h)
  && (x + w <=? Z.of_nat W) && (y + h <=? Z.of_nat H) = true.
Proof.
  intros (Hx & Hy & Hw & Hh & Hxw & Hyh).
  repeat (apply andb_true_intro; split); apply Z.leb_le; lia.
Qed.

Lemma x11_capture_region_ok root x y w h :
  connected root = true ->
  valid_rectangle (root_width root) (root_height root) x y w h ->
  x11_capture_region root x y w h =
  Ok {| width := Z.to_nat w; height := Z.to_nat h;
        pixels := raster (fun i j => rgb_of (framebuffer root i j))
                         (Z.to_nat x) (Z.to_nat y) (Z.to_nat w) (Z.to_nat h);
        extra := NoBand |}.
Proof.
  intros Hc Hv. unfold x11_capture_region, get_image.
  rewrite Hc, (in_bounds_true _ _ _ _ _ _ Hv). cbn [negb rbind].
  assert (E : forall a b c d,
             raster (fun i j => [blue (framebuffer root i j); green (framebuffer root i j);
                                 red (framebuffer root i j); padding (framebuffer root i j)])
                    a b c d
             = map bgrx (raster (framebuffer root) a b c d)).
  { intros. rewrite raster_map. reflexivity. }
  rewrite E.
  destruct Hv as (Hx & Hy & Hw & Hh & Hxw & Hyh).
  unfold frombytes_RGBX.
  rewrite (proj2 (Z.ltb_ge w 0)), (proj2 (Z.ltb_ge h 0)) by lia. cbn [orb].
  rewrite concat_bgrx_length, raster_length.
  rewrite (proj2 (Nat.ltb_ge _ _)) by lia.
  rewrite unpack_concat. cbn [rbind].
  rewrite firstn_all2 by (rewrite length_map, raster_length; lia).
  rewrite map_map. cbn [fst]. rewrite raster_map.
  unfold _pil_to_pixbuf, png_roundtrip, convert_RGB. cbn [width height pixels].
  rewrite (proj2 (Nat.eqb_neq (Z.to_nat w) 0)), (proj2 (Nat.eqb_neq (Z.to_nat h) 0)) by lia.
  reflexivity.
Qed.

Lemma x11_capture_fullscreen_ok root :
  connected root = true ->
  (0 < root_width root)%nat -> (0 < root_height root)%nat ->
  x11_capture_fullscreen root =
  Ok {| width := root_width root; height := root_height root;
        pixels := raster (fun i j => rgb_of (framebuffer root i j))
                         0 0 (root_width root) (root_height root);
        extra := NoBand |}.
Proof.
  intros Hc HW HH. unfold x11_capture_fullscreen, get_geometry. rewrite Hc.
  cbn [rbind fst snd]. rewrite x11_capture_region_ok; [| exact Hc |].
  - rewrite !Nat2Z.id. reflexivity.
  - unfold valid_rectangle. lia.
Qed.

(** A crop by [new_subpixbuf] of a rectangle inside the image has the
    pixels of the rectangle. *)
Lemma new_subpixbuf_pixels full x y w h :
  valid_rectangle (width full) (height full) x y w h ->
  exists region,
    new_subpixbuf x y w h full = Some region
    /\ pixel_equal_crop full x y w h region.
Proof.
  intros (Hx & Hy & Hw & Hh & Hxw & Hyh). unfold new_subpixbuf.
  rewrite (proj2 (Z.leb_le 0 x)), (proj2 (Z.leb_le 0 y)),
    (proj2 (Z.ltb_lt 0 w)), (proj2 (Z.ltb_lt 0 h)),
    (proj2 (Z.leb_le (x + w) _)), (proj2 (Z.leb_le (y + h) _)) by lia.
  cbn [andb]. eexists. split; [reflexivity |].
  unfold pixel_equal_crop. cbn [width height pixels extra].
  split; [reflexivity |]. split; [reflexivity |]. split; [apply raster_length |].
  intros i j Hi Hj. split.
  - unfold pixel_at at 1. cbn [width pixels].
    apply (raster_nth_at (pixel_at full)); assumption.
  - unfold sub_band. destruct (extra full) as [| d | d]; [reflexivity | |];
      cbn [band_at];
      apply (raster_nth_at (fun i j => nth (j * width full + i) d Byte.x00)); assumption.
Qed.


(** *** Freeform capture with a degenerate polygon *)
Lemma get_image_ok_size root x y w h raw :
  get_image root x y w h = Ok raw -> 0 <= w /\ 0 <= h.
Proof.
  unfold get_image. destruct (negb (connected root)); [discriminate |].
  destruct (_ && _) eqn:Hb; [| discriminate]. intros _.
  repeat (apply andb_true_iff in Hb; destruct Hb as [Hb ?]).
  split; apply Z.leb_le; assumption.
Qed.

Lemma polygon_mask_degenerate x y w h (points : list (Z * Z)) :
  (length points < 3)%nat -> 0 <= w -> 0 <= h ->
  polygon_mask polygon x y w h points = Ok (transparent_mask w h).
Proof.
  intros Hn Hw Hh. unfold polygon_mask, new_L.
  rewrite (proj2 (Z.ltb_ge w 0)), (proj2 (Z.ltb_ge h 0)) by lia.
  cbn [orb rbind]. unfold local_points. rewrite length_map.
  rewrite (proj2 (Nat.leb_gt 3 (length points))) by lia. reflexivity.
Qed.

Lemma transparent_mask_transparent w h :
  forallb (Byte.eqb Byte.x00) (transparent_mask w h) = true.
Proof.
  unfold transparent_mask. induction (Z.to_nat w * Z.to_nat h)%nat as [| n IH];
    [reflexivity | exact IH].
Qed.

Lemma x11_freeform_degenerate root x y w h (points : list (Z * Z)) :
  (length points < 3)%nat ->
  x11_capture_freeform polygon root x y w h points
  = rmap (putalpha (transparent_mask w h)) (x11_capture_region root x y w h).
Proof.
  intros Hn. unfold x11_capture_freeform, x11_capture_region, rmap.
  destruct (get_image root x y w h) as [raw | e] eqn:Hraw; [| reflexivity].
  destruct (get_image_ok_size _ _ _ _ _ _ Hraw) as [Hw Hh].
  cbn [rbind]. destruct (frombytes_RGBX w h raw) as [image | e]; [| reflexivity].
  cbn [rbind]. rewrite (polygon_mask_degenerate x y w h points Hn Hw Hh).
  cbn [rbind]. unfold _pil_to_pixbuf, png_roundtrip.
  cbn [width height putalpha convert_RGBA convert_RGB].
  destruct ((width image =? 0)%nat || (height image =? 0)%nat); reflexivity.
Qed.

Lemma pil_crop_inside x y w h (img : Image) :
  valid_rectangle (width img) (height img) x y w h ->
  raster (at_box (convert_RGBA img) x y (pixel_at (convert_RGBA img)) black) 0 0
         (Z.to_nat w) (Z.to_nat h)
  = raster (pixel_at img) (Z.to_nat x) (Z.to_nat y) (Z.to_nat w) (Z.to_nat h).
Proof.
  intros (Hx & Hy & Hw & Hh & Hxw & Hyh).
  rewrite (raster_shift (pixel_at img)). apply raster_ext.
  intros i j Hi Hj. unfold at_box, inside. cbn [convert_RGBA width height].
  rewrite (proj2 (Z.leb_le 0 (x + Z.of_nat i))), (proj2 (Z.leb_le 0 (y + Z.of_nat j))),
    (proj2 (Z.ltb_lt (x + Z.of_nat i) _)), (proj2 (Z.ltb_lt (y + Z.of_nat j) _)) by lia.
  cbn [andb]. rewrite !Z2Nat.inj_add, !Nat2Z.id by lia. reflexivity.
Qed.

Lemma portal_freeform_degenerate o p x y w h (points : list (Z * Z)) full :
  (length points < 3)%nat ->
  fst (portal_capture_fullscreen unquote_path o p) = Ok full ->
  valid_rectangle (width full) (height full) x y w h ->
  rmap Some (fst (portal_capture_freeform polygon unquote_path o p x y w h points))
  = rmap (fmap (putalpha (transparent_mask w h)))
         (fst (portal_capture_region unquote_path o p x y w h))
  /\ snd (portal_capture_freeform polygon unquote_path o p x y w h points)
     = snd (portal_capture_region unquote_path o p x y w h).
Proof.
  intros Hn Hfull Hv.
  unfold portal_capture_freeform, portal_capture_region, portal_capture_fullscreen in *.
  destruct (_screenshot false o p) as [r p']. cbn [fst snd] in *.
  split; [| reflexivity].
  destruct r as [u | e]; [| discriminate]. cbn [rbind] in *.
  rewrite Hfull. cbn [rbind rmap].
  pose proof Hv as (Hx & Hy & Hw & Hh & Hxw & Hyh).
  unfold new_subpixbuf.
  rewrite (proj2 (Z.leb_le 0 x)), (proj2 (Z.leb_le 0 y)),
    (proj2 (Z.ltb_lt 0 w)), (proj2 (Z.ltb_lt 0 h)),
    (proj2 (Z.leb_le (x + w) _)), (proj2 (Z.leb_le (y + h) _)) by lia.
  cbn [andb fmap option_fmap option_map].
  unfold png_roundtrip at 1.
  rewrite (proj2 (Nat.eqb_neq (width full) 0)), (proj2 (Nat.eqb_neq (height full) 0)) by lia.
  cbn [orb rbind]. unfold pil_crop.
  rewrite (proj2 (Z.ltb_ge w 0)), (proj2 (Z.ltb_ge h 0)) by lia.
  cbn [orb rbind].
  rewrite (polygon_mask_degenerate x y w h points Hn) by lia.
  cbn [rbind]. unfold png_roundtrip, putalpha. cbn [width height pixels].
  rewrite (proj2 (Nat.eqb_neq (Z.to_nat w) 0)), (proj2 (Nat.eqb_neq (Z.to_nat h) 0)) by lia.
  cbn [orb rbind]. rewrite (pil_crop_inside x y w h full Hv). reflexivity.
Qed.

Lemma x11_region_ok_nonempty root x y w h region :
  x11_capture_region root x y w h = Ok region ->
  (0 < Z.to_nat w * Z.to_nat h)%nat.
Proof.
  unfold x11_capture_region.
  destruct (get_image root x y w h) as [raw | e]; [| discriminate].
  cbn [rbind]. unfold frombytes_RGBX.
  destruct ((w <? 0) || (h <? 0)); [discriminate |].
  destruct (_ <? _)%nat; [discriminate |].
  cbn [rbind]. unfold _pil_to_pixbuf, png_roundtrip. cbn [convert_RGB width height].
  destruct (Z.to_nat w) as [| a]; [discriminate |].
  destruct (Z.to_nat h) as [| b]; [rewrite orb_true_r; discriminate |].
  intros _. lia.
Qed.

Lemma not_opaque_when_transparent (n : nat) :
  (0 < n)%nat -> forallb (Byte.eqb Byte.xff) (replicate n Byte.x00) = false.
Proof. destruct n as [| n]; [lia | reflexivity]. Qed.

(** C2 (as amended): for every polygon with fewer than 3 points,
    [capture_freeform] returns the box with the colours of
    [capture_region] of the same box and an alpha channel that is 0
    everywhere: the image is fully transparent, not opaque.  On the X11
    backend this holds for every box (the two calls also fail alike);
    on the portal backend for every box inside the portal screenshot. *)
Theorem degenerate_freeform_is_transparent_region :
  (forall root x y w h (points : list (Z * Z)),
      (length points < 3)%nat ->
      x11_capture_freeform polygon root x y w h points
      = rmap (putalpha (transparent_mask w h)) (x11_capture_region root x y w h))
  /\ (forall root x y w h (points : list (Z * Z)) img,
         (length points < 3)%nat ->
         x11_capture_freeform polygon root x y w h points = Ok img ->
         fully_transparent img = true /\ fully_opaque img = false)
  /\ (forall o p x y w h (points : list (Z * Z)) full,
         (length points < 3)%nat ->
         fst (portal_capture_fullscreen unquote_path o p) = Ok full ->
         valid_rectangle (width full) (height full) x y w h ->
         rmap Some (fst (portal_capture_freeform polygon unquote_path o p x y w h points))
         = rmap (fmap (putalpha (transparent_mask w h)))
                (fst (portal_capture_region unquote_path o p x y w h))
         /\ snd (portal_capture_freeform polygon unquote_path o p x y w h points)
            = snd (portal_capture_region unquote_path o p x y w h)).
Proof.
  split; [| split].
  - intros. now apply x11_freeform_degenerate.
  - intros root x y w h points img Hn Himg.
    rewrite (x11_freeform_degenerate root x y w h points Hn) in Himg.
    destruct (x11_capture_region root x y w h) as [region | e] eqn:Hr; [| discriminate].
    injection Himg as <-. unfold fully_transparent, fully_opaque. cbn [putalpha extra].
    split; [apply transparent_mask_transparent |].
    apply not_opaque_when_transparent. eapply x11_region_ok_nonempty, Hr.
  - intros o p x y w h points full Hn Hfull Hv.
    exact (portal_freeform_degenerate o p x y w h points full Hn Hfull Hv).
Qed.

(** *** Portal requests and their signal handler *)
Lemma screenshot_unsubscribes_after_loop interactive o p :
  (forall message, o <> CallRaises message) ->
  subscriptions (bus (snd (_screenshot interactive o p)))
  = (subscriptions (bus p) ∪ {[ next_subscription (bus p) ]})
      ∖ {[ next_subscription (bus p) ]}.
Proof.
  intros Ho. unfold _screenshot. cbn [signal_subscribe].
  destruct o as [message | response results |]; [now specialize (Ho message) | |].
  - destruct (_ && _); reflexivity.
  - reflexivity.
Qed.

(** C8 (evaluation at the failing input): when the portal method call
    made after subscribing raises, [_screenshot] and [start_screencast]
    leave with that error and the handler they subscribed is still
    subscribed; on a response or a timeout it is not. *)
Theorem portal_call_error_leaks_handler :
  (forall interactive message p,
      fst (_screenshot interactive (CallRaises message) p) = Raise (GLibError message)
      /\ next_subscription (bus p)
           ∈ subscriptions (bus (snd (_screenshot interactive (CallRaises message) p))))
  /\ (forall session message p,
         fst (start_screencast {| create_session := Ok session;
                                  select_sources := Ok tt;
                                  start := CallRaises message |} p)
         = Raise (GLibError message)
         /\ next_subscription (bus p)
              ∈ subscriptions
                  (bus (snd (start_screencast
                               {| create_session := Ok session;
                                  select_sources := Ok tt;
                                  start := CallRaises message |} p))))
  /\ (forall interactive response results p,
         next_subscription (bus p)
           ∉ subscriptions
               (bus (snd (_screenshot interactive (Responds response results) p))))
  /\ (forall interactive p,
         next_subscription (bus p)
           ∉ subscriptions (bus (snd (_screenshot interactive TimesOut p)))).
Proof.
  split; [| split; [| split]].
  - intros interactive message p. split; [reflexivity |]. simpl. set_solver.
  - intros session message p. split; [reflexivity |]. simpl. set_solver.
  - intros interactive response results p.
    rewrite screenshot_unsubscribes_after_loop; [| intros message E; discriminate E].
    intros [_ Hout]%elem_of_difference. apply Hout, elem_of_singleton. reflexivity.
  - intros interactive p.
    rewrite screenshot_unsubscribes_after_loop; [| intros message E; discriminate E].
    intros [_ Hout]%elem_of_difference. apply Hout, elem_of_singleton. reflexivity.
Qed.

(** *** Screen size *)

(** C9 (evaluation at the failing input): on the portal backend
    [get_screen_size] never raises: it returns the size of the portal
    screenshot, and 1920x1080 when taking or loading the screenshot
    fails.  On the X11 backend it returns what the geometry query
    returns, and when that query fails the error leaves the call: there
    is no default size on this path. *)
Theorem get_screen_size_by_backend :
  (forall o p,
      get_screen_size unquote_path (PortalBackend o p)
      = match fst (portal_capture_fullscreen unquote_path o p) with
        | Ok pixbuf => Ok (width pixbuf, height pixbuf)
        | Raise _ => Ok (1920%nat, 1080%nat)
        end)
  /\ (forall root,
         get_screen_size unquote_path (X11Backend root)
         = if connected root then Ok (root_width root, root_height root)
           else Raise (XError "ConnectionClosedError")).
Proof.
  split.
  - intros o p. unfold get_screen_size, portal_get_screen_size, portal_capture_fullscreen.
    destruct (_screenshot false o p) as [r p']. reflexivity.
  - intros root. unfold get_screen_size, x11_get_screen_size, get_geometry.
    destruct (connected root); reflexivity.
Qed.

End CaptureProperties.

(** ** Evaluations on concrete screens *)
Section CaptureEvaluations.
Import ScreenCapture.


Lemma degenerate_freeform_is_transparent_region_witness :
  (length [(0, 0); (1, 1)] < 3)%nat
  /\ x11_capture_freeform fill_all one_pixel_screen 0 0 1 1 [(0, 0); (1, 1)]
     = rmap (putalpha (transparent_mask 1 1)) (x11_capture_region one_pixel_screen 0 0 1 1).
Proof.
  assert (Hn : (length [(0, 0); (1, 1)] < 3)%nat) by (simpl; lia).
  split; [exact Hn |].
  apply (proj1 (degenerate_freeform_is_transparent_region fill_all path_as_is)).
  exact Hn.
Defined.

(** C2 (as stated) fails: with an empty polygon the freeform capture of
    the one-pixel screen has alpha 0, so it is not opaque. *)
Lemma degenerate_freeform_not_opaque :
  ~ degenerate_freeform_is_opaque_region fill_all one_pixel_screen 0 0 1 1 [].
Proof.
  intros (img & region & Himg & _ & Hopaque & _).
  vm_compute in Himg. injection Himg as <-. discriminate Hopaque.
Qed.

(** The leak on a bus without subscriptions: after a portal call that
    raises, handler 0 is still subscribed; after a timeout none is. *)
Example screenshot_on_quiet_bus :
  subscriptions (bus (snd (_screenshot false (CallRaises "ServiceUnknown") quiet_portal)))
  = {[ 0%nat ]}
  /\ subscriptions (bus (snd (_screenshot false TimesOut quiet_portal))) = ∅.
Proof. split; apply set_eq; intros i; simpl; set_solver. Qed.

(** C9 at the failing input: with the display connection gone the X11
    backend raises instead of returning a default size. *)
Lemma x11_get_screen_size_raises :
  ~ screen_size_fails_soft path_as_is (X11Backend lost_display).
Proof. intros [size H]. discriminate H. Qed.

End CaptureEvaluations.

(** ** Capture modes and their dispatch *)
Section CaptureModeProperties.
Import CaptureModes.

(** X1: every capture mode satisfies exactly one of the four selection
    tests, so the dispatch of [_execute_capture] always takes a branch,
    and it is the branch of that test; video modes never ask for a
    freeform selection. *)
Theorem capture_mode_dispatch_total (mode : CaptureMode) :
  length (filter (fun b : bool => b = true)
            [requires_rectangle_selection mode; requires_window_selection mode;
             requires_freeform_selection mode; is_fullscreen mode]) = 1%nat
  /\ (exists step, _execute_capture mode = Some step)
  /\ (_execute_capture mode = Some ShowRectangleOverlay
      <-> requires_rectangle_selection mode = true)
  /\ (_execute_capture mode = Some ShowWindowOverlay
      <-> requires_window_selection mode = true)
  /\ (_execute_capture mode = Some ShowFreeformOverlay
      <-> requires_freeform_selection mode = true)
  /\ (_execute_capture mode = Some CaptureFullscreen <-> is_fullscreen mode = true)
  /\ is_video mode && requires_freeform_selection mode = false.
Proof.
  destruct mode; vm_compute; repeat split; eauto; intros; discriminate.
Qed.

End CaptureModeProperties.

(** ** The backend factory *)
Section FactoryProperties.
Import DisplayServerDetector BackendFactory.

Lemma detect_unknown_iff (environ : gmap string string) :
  get_display_server environ = UNKNOWN <->
  session_type_signal environ = None
  /\ backend_override_signal environ = None
  /\ truthy (environ !! "WAYLAND_DISPLAY") = false
  /\ truthy (environ !! "DISPLAY") = false.
Proof.
  unfold get_display_server, session_type_signal, backend_override_signal, named_backend.
  destruct (String.eqb (lower (environ_get environ "XDG_SESSION_TYPE" "")) "wayland");
    [split; [discriminate | intros (H & _); discriminate] |].
  destruct (String.eqb (lower (environ_get environ "XDG_SESSION_TYPE" "")) "x11");
    [split; [discriminate | intros (H & _); discriminate] |].
  destruct (String.eqb (lower (environ_get environ "GDK_BACKEND" "")) "wayland");
    [split; [discriminate | intros (_ & H & _); discriminate] |].
  destruct (String.eqb (lower (environ_get environ "GDK_BACKEND" "")) "x11");
    [split; [discriminate | intros (_ & H & _); discriminate] |].
  destruct (truthy (environ !! "WAYLAND_DISPLAY"));
    [split; [discriminate | intros (_ & _ & H & _); discriminate] |].
  destruct (truthy (environ !! "DISPLAY"));
    [split; [discriminate | intros (_ & _ & _ & H); discriminate] |].
  split; auto.
Qed.

(** X2: detection answers Unknown exactly when no signal decides: the
    session type and the backend override name neither backend, and
    WAYLAND_DISPLAY and DISPLAY are unset or empty.  An x11 session type
    wins over a Wayland display handle, and the match on names ignores
    case. *)
Theorem get_display_server_unknown_iff :
  (forall environ : gmap string string,
      get_display_server environ = UNKNOWN <->
      session_type_signal environ = None
      /\ backend_override_signal environ = None
      /\ truthy (environ !! "WAYLAND_DISPLAY") = false
      /\ truthy (environ !! "DISPLAY") = false)
  /\ (forall (environ : gmap string string) (handle : string),
         get_display_server
           (<[ "XDG_SESSION_TYPE" := "x11" ]> (<[ "WAYLAND_DISPLAY" := handle ]> environ))
         = X11)
  /\ (forall (environ : gmap string string) (value : string),
         lower value = "wayland" ->
         get_display_server (<[ "XDG_SESSION_TYPE" := value ]> environ) = WAYLAND).
Proof.
  split; [exact detect_unknown_iff | split].
  - intros environ handle. unfold get_display_server, environ_get.
    rewrite lookup_insert_eq. reflexivity.
  - intros environ value Hv. unfold get_display_server, environ_get.
    rewrite lookup_insert_eq, Hv. reflexivity.
Qed.

Lemma get_display_server_unknown_iff_witness :
  lower "WayLand" = "wayland"
  /\ get_display_server (<[ "XDG_SESSION_TYPE" := "WayLand" ]> ∅) = WAYLAND.
Proof.
  split; [reflexivity |].
  apply get_display_server_unknown_iff. reflexivity.
Defined.



End FactoryProperties.

(** ** Saving a pixbuf *)
Section ClipboardProperties.
Import Clipboard.

Lemma has_dot_append (a b : string) : has_dot (a +:+ b) = has_dot a || has_dot b.
Proof.
  induction a as [| c a IH]; [reflexivity |].
  simpl. rewrite IH. apply orb_assoc.
Qed.

Lemma rsplit_last_append (stem ext : string) :
  has_dot ext = false -> rsplit_last (stem +:+ String "." ext) = ext.
Proof.
  intros Hext. induction stem as [| c stem IH].
  - change (rsplit_last (String "." ext) = ext). cbn [rsplit_last].
    rewrite Hext. reflexivity.
  - change (rsplit_last (String c (stem +:+ String "." ext)) = ext). cbn [rsplit_last].
    rewrite has_dot_append. cbn [has_dot Ascii.eqb Bool.eqb].
    rewrite orb_true_r. exact IH.
Qed.

Lemma fmt_map_values (ext fmt : string) :
  fmt_map !! ext = Some fmt -> In fmt ["jpeg"; "png"; "bmp"; "gif"].
Proof.
  unfold fmt_map.
  repeat (rewrite lookup_insert; case_decide;
          [intros [= <-]; simpl; tauto |]).
  rewrite lookup_empty. discriminate.
Qed.

(** X4: the format handed to [savev] follows the extension, which is
    what comes after the last dot of the path, compared without regard
    to case: the table's entry for the lowered extension, png when it
    has none; so [.JPG], [.jpg] and [.jpeg] all give jpeg, and [.bmp]
    and [.gif] their own format.  A path without a dot is saved as png,
    and whatever the path the format is one of jpeg, png, bmp and gif. *)
Theorem save_format_by_extension :
  (forall stem ext,
      has_dot ext = false ->
      rsplit_last (stem +:+ String "." ext) = ext
      /\ save_format (stem +:+ String "." ext) = default "png" (fmt_map !! lower ext))
  /\ (forall stem,
         save_format (stem +:+ ".JPG") = "jpeg"
         /\ save_format (stem +:+ ".jpg") = "jpeg"
         /\ save_format (stem +:+ ".jpeg") = "jpeg"
         /\ save_format (stem +:+ ".bmp") = "bmp"
         /\ save_format (stem +:+ ".Gif") = "gif"
         /\ save_format (stem +:+ ".txt") = "png")
  /\ (forall path, has_dot path = false -> save_format path = "png")
  /\ (forall path, In (save_format path) ["jpeg"; "png"; "bmp"; "gif"]).
Proof.
  assert (Hfmt : forall stem e, has_dot e = false ->
                   save_format (stem +:+ String "." e) = default "png" (fmt_map !! lower e)).
  { intros stem e He. unfold save_format.
    rewrite has_dot_append. cbn [has_dot Ascii.eqb Bool.eqb].
    rewrite orb_true_r, (rsplit_last_append stem e He).
    destruct (fmt_map !! lower e); reflexivity. }
  split; [| split; [| split]].
  - intros stem ext Hext. split; [exact (rsplit_last_append stem ext Hext) |].
    exact (Hfmt stem ext Hext).
  - intros stem.
    split; [exact (Hfmt stem "JPG" eq_refl) |].
    split; [exact (Hfmt stem "jpg" eq_refl) |].
    split; [exact (Hfmt stem "jpeg" eq_refl) |].
    split; [exact (Hfmt stem "bmp" eq_refl) |].
    split; [exact (Hfmt stem "Gif" eq_refl) | exact (Hfmt stem "txt" eq_refl)].
  - intros path Hd. unfold save_format. rewrite Hd. reflexivity.
  - intros path. unfold save_format.
    destruct (fmt_map !! _) as [fmt |] eqn:E; [exact (fmt_map_values _ _ E) |].
    simpl. tauto.
Qed.

Lemma save_format_by_extension_witness :
  has_dot "BMP" = false
  /\ save_format ("/home/user/Pictures/shot.v2" +:+ String "." "BMP") = "bmp"
  /\ has_dot "/home/user/Pictures/capture" = false
  /\ save_format "/home/user/Pictures/capture" = "png".
Proof.
  split; [reflexivity |].
  split; [apply (proj1 save_format_by_extension "/home/user/Pictures/shot.v2" "BMP");
          reflexivity |].
  split; [reflexivity |].
  apply (proj1 (proj2 (proj2 save_format_by_extension))). reflexivity.
Defined.

End ClipboardProperties.

(** ** Window enumeration *)
Section WindowEnumerationProperties.
Import WindowEnumeration.

Lemma find_some_split {A} (P : A -> bool) (m : list A) (a : A) :
  find P m = Some a ->
  exists m1 m2, m = m1 ++ a :: m2 /\ P a = true /\ Forall (fun b => P b = false) m1.
Proof.
  induction m as [| b m IH]; [discriminate |].
  simpl. destruct (P b) eqn:Hb.
  - intros [= <-]. exists [], m. repeat split; [exact Hb | constructor].
  - intros Hf. destruct (IH Hf) as (m1 & m2 & -> & Ha & Hall).
    exists (b :: m1), m2. repeat split; [exact Ha | constructor; assumption].
Qed.

Lemma find_none_forall {A} (P : A -> bool) (m : list A) :
  find P m = None <-> Forall (fun b => P b = false) m.
Proof.
  induction m as [| b m IH]; simpl.
  - split; [constructor | reflexivity].
  - destruct (P b) eqn:Hb.
    + split; [discriminate |]. intros H. inversion H; congruence.
    + rewrite IH. split; [constructor; assumption | intros H; now inversion H].
Qed.

(** X5: [get_window_at_position] returns a listed window that contains
    the point and above which (later in the list) no window contains it;
    it returns nothing exactly when no listed window contains the point.
    Both borders count: the far corner of a window hits it. *)
Theorem window_at_position_is_topmost (d : Display) (px py : Z) :
  (forall win, get_window_at_position d px py = Some win ->
     exists below above,
       get_windows d = below ++ win :: above
       /\ contains_point win px py = true
       /\ Forall (fun w => contains_point w px py = false) above)
  /\ (get_window_at_position d px py = None
      <-> Forall (fun w => contains_point w px py = false) (get_windows d))
  /\ (forall win, 0 <= width win -> 0 <= height win ->
        contains_point win (x win + width win) (y win + height win) = true).
Proof.
  unfold get_window_at_position. split; [| split].
  - intros win Hf.
    destruct (find_some_split _ _ _ Hf) as (m1 & m2 & Hrev & Hin & Hall).
    exists (rev m2), (rev m1). split; [| split; [exact Hin |]].
    + rewrite <- (rev_involutive (get_windows d)), Hrev.
      rewrite rev_app_distr. simpl. rewrite <- app_assoc. reflexivity.
    + apply Forall_rev. exact Hall.
  - rewrite find_none_forall. split; intros H.
    + rewrite <- (rev_involutive (get_windows d)). apply Forall_rev. exact H.
    + apply Forall_rev. exact H.
  - intros win Hw Hh. unfold contains_point.
    repeat (apply andb_true_intro; split); apply Z.leb_le; lia.
Qed.

Lemma window_at_position_is_topmost_witness :
  get_window_at_position desktop 350 250
  = Some {| window_id := 4194330; title := "Save as"; x := 300; y := 200;
            width := 200; height := 100 |}
  /\ exists below above,
       get_windows desktop
       = below ++ {| window_id := 4194330; title := "Save as"; x := 300; y := 200;
                     width := 200; height := 100 |} :: above
       /\ contains_point {| window_id := 4194330; title := "Save as"; x := 300; y := 200;
                            width := 200; height := 100 |} 350 250 = true
       /\ Forall (fun w => contains_point w 350 250 = false) above.
Proof.
  split; [reflexivity |].
  apply (proj1 (window_at_position_is_topmost desktop 350 250)). reflexivity.
Defined.

Lemma window_info_some (c : Client) (w : WindowInfo) :
  window_info c = Some w ->
  raises c = false
  /\ window_id w = wid c
  /\ title w = resolve_title c /\ title w <> ""
  /\ 1 < width w /\ 1 < height w
  /\ x w = fst (absolute_position c) - fst (fst (fst (extents c)))
  /\ y w = snd (absolute_position c) - snd (fst (extents c))
  /\ width w = g_width (geom c) + fst (fst (fst (extents c))) + snd (fst (fst (extents c)))
  /\ height w = g_height (geom c) + snd (fst (extents c)) + snd (extents c).
Proof.
  unfold window_info. destruct (raises c); [discriminate |].
  destruct (absolute_position c) as [abs_x abs_y].
  destruct (String.eqb (resolve_title c) "") eqn:Ht; [discriminate |].
  destruct (extents c) as [[[l r] t] b].
  destruct (_ && _) eqn:Hsz; [| discriminate].
  intros [= <-]. cbn.
  apply andb_true_iff in Hsz. destruct Hsz as [Hw Hh].
  apply Z.ltb_lt in Hw, Hh. apply String.eqb_neq in Ht.
  repeat split; auto.
Qed.

Lemma window_info_listed (c : Client) :
  raises c = false ->
  resolve_title c <> "" ->
  1 < g_width (geom c) + fst (fst (fst (extents c))) + snd (fst (fst (extents c))) ->
  1 < g_height (geom c) + snd (fst (extents c)) + snd (extents c) ->
  exists w, window_info c = Some w /\ window_id w = wid c /\ title w = resolve_title c.
Proof.
  intros Hr Ht Hw Hh. unfold window_info. rewrite Hr.
  destruct (absolute_position c) as [abs_x abs_y].
  rewrite (proj2 (String.eqb_neq _ _) Ht).
  destruct (extents c) as [[[l r] t] b]. cbn [fst snd] in Hw, Hh.
  rewrite (proj2 (Z.ltb_lt _ _) Hw), (proj2 (Z.ltb_lt _ _) Hh). cbn [andb].
  eexists. split; [reflexivity |]. split; reflexivity.
Qed.

(** X6: [get_windows] lists exactly the clients it can describe.  Every
    listed window has a non-empty title and a width and a height above
    1, and the listed ids are a subsequence of the client list, in its
    order; conversely every client whose requests go through, that has
    a title, and whose framed size is above 1 both ways, is listed under
    its id and title.  When the display does not answer, or the
    client-list property is missing, the list is empty instead of an
    error. *)
Theorem get_windows_listing (d : Display) :
  Forall (fun w => title w <> "" /\ 1 < width w /\ 1 < height w) (get_windows d)
  /\ sublist (map window_id (get_windows d)) (map wid (default [] (client_list d)))
  /\ (forall clients c,
         answers d = true ->
         client_list d = Some clients ->
         c ∈ clients ->
         raises c = false ->
         resolve_title c <> "" ->
         1 < g_width (geom c) + fst (fst (fst (extents c))) + snd (fst (fst (extents c))) ->
         1 < g_height (geom c) + snd (fst (extents c)) + snd (extents c) ->
         exists w, w ∈ get_windows d /\ window_id w = wid c /\ title w = resolve_title c)
  /\ (answers d = false -> get_windows d = [])
  /\ (client_list d = None -> get_windows d = []).
Proof.
  unfold get_windows, _get_windows_xlib.
  destruct (answers d); cbn [negb].
  - destruct (client_list d) as [cs |]; cbn [default from_option id].
    + split; [| split; [| split; [| split; [discriminate | discriminate]]]].
      * induction cs as [| c cs IH]; [constructor |].
        simpl. destruct (window_info c) as [w |] eqn:Hw; [| exact IH].
        constructor; [| exact IH].
        destruct (window_info_some c w Hw) as (_ & _ & _ & Ht & Hwd & Hh & _). auto.
      * induction cs as [| c cs IH]; [constructor |].
        simpl. destruct (window_info c) as [w |] eqn:Hw.
        -- simpl. destruct (window_info_some c w Hw) as (_ & -> & _).
           apply sublist_skip, IH.
        -- apply sublist_cons, IH.
      * intros clients c _ [= <-] Hin Hr Ht Hw Hh.
        destruct (window_info_listed c Hr Ht Hw Hh) as (w & Hinfo & Hid & Htitle).
        exists w. split; [| split; assumption].
        apply list_elem_of_omap. exists c. split; assumption.
    + repeat split; try constructor; discriminate.
  - repeat split; try constructor; try discriminate. apply sublist_nil_l.
Qed.

Lemma get_windows_listing_witness :
  map title (get_windows desktop) = ["Terminal"; "Save as"]
  /\ exists w,
       w ∈ get_windows desktop
       /\ window_id w = wid dialog_client
       /\ title w = "Save as".
Proof.
  split; [reflexivity |].
  apply (proj1 (proj2 (proj2 (get_windows_listing desktop)))
           [terminal_client; helper_client; dialog_client] dialog_client);
    try reflexivity.
  - do 2 apply list_elem_of_further. apply list_elem_of_here.
  - discriminate.
Defined.

Lemma walk_sums (abs_x abs_y : Z) (g : Geometry) (above : list Geometry) :
  walk abs_x abs_y g above
  = (abs_x + g_x g + foldr Z.add 0 (map g_x above),
     abs_y + g_y g + foldr Z.add 0 (map g_y above)).
Proof.
  revert abs_x abs_y g. induction above as [| p above IH]; intros abs_x abs_y g.
  - simpl. f_equal; lia.
  - simpl. rewrite IH. f_equal; lia.
Qed.

(** X7: the position of a listed window is the sum of the offsets of the
    window and of all its parents, moved out by the left and top frame
    extents; with non-negative extents the listed rectangle covers the
    client's own rectangle, so every point of the client area hits the
    listed window. *)
Theorem listed_window_covers_client (c : Client) (w : WindowInfo) (px py : Z) :
  window_info c = Some w ->
  let abs_x := g_x (geom c) + foldr Z.add 0 (map g_x (parents c)) in
  let abs_y := g_y (geom c) + foldr Z.add 0 (map g_y (parents c)) in
  let '(left_, right_, top_, bottom_) := extents c in
  x w = abs_x - left_ /\ y w = abs_y - top_
  /\ x w + width w = abs_x + g_width (geom c) + right_
  /\ y w + height w = abs_y + g_height (geom c) + bottom_
  /\ (0 <= left_ -> 0 <= right_ -> 0 <= top_ -> 0 <= bottom_ ->
      abs_x <= px <= abs_x + g_width (geom c) ->
      abs_y <= py <= abs_y + g_height (geom c) ->
      contains_point w px py = true).
Proof.
  intros Hw. destruct (window_info_some c w Hw)
    as (_ & _ & _ & _ & _ & _ & Hx & Hy & Hwd & Hh).
  unfold absolute_position in Hx, Hy. rewrite walk_sums in Hx, Hy. cbn [fst snd] in Hx, Hy.
  destruct (extents c) as [[[l r] t] b]. cbn [fst snd] in *. cbn zeta.
  repeat split; try lia.
  intros Hl Hr Ht Hb Hpx Hpy. unfold contains_point.
  repeat (apply andb_true_intro; split); apply Z.leb_le; lia.
Qed.

Lemma listed_window_covers_client_witness :
  window_info terminal_client
  = Some {| window_id := 4194310; title := "Terminal"; x := 100; y := 50;
            width := 804; height := 632 |}
  /\ contains_point {| window_id := 4194310; title := "Terminal"; x := 100; y := 50;
                       width := 804; height := 632 |} 500 300 = true.
Proof.
  split; [reflexivity |].
  pose proof (listed_window_covers_client terminal_client
                {| window_id := 4194310; title := "Terminal"; x := 100; y := 50;
                   width := 804; height := 632 |} 500 300 eq_refl) as H.
  simpl in H. apply H; lia.
Defined.

End WindowEnumerationProperties.

(** ** More on the capture backends *)
Section CaptureRunProperties.
Import ScreenCapture CaptureRuns.

Variable polygon : list (Z * Z) -> Z -> Z -> list Byte.byte -> list Byte.byte.
Variable unquote_path : string -> string.

(** X8: on a connected display, [capture_region] of a non-empty
    rectangle inside the screen returns an image without alpha, of
    exactly the requested width and height, whose pixel at column [i],
    row [j] is the framebuffer pixel at [(x + i, y + j)], the BGRX bytes
    of the server read back as red, green, blue. *)
Theorem x11_capture_region_pixels (root : RootWindow) (x y w h : Z) :
  connected root = true ->
  valid_rectangle (root_width root) (root_height root) x y w h ->
  exists img,
    x11_capture_region root x y w h = Ok img
    /\ ScreenCapture.width img = Z.to_nat w
    /\ ScreenCapture.height img = Z.to_nat h
    /\ extra img = NoBand
    /\ length (pixels img) = (Z.to_nat w * Z.to_nat h)%nat
    /\ forall i j, (i < Z.to_nat w)%nat -> (j < Z.to_nat h)%nat ->
         pixel_at img i j = rgb_of (framebuffer root (Z.to_nat x + i) (Z.to_nat y + j)).
Proof.
  intros Hc Hv. eexists. split; [apply (x11_capture_region_ok root x y w h Hc Hv) |].
  cbn [ScreenCapture.width ScreenCapture.height extra pixels].
  repeat split; [apply raster_length |].
  intros i j Hi Hj. unfold pixel_at. cbn [ScreenCapture.width pixels].
  apply (raster_nth_at (fun i j => rgb_of (framebuffer root i j))); assumption.
Qed.

Lemma x11_capture_region_pixels_witness :
  connected striped_screen = true
  /\ valid_rectangle 4 3 1 1 2 2
  /\ exists img,
       x11_capture_region striped_screen 1 1 2 2 = Ok img
       /\ pixel_at img 1 0 = (Byte.x30, Byte.x02, Byte.xff)
       /\ pixel_at img 0 1 = (Byte.x20, Byte.x03, Byte.xff).
Proof.
  assert (Hv : valid_rectangle 4 3 1 1 2 2) by (unfold valid_rectangle; simpl; lia).
  split; [reflexivity |]. split; [exact Hv |].
  destruct (x11_capture_region_pixels striped_screen 1 1 2 2 eq_refl Hv)
    as (img & Himg & _ & _ & _ & _ & Hpx).
  exists img. split; [exact Himg |].
  split; [apply (Hpx 1%nat 0%nat) | apply (Hpx 0%nat 1%nat)]; simpl; lia.
Defined.

(** X9: [capture_region] returns an image only for a non-empty
    rectangle inside the screen of a connected display, and that image
    has the requested size: a rectangle that leaves the screen or is
    empty makes the call raise, never return a clipped or empty image. *)
Theorem x11_capture_region_only_inside (root : RootWindow) (x y w h : Z) (img : Image) :
  x11_capture_region root x y w h = Ok img ->
  connected root = true
  /\ valid_rectangle (root_width root) (root_height root) x y w h
  /\ ScreenCapture.width img = Z.to_nat w
  /\ ScreenCapture.height img = Z.to_nat h.
Proof.
  intros Himg.
  pose proof (x11_region_ok_nonempty root x y w h img Himg) as Hne.
  unfold x11_capture_region, get_image in Himg.
  destruct (connected root); [| discriminate]. cbn [negb] in Himg.
  destruct (_ && _) eqn:Hb; [| discriminate].
  repeat (apply andb_true_iff in Hb; destruct Hb as [Hb ?]).
  repeat match goal with H : (_ <=? _) = true |- _ => apply Z.leb_le in H end.
  assert (Hv : valid_rectangle (root_width root) (root_height root) x y w h)
    by (unfold valid_rectangle; lia).
  split; [reflexivity |]. split; [exact Hv |].
  cbn [rbind] in Himg. unfold frombytes_RGBX in Himg.
  destruct ((w <? 0) || (h <? 0)); [discriminate |].
  destruct (_ <? _)%nat; [discriminate |].
  cbn [rbind] in Himg. unfold _pil_to_pixbuf, png_roundtrip in Himg.
  cbn [convert_RGB ScreenCapture.width ScreenCapture.height] in Himg.
  destruct (_ || _); [discriminate |].
  injection Himg as <-. split; reflexivity.
Qed.

Lemma x11_capture_region_only_inside_witness :
  exists img,
    x11_capture_region striped_screen 2 0 2 3 = Ok img
    /\ valid_rectangle (root_width striped_screen) (root_height striped_screen) 2 0 2 3
    /\ ScreenCapture.width img = 2%nat
    /\ ScreenCapture.height img = 3%nat.
Proof.
  eexists. split; [reflexivity |].
  eapply (x11_capture_region_only_inside striped_screen 2 0 2 3). reflexivity.
Defined.

Lemma polygon_mask_ok x y w h (points : list (Z * Z)) :
  0 <= w -> 0 <= h ->
  polygon_mask polygon x y w h points = Ok (freeform_mask polygon x y w h points).
Proof.
  intros Hw Hh. unfold polygon_mask, new_L, freeform_mask.
  rewrite (proj2 (Z.ltb_ge w 0)), (proj2 (Z.ltb_ge h 0)) by lia.
  cbn [orb rbind]. unfold local_points at 1. rewrite length_map.
  destruct (3 <=? length points)%nat; reflexivity.
Qed.

Lemma portal_region_ok o p x y w h full :
  fst (portal_capture_fullscreen unquote_path o p) = Ok full ->
  fst (portal_capture_region unquote_path o p x y w h) = Ok (new_subpixbuf x y w h full).
Proof.
  unfold portal_capture_region, portal_capture_fullscreen.
  destruct (_screenshot false o p) as [r p']. cbn [fst].
  destruct r as [u | e]; [| discriminate]. cbn [rbind].
  intros ->. reflexivity.
Qed.

Lemma portal_freeform_ok o p x y w h (points : list (Z * Z)) full region :
  fst (portal_capture_fullscreen unquote_path o p) = Ok full ->
  valid_rectangle (ScreenCapture.width full) (ScreenCapture.height full) x y w h ->
  new_subpixbuf x y w h full = Some region ->
  fst (portal_capture_freeform polygon unquote_path o p x y w h points)
  = Ok (putalpha (freeform_mask polygon x y w h points) region).
Proof.
  intros Hfull Hv Hregion.
  unfold portal_capture_freeform, portal_capture_fullscreen in *.
  destruct (_screenshot false o p) as [r p']. cbn [fst snd] in *.
  destruct r as [u | e]; [| discriminate]. cbn [rbind] in *.
  rewrite Hfull. cbn [rbind].
  pose proof Hv as (Hx & Hy & Hw & Hh & Hxw & Hyh).
  unfold new_subpixbuf in Hregion.
  rewrite (proj2 (Z.leb_le 0 x)), (proj2 (Z.leb_le 0 y)),
    (proj2 (Z.ltb_lt 0 w)), (proj2 (Z.ltb_lt 0 h)),
    (proj2 (Z.leb_le (x + w) _)), (proj2 (Z.leb_le (y + h) _)) in Hregion by lia.
  cbn [andb] in Hregion. injection Hregion as <-.
  unfold png_roundtrip at 1.
  rewrite (proj2 (Nat.eqb_neq (ScreenCapture.width full) 0)),
    (proj2 (Nat.eqb_neq (ScreenCapture.height full) 0)) by lia.
  cbn [orb rbind]. unfold pil_crop.
  rewrite (proj2 (Z.ltb_ge w 0)), (proj2 (Z.ltb_ge h 0)) by lia.
  cbn [orb rbind].
  rewrite (polygon_mask_ok x y w h points) by lia.
  cbn [rbind]. unfold png_roundtrip, putalpha.
  cbn [ScreenCapture.width ScreenCapture.height pixels].
  rewrite (proj2 (Nat.eqb_neq (Z.to_nat w) 0)), (proj2 (Nat.eqb_neq (Z.to_nat h) 0)) by lia.
  cbn [orb rbind]. rewrite (pil_crop_inside x y w h full Hv). reflexivity.
Qed.

(** X10: for every polygon, degenerate or not, [capture_freeform] leaves
    the colours alone: its result is [capture_region] of the same box
    with the polygon mask as alpha channel, and it fails exactly when
    [capture_region] fails.  On a display that answers, for a box inside
    the screen it returns an image of the size of the box whose alpha
    channel is the polygon mask and whose pixel [(i, j)] is the
    framebuffer pixel [(x + i, y + j)].  On the portal backend the same
    holds, with the portal screenshot in place of the framebuffer, for
    every box inside the screenshot. *)
Theorem freeform_is_region_with_mask :
  (forall root x y w h (points : list (Z * Z)),
      x11_capture_freeform polygon root x y w h points
      = rmap (putalpha (freeform_mask polygon x y w h points))
             (x11_capture_region root x y w h))
  /\ (forall root x y w h (points : list (Z * Z)),
         connected root = true ->
         valid_rectangle (root_width root) (root_height root) x y w h ->
         exists img,
           x11_capture_freeform polygon root x y w h points = Ok img
           /\ extra img = Alpha (freeform_mask polygon x y w h points)
           /\ ScreenCapture.width img = Z.to_nat w
           /\ ScreenCapture.height img = Z.to_nat h
           /\ forall i j, (i < Z.to_nat w)%nat -> (j < Z.to_nat h)%nat ->
                pixel_at img i j
                = rgb_of (framebuffer root (Z.to_nat x + i) (Z.to_nat y + j)))
  /\ (forall o p x y w h (points : list (Z * Z)) full,
         fst (portal_capture_fullscreen unquote_path o p) = Ok full ->
         valid_rectangle (ScreenCapture.width full) (ScreenCapture.height full) x y w h ->
         rmap Some (fst (portal_capture_freeform polygon unquote_path o p x y w h points))
         = rmap (fmap (putalpha (freeform_mask polygon x y w h points)))
                (fst (portal_capture_region unquote_path o p x y w h)))
  /\ (forall o p x y w h (points : list (Z * Z)) full,
         fst (portal_capture_fullscreen unquote_path o p) = Ok full ->
         valid_rectangle (ScreenCapture.width full) (ScreenCapture.height full) x y w h ->
         exists img,
           fst (portal_capture_freeform polygon unquote_path o p x y w h points) = Ok img
           /\ extra img = Alpha (freeform_mask polygon x y w h points)
           /\ ScreenCapture.width img = Z.to_nat w
           /\ ScreenCapture.height img = Z.to_nat h
           /\ forall i j, (i < Z.to_nat w)%nat -> (j < Z.to_nat h)%nat ->
                pixel_at img i j = pixel_at full (Z.to_nat x + i) (Z.to_nat y + j)).
Proof.
  assert (Hx11 : forall root x y w h (points : list (Z * Z)),
             x11_capture_freeform polygon root x y w h points
             = rmap (putalpha (freeform_mask polygon x y w h points))
                    (x11_capture_region root x y w h)).
  { intros root x y w h points. unfold x11_capture_freeform, x11_capture_region, rmap.
    destruct (get_image root x y w h) as [raw | e] eqn:Hraw; [| reflexivity].
    destruct (get_image_ok_size _ _ _ _ _ _ Hraw) as [Hw Hh].
    cbn [rbind]. destruct (frombytes_RGBX w h raw) as [image | e]; [| reflexivity].
    cbn [rbind]. rewrite (polygon_mask_ok x y w h points Hw Hh).
    cbn [rbind]. unfold _pil_to_pixbuf, png_roundtrip.
    cbn [ScreenCapture.width ScreenCapture.height putalpha convert_RGBA convert_RGB].
    destruct ((ScreenCapture.width image =? 0)%nat || (ScreenCapture.height image =? 0)%nat);
      reflexivity. }
  split; [exact Hx11 |]. split; [| split].
  - intros root x y w h points Hc Hv.
    rewrite Hx11, (x11_capture_region_ok root x y w h Hc Hv).
    unfold rmap. cbn [rbind]. eexists. split; [reflexivity |].
    cbn [putalpha extra ScreenCapture.width ScreenCapture.height].
    split; [reflexivity |]. split; [reflexivity |]. split; [reflexivity |].
    intros i j Hi Hj. unfold pixel_at. cbn [ScreenCapture.width pixels].
    apply (raster_nth_at (fun i j => rgb_of (framebuffer root i j))); assumption.
  - intros o p x y w h points full Hfull Hv.
    destruct (new_subpixbuf_pixels full x y w h Hv) as (region & Hregion & _).
    rewrite (portal_freeform_ok o p x y w h points full region Hfull Hv Hregion).
    rewrite (portal_region_ok o p x y w h full Hfull), Hregion. reflexivity.
  - intros o p x y w h points full Hfull Hv.
    destruct (new_subpixbuf_pixels full x y w h Hv)
      as (region & Hregion & Hwd & Hht & _ & Hpx).
    exists (putalpha (freeform_mask polygon x y w h points) region).
    split; [exact (portal_freeform_ok o p x y w h points full region Hfull Hv Hregion) |].
    cbn [putalpha extra ScreenCapture.width ScreenCapture.height].
    split; [reflexivity |]. split; [exact Hwd |]. split; [exact Hht |].
    intros i j Hi Hj. exact (proj1 (Hpx i j Hi Hj)).
Qed.

(** X11: translating the polygon to box-local coordinates keeps the
    number of points, sends every point of the box into the mask
    rectangle [0, width) x [0, height), and is undone by translating back
    by the box origin. *)
Theorem local_points_land_in_mask (x y w h : Z) (points : list (Z * Z)) :
  length (local_points x y points) = length points
  /\ (Forall (in_box x y w h) points ->
      Forall (in_box 0 0 w h) (local_points x y points))
  /\ local_points (- x) (- y) (local_points x y points) = points.
Proof.
  unfold local_points. split; [apply length_map | split].
  - intros Hall. apply Forall_map. eapply Forall_impl; [exact Hall |].
    intros [px py] [Hx Hy]. unfold in_box in *. cbn [fst snd] in *. lia.
  - rewrite map_map. rewrite <- (map_id points) at 2. apply map_ext.
    intros [px py]. cbn [fst snd]. f_equal; lia.
Qed.

Lemma local_points_land_in_mask_witness :
  Forall (in_box 10 20 100 50) [(10, 20); (109, 69); (60, 40)]
  /\ Forall (in_box 0 0 100 50) (local_points 10 20 [(10, 20); (109, 69); (60, 40)]).
Proof.
  assert (H : Forall (in_box 10 20 100 50) [(10, 20); (109, 69); (60, 40)]).
  { repeat constructor; simpl; lia. }
  split; [exact H |].
  apply (local_points_land_in_mask 10 20 100 50). exact H.
Defined.

(** X12: [_screenshot] hands back a URI only when the portal responded
    with code 0 and a [uri] entry, and then it is that URI; a response
    with another code raises a [RuntimeError] that names the code, and a
    code-0 response without URI or a timeout raises too: no call returns
    without a URI. *)
Theorem screenshot_result_by_outcome (interactive : bool) (p : Portal) :
  (forall o u,
      fst (_screenshot interactive o p) = Ok u
      <-> exists results, o = Responds 0 results /\ uri results = Some u)
  /\ (forall response results,
         response <> 0 ->
         fst (_screenshot interactive (Responds response results) p)
         = Raise (RuntimeError ("Portal screenshot failed with response "
                                +:+ pretty response)))
  /\ (forall results,
         uri results = None ->
         fst (_screenshot interactive (Responds 0 results) p)
         = Raise (RuntimeError "Portal screenshot failed with response 0"))
  /\ fst (_screenshot interactive TimesOut p)
     = Raise (RuntimeError "No URI returned from screenshot portal")
  /\ (forall message,
         fst (_screenshot interactive (CallRaises message) p) = Raise (GLibError message)).
Proof.
  split; [| split; [| split; [| split]]].
  - intros o u. unfold _screenshot. cbn [signal_subscribe].
    destruct o as [message | response results |]; cbn [fst].
    + split; [discriminate | intros (r & Hr & _); discriminate].
    + destruct (response =? 0) eqn:Hz; cbn [andb].
      * apply Z.eqb_eq in Hz. subst response.
        destruct (uri results) as [v |] eqn:Hu.
        -- rewrite bool_decide_eq_true_2 by eauto. cbn [truthy fst].
           split.
           ++ intros [= <-]. exists results. auto.
           ++ intros (r & [= <-] & Hr). congruence.
        -- rewrite bool_decide_eq_false_2 by (intros [? ?]; discriminate).
           split; [discriminate |]. intros (r & [= <-] & Hr). congruence.
      * split; [discriminate |]. intros (r & [= -> _] & _). discriminate.
    + split; [discriminate | intros (r & Hr & _); discriminate].
  - intros response results Hne. unfold _screenshot. cbn [signal_subscribe].
    rewrite (proj2 (Z.eqb_neq response 0) Hne). reflexivity.
  - intros results Hu. unfold _screenshot. cbn [signal_subscribe]. rewrite Hu.
    rewrite bool_decide_eq_false_2 by (intros [? ?]; discriminate). reflexivity.
  - reflexivity.
  - reflexivity.
Qed.

Lemma screenshot_result_by_outcome_witness :
  (13 : Z) <> 0
  /\ fst (_screenshot false (Responds 13 {| uri := None; streams := None |}) quiet_portal)
     = Raise (RuntimeError "Portal screenshot failed with response 13").
Proof.
  assert (H : (13 : Z) <> 0) by discriminate.
  split; [exact H |].
  apply (proj1 (proj2 (screenshot_result_by_outcome false quiet_portal))). exact H.
Defined.

Lemma screenshot_bus (o : portal_outcome) (p : Portal) :
  bus_fresh (bus p) ->
  bus_fresh (bus (snd (_screenshot false o p)))
  /\ image_files (snd (_screenshot false o p)) = image_files p
  /\ subscriptions (bus (snd (_screenshot false o p)))
     = (if call_raises o
        then subscriptions (bus p) ∪ {[ next_subscription (bus p) ]}
        else subscriptions (bus p))
  /\ next_subscription (bus p) ∉ subscriptions (bus p).
Proof.
  intros Hf.
  assert (Hn : next_subscription (bus p) ∉ subscriptions (bus p)).
  { intros Hin. apply Hf in Hin. lia. }
  assert (Hback : (subscriptions (bus p) ∪ {[ next_subscription (bus p) ]})
                    ∖ {[ next_subscription (bus p) ]} = subscriptions (bus p)).
  { apply set_eq. intros i. rewrite elem_of_difference, elem_of_union, !elem_of_singleton.
    split; [intros [[H | H] Hne]; [exact H | contradiction] |].
    intros H. split; [left; exact H |]. intros ->. contradiction. }
  unfold _screenshot, bus_fresh. cbn [signal_subscribe].
  destruct o as [message | response results |]; [| destruct (_ && _) |];
    cbn [call_raises snd with_bus bus image_files signal_unsubscribe subscriptions
         next_subscription];
    rewrite ?Hback; (split; [| auto]); intros i Hi.
  - apply elem_of_union in Hi as [H | H]; [apply Hf in H | apply elem_of_singleton in H]; lia.
  - apply Hf in Hi. lia.
  - apply Hf in Hi. lia.
  - apply Hf in Hi. lia.
Qed.

(** X13: over any sequence of screenshot requests on a bus whose ids are
    handed out in order, the handlers subscribed before stay subscribed,
    and their number grows by exactly the number of requests whose portal
    call raised: every such request leaves one handler behind, every
    other request none. *)
Theorem handlers_accumulate_per_call_error (outcomes : list portal_outcome) (p : Portal) :
  bus_fresh (bus p) ->
  bus_fresh (bus (take_screenshots outcomes p))
  /\ size (subscriptions (bus (take_screenshots outcomes p)))
     = (size (subscriptions (bus p)) + length (List.filter call_raises outcomes))%nat
  /\ subscriptions (bus p) ⊆ subscriptions (bus (take_screenshots outcomes p))
  /\ image_files (take_screenshots outcomes p) = image_files p.
Proof.
  revert p. induction outcomes as [| o outcomes IH]; intros p Hf.
  - cbn. repeat split; [exact Hf | lia | reflexivity].
  - destruct (screenshot_bus o p Hf) as (Hf1 & Hfiles & Hsubs & Hn).
    destruct (IH _ Hf1) as (Hf' & Hsize & Hsub & Hfiles').
    change (take_screenshots (o :: outcomes) p)
      with (take_screenshots outcomes (snd (_screenshot false o p))).
    split; [exact Hf' |]. split; [| split].
    + rewrite Hsize, Hsubs. cbn [List.filter].
      destruct (call_raises o); cbn [length]; [| lia].
      rewrite size_union by (apply disjoint_singleton_r; exact Hn).
      rewrite size_singleton. lia.
    + etransitivity; [| exact Hsub]. rewrite Hsubs.
      destruct (call_raises o); [apply union_subseteq_l | reflexivity].
    + congruence.
Qed.

(** X14: [start_screencast] returns a node id only when CreateSession and
    SelectSources went through and Start was answered with code 0 and a
    non-empty stream list, and then it is the text of the first stream's
    node id; when CreateSession or SelectSources raises, the error passes
    through and the bus is untouched, since no handler was subscribed
    yet. *)
Theorem start_screencast_result (rep : ScreencastReplies) (p : Portal) :
  (forall n,
      fst (start_screencast rep p) = Ok n
      <-> exists session results k rest,
            create_session rep = Ok session
            /\ select_sources rep = Ok tt
            /\ start rep = Responds 0 results
            /\ streams results = Some (k :: rest)
            /\ n = pretty k)
  /\ (forall e, create_session rep = Raise e -> start_screencast rep p = (Raise e, p))
  /\ (forall session e,
         create_session rep = Ok session ->
         select_sources rep = Raise e ->
         start_screencast rep p = (Raise e, p)).
Proof.
  split; [| split].
  - intros n. unfold start_screencast.
    destruct (create_session rep) as [session | e].
    2:{ split; [discriminate | intros (? & ? & ? & ? & H & _); discriminate]. }
    destruct (select_sources rep) as [[] | e].
    2:{ split; [discriminate | intros (? & ? & ? & ? & _ & H & _); discriminate]. }
    cbn [signal_subscribe].
    destruct (start rep) as [message | response results |]; cbn [fst].
    + split; [discriminate | intros (? & ? & ? & ? & _ & _ & H & _); discriminate].
    + destruct (response =? 0) eqn:Hz; cbn [andb].
      * apply Z.eqb_eq in Hz. subst response.
        destruct (streams results) as [[| k rest] |] eqn:Hs.
        -- rewrite bool_decide_eq_true_2 by eauto. cbn.
           split; [discriminate |].
           intros (? & r & ? & ? & _ & _ & [= <-] & Hr & _). congruence.
        -- rewrite bool_decide_eq_true_2 by eauto. cbn [default from_option id fst].
           split.
           ++ intros [= <-]. exists session, results, k, rest. auto.
           ++ intros (? & r & k' & rest' & _ & _ & [= <-] & Hr & ->). congruence.
        -- rewrite bool_decide_eq_false_2 by (intros [? ?]; discriminate).
           split; [discriminate |].
           intros (? & r & ? & ? & _ & _ & [= <-] & Hr & _). congruence.
      * split; [discriminate |].
        intros (? & r & ? & ? & _ & _ & [= -> _] & _). discriminate.
    + split; [discriminate | intros (? & ? & ? & ? & _ & _ & H & _); discriminate].
  - intros e He. unfold start_screencast. rewrite He. reflexivity.
  - intros session e Hc Hs. unfold start_screencast. rewrite Hc, Hs. reflexivity.
Qed.

Lemma start_screencast_result_witness :
  create_session {| create_session := Raise (GLibError "AccessDenied");
                    select_sources := Ok tt; start := TimesOut |}
  = Raise (GLibError "AccessDenied")
  /\ start_screencast {| create_session := Raise (GLibError "AccessDenied");
                         select_sources := Ok tt; start := TimesOut |} quiet_portal
     = (Raise (GLibError "AccessDenied"), quiet_portal).
Proof.
  split; [reflexivity |].
  apply (proj1 (proj2 (start_screencast_result _ quiet_portal))). reflexivity.
Defined.

Lemma fullscreen_through_desktop_image (root : RootWindow) :
  x11_capture_fullscreen root = rbind (x11_capture_desktop_image root) png_roundtrip.
Proof.
  unfold x11_capture_fullscreen, x11_capture_desktop_image, x11_capture_region.
  destruct (get_geometry root) as [geom | e]; [| reflexivity]. cbn [rbind].
  destruct (get_image root 0 0 _ _) as [raw | e]; [| reflexivity]. cbn [rbind].
  destruct (frombytes_RGBX _ _ raw) as [image | e]; reflexivity.
Qed.

(** X15: on a connected display with a non-empty screen,
    [capture_desktop_image] and [capture_fullscreen] return the same
    image: the whole framebuffer, pixel for pixel, without alpha. *)
Theorem x11_desktop_image_is_fullscreen (root : RootWindow) :
  connected root = true ->
  (0 < root_width root)%nat -> (0 < root_height root)%nat ->
  exists img,
    x11_capture_desktop_image root = Ok img
    /\ x11_capture_fullscreen root = Ok img
    /\ ScreenCapture.width img = root_width root
    /\ ScreenCapture.height img = root_height root
    /\ extra img = NoBand
    /\ forall i j, (i < root_width root)%nat -> (j < root_height root)%nat ->
         pixel_at img i j = rgb_of (framebuffer root i j).
Proof.
  intros Hc HW HH.
  pose proof (x11_capture_fullscreen_ok root Hc HW HH) as Hfull.
  pose proof (fullscreen_through_desktop_image root) as Hvia.
  rewrite Hfull in Hvia.
  destruct (x11_capture_desktop_image root) as [img | e]; [| discriminate].
  cbn [rbind] in Hvia. unfold png_roundtrip in Hvia.
  destruct (_ || _); [discriminate |]. injection Hvia as <-.
  eexists. split; [reflexivity |]. split; [exact Hfull |].
  cbn [ScreenCapture.width ScreenCapture.height extra]. repeat split.
  intros i j Hi Hj. unfold pixel_at. cbn [ScreenCapture.width pixels].
  apply (raster_nth (fun i j => rgb_of (framebuffer root i j))); assumption.
Qed.

Lemma x11_desktop_image_is_fullscreen_witness :
  connected striped_screen = true
  /\ exists img,
       x11_capture_desktop_image striped_screen = Ok img
       /\ x11_capture_fullscreen striped_screen = Ok img
       /\ pixel_at img 3 2 = (Byte.x40, Byte.x03, Byte.xff).
Proof.
  split; [reflexivity |].
  destruct (x11_desktop_image_is_fullscreen striped_screen eq_refl)
    as (img & H1 & H2 & _ & _ & _ & Hpx); [simpl; lia | simpl; lia |].
  exists img. split; [exact H1 |]. split; [exact H2 |].
  apply (Hpx 3%nat 2%nat); simpl; lia.
Defined.

End CaptureRunProperties.

(** ** Evaluations of the capture runs *)
Section CaptureRunEvaluations.
Import ScreenCapture CaptureRuns.

Lemma freeform_is_region_with_mask_witness :
  fst (portal_capture_fullscreen path_as_is shot_reply portal_with_shot) = Ok saved_shot
  /\ valid_rectangle 2 1 1 0 1 1
  /\ (exists img,
         fst (portal_capture_freeform fill_all path_as_is shot_reply portal_with_shot
                1 0 1 1 [(1, 0); (2, 0); (2, 1); (1, 1)]) = Ok img
         /\ extra img = Alpha [Byte.xff]
         /\ pixel_at img 0 0 = (Byte.x40, Byte.x50, Byte.x60))
  /\ valid_rectangle 4 3 1 1 2 2
  /\ (exists img,
         x11_capture_freeform fill_all striped_screen 1 1 2 2 [(1, 1); (3, 1); (1, 3)]
         = Ok img
         /\ extra img = Alpha [Byte.xff; Byte.xff; Byte.xff; Byte.xff]
         /\ pixel_at img 1 1 = (Byte.x30, Byte.x03, Byte.xff)).
Proof.
  assert (Hv : valid_rectangle 2 1 1 0 1 1) by (unfold valid_rectangle; simpl; lia).
  assert (Hv' : valid_rectangle 4 3 1 1 2 2) by (unfold valid_rectangle; simpl; lia).
  split; [reflexivity |]. split; [exact Hv |]. split; [| split; [exact Hv' |]].
  - destruct (proj2 (proj2 (proj2 (freeform_is_region_with_mask fill_all path_as_is)))
                shot_reply portal_with_shot 1 0 1 1 [(1, 0); (2, 0); (2, 1); (1, 1)]
                saved_shot eq_refl Hv) as (img & Himg & Hextra & _ & _ & Hpx).
    exists img. split; [exact Himg |]. split; [exact Hextra |].
    apply (Hpx 0%nat 0%nat); simpl; lia.
  - destruct (proj1 (proj2 (freeform_is_region_with_mask fill_all path_as_is))
                striped_screen 1 1 2 2 [(1, 1); (3, 1); (1, 3)] eq_refl Hv')
      as (img & Himg & Hextra & _ & _ & Hpx).
    exists img. split; [exact Himg |]. split; [exact Hextra |].
    apply (Hpx 1%nat 1%nat); simpl; lia.
Defined.

Lemma handlers_accumulate_per_call_error_witness :
  bus_fresh (bus quiet_portal)
  /\ size (subscriptions
             (bus (take_screenshots [CallRaises "NoReply"; TimesOut; CallRaises "NoReply"]
                     quiet_portal))) = 2%nat.
Proof.
  assert (Hf : bus_fresh (bus quiet_portal)).
  { intros i Hi. simpl in Hi. apply elem_of_empty in Hi. destruct Hi. }
  split; [exact Hf |].
  apply (handlers_accumulate_per_call_error
           [CallRaises "NoReply"; TimesOut; CallRaises "NoReply"] quiet_portal Hf).
Defined.

End CaptureRunEvaluations.

(** ** More on the recording supervisor *)
Section RecordingRunProperties.
Import DisplayServerDetector VideoRecording RecordingRuns.

Ltac sys_cbn :=
  cbn [svc world calls stop_workers idle_queue on_svc on_world pop_idle idle_add
       take_worker spawn_worker].

Lemma stop_timer_timer (y : System) : _timer_id (svc (_stop_duration_timer y)) = None.
Proof.
  unfold _stop_duration_timer. destruct (_timer_id (svc y)) eqn:E; [reflexivity | exact E].
Qed.

Lemma run_idle_spec (c : idle_callback) (X : System) :
  run_idle c X
  = invoke (idle_handler c (svc X)) (idle_report c) (_set_state (idle_state c) X).
Proof.
  unfold idle_handler, idle_state, idle_report.
  destruct c as [returncode file_path file_size stderr_data | | err_msg];
    cbn [run_idle idle_succeeds].
  - destruct (_ && _); rewrite set_state_svc; reflexivity.
  - rewrite set_state_svc. reflexivity.
  - rewrite set_state_svc. reflexivity.
Qed.

Lemma run_idle_calls (c : idle_callback) (X : System) :
  _state (svc (run_idle c X)) = idle_state c
  /\ calls (run_idle c X)
     = calls X
       ++ (if bool_decide (_state (svc X) ≠ idle_state c) && on_state_changed (svc X)
           then [StateChanged (idle_state c)] else [])
       ++ (if idle_handler c (svc X) then [idle_report c] else [])
  /\ world (run_idle c X) = world X
  /\ _process (svc (run_idle c X)) = _process (svc X)
  /\ _timer_id (svc (run_idle c X)) = _timer_id (svc X).
Proof.
  rewrite run_idle_spec.
  rewrite invoke_svc, invoke_calls, invoke_world, set_state_calls, set_state_world,
    set_state_svc, <- app_assoc.
  repeat split.
Qed.

Lemma worker_then_idle_general (z : System) (proc : nat) (o : communicate_outcome) :
  idle_queue z = [] ->
  exists X,
    run [WorkerReturns (length (stop_workers z)) o; Idle] (spawn_worker proc z)
    = run_idle (worker_callback o z) X
    /\ svc X = svc z
    /\ calls X = calls z
    /\ world X = match o with
                 | CommunicateError _ => world z
                 | _ => reap proc (world z)
                 end.
Proof.
  intros Hq. unfold run. cbn [fold_left step]. cbn [stop_workers spawn_worker].
  destruct (lookup_last_worker (stop_workers z) proc) as [-> _].
  destruct o as [returncode stderr_data | | message]; cbn [_stop_worker]; sys_cbn;
    rewrite Hq; cbn [app]; eexists; (split; [reflexivity |]); sys_cbn; auto.
Qed.

(** What a stop on a Recording service with a process comes to, for any
    outcome of the worker. *)
Lemma stop_run (y : System) (proc : nat) (o : communicate_outcome) :
  _state (svc y) = RECORDING ->
  _process (svc y) = Some proc ->
  idle_queue y = [] ->
  let y' := run [Stop; WorkerReturns (length (stop_workers y)) o; Idle] y in
  let c := worker_callback o y in
  _state (svc y') = idle_state c
  /\ calls y'
     = calls y
       ++ (if on_state_changed (svc y)
           then [StateChanged STOPPING; StateChanged (idle_state c)] else [])
       ++ (if idle_handler c (svc y) then [idle_report c] else [])
  /\ _process (svc y') = None
  /\ _timer_id (svc y') = None
  /\ running (world y')
     = match o with
       | CommunicateError _ => running (world y)
       | _ => running (world y) ∖ {[ proc ]}
       end.
Proof.
  intros Hs Hp Hq. cbv zeta.
  set (z := on_svc (with_process None) (_stop_duration_timer (_set_state STOPPING y))).
  assert (Hrun : run [Stop; WorkerReturns (length (stop_workers y)) o; Idle] y
                 = run [WorkerReturns (length (stop_workers z)) o; Idle]
                       (spawn_worker proc z)).
  { unfold run. cbn [fold_left]. change (step Stop y) with (stop_recording y).
    rewrite (stop_recording_running y proc Hs Hp). fold z.
    replace (stop_workers z) with (stop_workers y); [reflexivity |].
    subst z. cbn [stop_workers on_svc].
    rewrite (proj1 (stop_timer_queues _)), set_state_workers. reflexivity. }
  destruct (stop_timer_handlers (_set_state STOPPING y)) as (Hh1 & Hh2 & Hh3).
  assert (Hzq : idle_queue z = []).
  { subst z. cbn [idle_queue on_svc].
    rewrite (proj2 (stop_timer_queues _)), set_state_idle. exact Hq. }
  assert (Hzsvc : _current_path (svc z) = _current_path (svc y)
                  /\ on_recording_completed (svc z) = on_recording_completed (svc y)
                  /\ on_recording_failed (svc z) = on_recording_failed (svc y)
                  /\ on_state_changed (svc z) = on_state_changed (svc y)
                  /\ _state (svc z) = STOPPING
                  /\ _process (svc z) = None
                  /\ _timer_id (svc z) = None).
  { subst z. cbn [svc on_svc with_process _current_path on_recording_completed
                  on_recording_failed on_state_changed _state _process _timer_id].
    rewrite stop_timer_path, Hh1, Hh2, Hh3, stop_timer_state, set_state_state.
    rewrite set_state_svc. cbn [with_state _current_path on_recording_completed
                                  on_recording_failed on_state_changed].
    repeat split. apply stop_timer_timer. }
  destruct Hzsvc as (Hzp & Hzc & Hzf & Hzh & Hzs & Hzproc & Hzt).
  assert (Hzw : files (world z) = files (world y) /\ running (world z) = running (world y)).
  { subst z. cbn [world on_svc]. rewrite stop_timer_files.
    unfold _stop_duration_timer. destruct (_timer_id (svc (_set_state STOPPING y)));
      cbn [world on_svc on_world with_sources running]; rewrite set_state_world; auto. }
  destruct Hzw as (Hzfiles & Hzrun).
  assert (Hzcalls : calls z = calls y ++ (if on_state_changed (svc y)
                                          then [StateChanged STOPPING] else [])).
  { subst z. cbn [calls on_svc]. rewrite stop_timer_calls, set_state_calls, Hs.
    rewrite bool_decide_eq_true_2 by discriminate. reflexivity. }
  assert (Hcb : worker_callback o z = worker_callback o y).
  { unfold worker_callback, os_path_exists, os_path_getsize.
    rewrite Hzp, Hzfiles. reflexivity. }
  destruct (worker_then_idle_general z proc o Hzq) as (X & HX & HXsvc & HXcalls & HXworld).
  rewrite Hrun, HX, Hcb.
  destruct (run_idle_calls (worker_callback o y) X) as (R1 & R2 & R3 & R4 & R5).
  rewrite R1, R2, R3, R4, R5, HXsvc, HXcalls, HXworld, Hzcalls, Hzs, Hzh, Hzproc, Hzt.
  split; [reflexivity |]. split; [| split; [reflexivity | split; [reflexivity |]]].
  - assert (Hne : bool_decide (STOPPING ≠ idle_state (worker_callback o y)) = true).
    { apply bool_decide_eq_true_2. unfold idle_state.
      destruct (idle_succeeds _); discriminate. }
    rewrite Hne. unfold idle_handler. rewrite Hzc, Hzf.
    destruct (on_state_changed (svc y)); cbn [andb app]; rewrite <- ?app_assoc; reflexivity.
  - destruct o; cbn [reap with_running running]; rewrite ?Hzrun; reflexivity.
Qed.

(** X16: stop on a Recording service whose encoder exits with a non-zero
    code, or exits leaving no output file or an empty one, ends in Failed:
    the failure handler is called exactly once, with the exit code and
    the last 500 characters of the encoder's error output, and the
    completed handler is not called. *)
Theorem stop_bad_exit_fails (y : System) (proc : nat) (returncode : Z)
    (stderr_data : string) :
  _state (svc y) = RECORDING ->
  _process (svc y) = Some proc ->
  idle_queue y = [] ->
  on_recording_failed (svc y) = true ->
  (returncode <> 0
   \/ forall path, _current_path (svc y) = Some path ->
        os_path_exists (world y) path = false \/ os_path_getsize (world y) path <= 0) ->
  _state (svc (run [Stop; WorkerReturns (length (stop_workers y))
                            (Exited returncode stderr_data); Idle] y)) = FAILED
  /\ calls (run [Stop; WorkerReturns (length (stop_workers y))
                         (Exited returncode stderr_data); Idle] y)
     = calls y
       ++ (if on_state_changed (svc y)
           then [StateChanged STOPPING; StateChanged FAILED] else [])
       ++ [RecordingFailed ("FFmpeg exited with code " +:+ pretty returncode
                            +:+ ": " +:+ last_chars 500 stderr_data)].
Proof.
  intros Hs Hp Hq Hreg Hbad.
  destruct (stop_run y proc (Exited returncode stderr_data) Hs Hp Hq)
    as (Hstate & Hcalls & _).
  assert (Hfail : idle_succeeds (worker_callback (Exited returncode stderr_data) y) = false).
  { cbn [worker_callback idle_succeeds].
    destruct Hbad as [Hrc | Hfile].
    - rewrite (proj2 (Z.eqb_neq returncode 0) Hrc). reflexivity.
    - destruct (_current_path (svc y)) as [path |]; [| now rewrite andb_false_r].
      cbn [default from_option id].
      destruct (Hfile path eq_refl) as [Hex | Hsz].
      + rewrite Hex, andb_false_r. cbn. apply andb_false_r.
      + destruct (truthy (Some path) && os_path_exists (world y) path).
        * rewrite (proj2 (Z.ltb_ge 0 _) Hsz). apply andb_false_r.
        * cbn. apply andb_false_r. }
  assert (Hrep : idle_report (worker_callback (Exited returncode stderr_data) y)
                 = RecordingFailed ("FFmpeg exited with code " +:+ pretty returncode
                                    +:+ ": " +:+ last_chars 500 stderr_data)).
  { cbn [worker_callback idle_report idle_succeeds].
    cbn [worker_callback idle_succeeds] in Hfail. rewrite Hfail. reflexivity. }
  unfold idle_state, idle_handler in *.
  rewrite Hrep, Hfail, ?Hreg in *. split; [exact Hstate | exact Hcalls].
Qed.

Lemma stop_bad_exit_fails_witness :
  _state (svc recording_with_output) = RECORDING
  /\ (1 : Z) <> 0
  /\ _state (svc (run [Stop; WorkerReturns 0 (Exited 1 "Unknown encoder 'libx264'"); Idle]
                      recording_with_output)) = FAILED.
Proof.
  assert (H : (1 : Z) <> 0) by discriminate.
  split; [reflexivity |]. split; [exact H |].
  apply (stop_bad_exit_fails recording_with_output 7 1 "Unknown encoder 'libx264'");
    try reflexivity.
  left. exact H.
Defined.

(** X17: stop on a Recording service whose encoder does not exit within
    the timeout kills the process and ends in Failed with the report
    ["Recording stop timed out"]; an error of [communicate] ends in
    Failed with the text of the error.  Either way the service holds no
    process and no timer afterwards. *)
Theorem stop_timeout_kills_and_fails (y : System) (proc : nat) :
  _state (svc y) = RECORDING ->
  _process (svc y) = Some proc ->
  idle_queue y = [] ->
  on_recording_failed (svc y) = true ->
  (_state (svc (run [Stop; WorkerReturns (length (stop_workers y)) TimeoutExpired; Idle] y))
   = FAILED
   /\ calls (run [Stop; WorkerReturns (length (stop_workers y)) TimeoutExpired; Idle] y)
      = calls y
        ++ (if on_state_changed (svc y)
            then [StateChanged STOPPING; StateChanged FAILED] else [])
        ++ [RecordingFailed "Recording stop timed out"]
   /\ (proc ∉ running (world (run [Stop; WorkerReturns (length (stop_workers y))
                                          TimeoutExpired; Idle] y)))
   /\ _process (svc (run [Stop; WorkerReturns (length (stop_workers y))
                                TimeoutExpired; Idle] y)) = None
   /\ _timer_id (svc (run [Stop; WorkerReturns (length (stop_workers y))
                                 TimeoutExpired; Idle] y)) = None)
  /\ (forall message,
        _state (svc (run [Stop; WorkerReturns (length (stop_workers y))
                                  (CommunicateError message); Idle] y)) = FAILED
        /\ calls (run [Stop; WorkerReturns (length (stop_workers y))
                               (CommunicateError message); Idle] y)
           = calls y
             ++ (if on_state_changed (svc y)
                 then [StateChanged STOPPING; StateChanged FAILED] else [])
             ++ [RecordingFailed message]
        /\ _process (svc (run [Stop; WorkerReturns (length (stop_workers y))
                                     (CommunicateError message); Idle] y)) = None).
Proof.
  intros Hs Hp Hq Hreg. split.
  - destruct (stop_run y proc TimeoutExpired Hs Hp Hq) as (H1 & H2 & H3 & H4 & H5).
    unfold idle_state, idle_handler in *. cbn [worker_callback idle_succeeds idle_report] in *.
    rewrite Hreg in H2. repeat split; try assumption.
    rewrite H5. intros [_ Hout]%elem_of_difference. apply Hout, elem_of_singleton.
    reflexivity.
  - intros message.
    destruct (stop_run y proc (CommunicateError message) Hs Hp Hq) as (H1 & H2 & H3 & _).
    unfold idle_state, idle_handler in *. cbn [worker_callback idle_succeeds idle_report] in *.
    rewrite Hreg in H2. repeat split; assumption.
Qed.

Lemma stop_timeout_kills_and_fails_witness :
  _state (svc recording_with_output) = RECORDING
  /\ (7%nat ∉ running (world (run [Stop; WorkerReturns 0 TimeoutExpired; Idle]
                                 recording_with_output))).
Proof.
  split; [reflexivity |].
  apply (stop_timeout_kills_and_fails recording_with_output 7); reflexivity.
Defined.

(** *** What holds while Recording *)
Lemma equipped_vacuous (y : System) :
  _state (svc y) <> RECORDING -> recording_is_equipped y.
Proof. intros Hne Hs. contradiction. Qed.

Lemma equipped_frame (y y' : System) :
  _state (svc y') = _state (svc y) ->
  _process (svc y') = _process (svc y) ->
  _timer_id (svc y') = _timer_id (svc y) ->
  glib_sources (world y') = glib_sources (world y) ->
  recording_is_equipped y -> recording_is_equipped y'.
Proof.
  intros Hs Hp Ht Hg Hy. unfold recording_is_equipped. rewrite Hs, Hp, Ht, Hg. exact Hy.
Qed.

Lemma equipped_start region l y :
  recording_is_equipped y -> recording_is_equipped (_start_recording region l y).
Proof.
  intros Hy. destruct (busy (_state (svc y))) eqn:Hb.
  - rewrite (start_busy region l y Hb). exact Hy.
  - destruct (start_free region l y Hb) as (_ & _ & Hr).
    unfold _start_recording in *. rewrite busy_guard, Hb in *. cbv zeta in *.
    destruct (popen_error l) as [e |].
    + apply equipped_vacuous. destruct Hr as [-> _]. discriminate.
    + intros _. destruct Hr as (_ & Hp & _). split; [eauto |].
      unfold _start_duration_timer.
      cbn [svc world on_svc on_world with_timer _timer_id with_sources glib_sources].
      eexists. split; [reflexivity |]. apply elem_of_union_r, elem_of_singleton. reflexivity.
Qed.

Lemma equipped_step o y :
  recording_is_equipped y -> recording_is_equipped (step o y).
Proof.
  intros Hy. destruct o; cbn [step].
  - apply equipped_start, Hy.
  - apply equipped_start, Hy.
  - apply equipped_start, Hy.
  - unfold stop_recording. destruct (_process (svc y)); [| exact Hy].
    case_bool_decide as Hs; [exact Hy |].
    apply equipped_vacuous.
    cbn [svc spawn_worker on_svc with_process _state].
    rewrite stop_timer_state, set_state_state. discriminate.
  - apply equipped_vacuous. rewrite cancel_state. discriminate.
  - apply equipped_vacuous. unfold cleanup. rewrite cancel_state. discriminate.
  - eapply equipped_frame; [| | | | exact Hy]; reflexivity.
  - unfold tick. case_bool_decide as Hin; [| exact Hy].
    case_bool_decide as Hs.
    + eapply equipped_frame; [| | | | exact Hy];
        rewrite ?invoke_svc, ?invoke_world; reflexivity.
    + apply equipped_vacuous. exact Hs.
  - destruct (stop_workers y !! i) as [proc |]; [| exact Hy].
    destruct o; cbn [_stop_worker];
      (eapply equipped_frame; [| | | | exact Hy]; reflexivity).
  - destruct (idle_queue y) as [| c q]; [exact Hy |].
    apply equipped_vacuous.
    destruct (run_idle_calls c (pop_idle y)) as (-> & _).
    unfold idle_state. destruct (idle_succeeds c); discriminate.
  - eapply equipped_frame; [| | | | exact Hy]; reflexivity.
Qed.

(** X18: in every system reached from a freshly constructed service,
    whichever handlers its owner registered and by whatever operations
    and outcomes, a service in state Recording holds a process handle
    and has its tick timer installed; so a stop in state Recording is
    never ignored: it moves to Stopping, drops the handle and hands the
    process to a worker. *)
Theorem recording_holds_process_and_timer (display_server : DisplayServer)
    (state_changed duration_changed completed failed : bool) (w : World) (ops : list op) :
  let y := run ops (boot (with_handlers state_changed duration_changed completed failed
                            (init display_server)) w) in
  _state (svc y) = RECORDING ->
  (exists id, _timer_id (svc y) = Some id /\ id ∈ glib_sources (world y))
  /\ exists proc,
       _process (svc y) = Some proc
       /\ _state (svc (stop_recording y)) = STOPPING
       /\ _process (svc (stop_recording y)) = None
       /\ stop_workers (stop_recording y) = stop_workers y ++ [proc].
Proof.
  assert (Hinv : forall ops y, recording_is_equipped y -> recording_is_equipped (run ops y)).
  { clear ops. intros ops. induction ops as [| o ops IH]; intros y Hy; [exact Hy |].
    cbn. apply IH, equipped_step, Hy. }
  assert (H0 : recording_is_equipped
                 (boot (with_handlers state_changed duration_changed completed failed
                          (init display_server)) w)).
  { apply equipped_vacuous. discriminate. }
  specialize (Hinv ops _ H0).
  intros y. fold y in Hinv.
  intros Hs. destruct (Hinv Hs) as ((proc & Hp) & Htimer).
  split; [exact Htimer |]. exists proc. split; [exact Hp |].
  rewrite (stop_recording_running y proc Hs Hp).
  cbn [svc stop_workers spawn_worker on_svc with_process _state _process].
  rewrite stop_timer_state, set_state_state.
  rewrite (proj1 (stop_timer_queues _)), set_state_workers. auto.
Qed.

Lemma recording_holds_process_and_timer_witness :
  _state (svc (run [StartRegion 10 20 101 151 launch_at_noon; Tick 2; Stop;
                    WorkerReturns 0 (Exited 1 ""); Idle;
                    StartFullscreen launch_at_noon; Tick 3]
                   (boot (wired_service X11) (world after_completed_recording))))
  = RECORDING
  /\ exists proc,
       _process (svc (run [StartRegion 10 20 101 151 launch_at_noon; Tick 2; Stop;
                           WorkerReturns 0 (Exited 1 ""); Idle;
                           StartFullscreen launch_at_noon; Tick 3]
                          (boot (wired_service X11) (world after_completed_recording))))
       = Some proc
       /\ _state (svc (stop_recording
                         (run [StartRegion 10 20 101 151 launch_at_noon; Tick 2; Stop;
                               WorkerReturns 0 (Exited 1 ""); Idle;
                               StartFullscreen launch_at_noon; Tick 3]
                              (boot (wired_service X11) (world after_completed_recording)))))
          = STOPPING.
Proof.
  split; [reflexivity |].
  destruct (recording_holds_process_and_timer X11 true true true true
              (world after_completed_recording)
              [StartRegion 10 20 101 151 launch_at_noon; Tick 2; Stop;
               WorkerReturns 0 (Exited 1 ""); Idle;
               StartFullscreen launch_at_noon; Tick 3] eq_refl)
    as (_ & proc & Hp & Hs & _).
  exists proc. split; [exact Hp | exact Hs].
Defined.

(** *** Cancelling *)
Lemma cancel_fields (y : System) :
  _timer_id (svc (cancel_recording y)) = None
  /\ _process (svc (cancel_recording y)) = None
  /\ _current_path (svc (cancel_recording y)) = _current_path (svc y)
  /\ unlink_denied (world (cancel_recording y)) = unlink_denied (world y)
  /\ running (world (cancel_recording y))
     = match _process (svc y) with
       | Some proc => running (world y) ∖ {[ proc ]}
       | None => running (world y)
       end
  /\ glib_sources (world (cancel_recording y))
     = match _timer_id (svc y) with
       | Some id => glib_sources (world y) ∖ {[ id ]}
       | None => glib_sources (world y)
       end.
Proof.
  unfold cancel_recording. rewrite set_state_svc, set_state_world. cbv zeta.
  unfold _stop_duration_timer.
  destruct (_timer_id (svc y)) as [id |] eqn:Ht;
    cbn [svc world on_svc on_world with_timer _process];
    destruct (_process (svc y)) as [proc |] eqn:Hp;
    cbn [svc world on_svc on_world with_process with_timer _current_path];
    (destruct (truthy (_current_path (svc y)) && _) eqn:Hc;
     [ unfold os_remove;
       destruct (bool_decide (_ ∈ _)); [| destruct (os_path_exists _ _)] |]);
    cbn [svc world on_svc on_world with_state with_process with_timer with_files
         with_sources with_running reap _timer_id _process _current_path
         unlink_denied running glib_sources];
    rewrite ?Ht, ?Hp; auto 10.
Qed.

Lemma cancel_removes (y : System) (p : string) :
  _current_path (svc y) = Some p ->
  p ∉ unlink_denied (world y) ->
  os_path_exists (world (cancel_recording y)) p = false.
Proof.
  intros Hp Hfree.
  destruct (os_path_exists (world y) p) eqn:Hex.
  - apply exists_after_delete with (m := files (world y)).
    rewrite cancel_files, Hp. unfold os_path_exists in Hex. rewrite Hex.
    rewrite bool_decide_eq_false_2 by exact Hfree. reflexivity.
  - unfold os_path_exists in *. rewrite cancel_files, Hp.
    destruct (negb (String.eqb p "")); simpl in *; [| reflexivity].
    rewrite Hex. simpl. exact Hex.
Qed.



(** *** A cancel while the stop worker is still waiting *)
Lemma cancel_queues (y : System) :
  stop_workers (cancel_recording y) = stop_workers y
  /\ idle_queue (cancel_recording y) = idle_queue y.
Proof.
  unfold cancel_recording. rewrite set_state_workers, set_state_idle. cbv zeta.
  destruct (stop_timer_queues y) as (Hw & Hq).
  destruct (_process (svc (_stop_duration_timer y)));
    (destruct (truthy _ && _); [destruct (os_remove _ _) |]);
    cbn [stop_workers idle_queue on_world on_svc]; auto.
Qed.

Lemma cancel_handlers (y : System) :
  on_recording_completed (svc (cancel_recording y)) = on_recording_completed (svc y)
  /\ on_recording_failed (svc (cancel_recording y)) = on_recording_failed (svc y).
Proof.
  unfold cancel_recording. rewrite set_state_svc. cbv zeta.
  destruct (stop_timer_handlers y) as (_ & Hh2 & Hh3).
  destruct (_process (svc (_stop_duration_timer y)));
    (destruct (truthy _ && _); [destruct (os_remove _ _) |]);
    cbn [svc on_world on_svc with_state with_process on_recording_completed
         on_recording_failed];
    auto.
Qed.

Lemma worker_idle_any (y2 : System) (ws : list nat) (proc : nat) (o : communicate_outcome) :
  stop_workers y2 = ws ++ [proc] ->
  idle_queue y2 = [] ->
  exists X,
    run [WorkerReturns (length ws) o; Idle] y2 = run_idle (worker_callback o y2) X
    /\ svc X = svc y2
    /\ calls X = calls y2.
Proof.
  intros Hw Hq. unfold run. cbn [fold_left step]. rewrite Hw.
  destruct (lookup_last_worker ws proc) as [-> _].
  destruct o as [returncode stderr_data | | message]; cbn [_stop_worker]; sys_cbn;
    rewrite Hq; cbn [app]; eexists; (split; [reflexivity |]); sys_cbn; auto.
Qed.

Lemma idle_report_is_report (c : idle_callback) : is_outcome_report (idle_report c) = true.
Proof.
  destruct c; cbn [idle_report]; [destruct (idle_succeeds _) |..]; reflexivity.
Qed.

(** X20: a cancel issued while a stop is in flight does not hold: the
    cancel leaves the service Idle, but when the stop worker's idle
    callback runs afterwards the state becomes Completed or Failed and,
    with both handlers registered, a Completed or Failed report is the
    last call made.  When the cancel could delete the output file, the
    state ends in Failed. *)
Theorem cancel_during_stop_is_overridden (y : System) (proc : nat)
    (o : communicate_outcome) :
  _state (svc y) = RECORDING ->
  _process (svc y) = Some proc ->
  idle_queue y = [] ->
  _state (svc (run [Stop; Cancel] y)) = IDLE
  /\ (_state (svc (run [Stop; Cancel; WorkerReturns (length (stop_workers y)) o; Idle] y))
      = COMPLETED
      \/ _state (svc (run [Stop; Cancel; WorkerReturns (length (stop_workers y)) o; Idle] y))
         = FAILED)
  /\ (on_recording_completed (svc y) = true ->
      on_recording_failed (svc y) = true ->
      exists report,
        last (calls (run [Stop; Cancel; WorkerReturns (length (stop_workers y)) o; Idle] y))
        = Some report
        /\ is_outcome_report report = true)
  /\ (forall path,
        _current_path (svc y) = Some path ->
        (path ∉ unlink_denied (world y)) ->
        _state (svc (run [Stop; Cancel; WorkerReturns (length (stop_workers y)) o; Idle] y))
        = FAILED).
Proof.
  intros Hs Hp Hq.
  set (y1 := stop_recording y).
  set (y2 := cancel_recording y1).
  assert (Hsplit : run [Stop; Cancel; WorkerReturns (length (stop_workers y)) o; Idle] y
                   = run [WorkerReturns (length (stop_workers y)) o; Idle] y2) by reflexivity.
  assert (Hy1 : stop_workers y1 = stop_workers y ++ [proc]
                /\ idle_queue y1 = []
                /\ _current_path (svc y1) = _current_path (svc y)
                /\ unlink_denied (world y1) = unlink_denied (world y)
                /\ on_recording_completed (svc y1) = on_recording_completed (svc y)
                /\ on_recording_failed (svc y1) = on_recording_failed (svc y)).
  { subst y1. rewrite (stop_recording_running y proc Hs Hp).
    destruct (stop_timer_handlers (_set_state STOPPING y)) as (_ & Hh2 & Hh3).
    cbn [svc world stop_workers idle_queue spawn_worker on_svc with_process _current_path
         on_recording_completed on_recording_failed].
    rewrite (proj1 (stop_timer_queues _)), (proj2 (stop_timer_queues _)),
      set_state_workers, set_state_idle, stop_timer_path, stop_timer_denied, Hh2, Hh3,
      set_state_world, set_state_svc.
    cbn [with_state _current_path on_recording_completed on_recording_failed]. auto 10. }
  destruct Hy1 as (Hw1 & Hq1 & Hpath1 & Hden1 & Hc1 & Hf1).
  destruct (cancel_queues y1) as (Hw2 & Hq2). fold y2 in Hw2, Hq2.
  rewrite Hw1 in Hw2. rewrite Hq1 in Hq2.
  destruct (cancel_handlers y1) as (Hc2 & Hf2). fold y2 in Hc2, Hf2.
  destruct (worker_idle_any y2 (stop_workers y) proc o Hw2 Hq2) as (X & HX & HXsvc & HXcalls).
  destruct (run_idle_calls (worker_callback o y2) X) as (R1 & R2 & _).
  split; [apply cancel_state |].
  rewrite Hsplit, HX, R1, R2.
  split; [unfold idle_state; destruct (idle_succeeds _); auto |]. split.
  - intros Hc Hf. exists (idle_report (worker_callback o y2)).
    split; [| apply idle_report_is_report].
    assert (Hh : idle_handler (worker_callback o y2) (svc X) = true).
    { unfold idle_handler. rewrite HXsvc, Hc2, Hf2, Hc1, Hf1, Hc, Hf.
      destruct (idle_succeeds _); reflexivity. }
    rewrite Hh, !app_assoc. apply last_snoc.
  - intros path Hpath Hfree.
    assert (Hgone : os_path_exists (world y2) path = false).
    { subst y2. apply cancel_removes; [rewrite Hpath1; exact Hpath | rewrite Hden1; exact Hfree]. }
    assert (Hp2 : _current_path (svc y2) = Some path).
    { subst y2. destruct (cancel_fields y1) as (_ & _ & -> & _). rewrite Hpath1. exact Hpath. }
    unfold idle_state.
    assert (Hfail : idle_succeeds (worker_callback o y2) = false).
    { destruct o; cbn [worker_callback idle_succeeds]; [| reflexivity | reflexivity].
      rewrite Hp2. cbn [default from_option id]. rewrite Hgone, andb_false_r.
      cbn. apply andb_false_r. }
    rewrite Hfail. reflexivity.
Qed.

Lemma cancel_during_stop_is_overridden_witness :
  _state (svc recording_with_output) = RECORDING
  /\ _state (svc (run [Stop; Cancel] recording_with_output)) = IDLE
  /\ _state (svc (run [Stop; Cancel; WorkerReturns 0 (Exited 0 ""); Idle]
                      recording_with_output)) = FAILED.
Proof.
  split; [reflexivity |].
  destruct (cancel_during_stop_is_overridden recording_with_output 7 (Exited 0 "")
              eq_refl eq_refl eq_refl) as (H1 & _ & _ & H4).
  split; [exact H1 |].
  apply (H4 "/tmp/snipr/Recording_20240101_120000.mp4" eq_refl).
  simpl. apply not_elem_of_empty.
Defined.

(** *** A launch that fails *)

(** X21: when [Popen] raises on an accepted start, the service ends in
    Failed after announcing Preparing, reports
    ["Failed to start recording: "] followed by the text of the error to
    the failure handler, and starts no process and no timer; the output
    path of the attempt stays recorded, and the next start is accepted. *)
Theorem start_launch_failure_reports (region : option (Z * Z * Z * Z)) (l : Launch)
    (y : System) (e : string) :
  busy (_state (svc y)) = false ->
  popen_error l = Some e ->
  let y' := _start_recording region l y in
  _state (svc y') = FAILED
  /\ calls y'
     = calls y
       ++ (if on_state_changed (svc y)
           then [StateChanged PREPARING; StateChanged FAILED] else [])
       ++ (if on_recording_failed (svc y)
           then [RecordingFailed ("Failed to start recording: " +:+ e)] else [])
  /\ _process (svc y') = _process (svc y)
  /\ _timer_id (svc y') = _timer_id (svc y)
  /\ running (world y') = running (world y)
  /\ glib_sources (world y') = glib_sources (world y)
  /\ _current_path (svc y')
     = Some (tempdir l +:+ "/snipr/Recording_" +:+ timestamp l +:+ ".mp4")
  /\ busy (_state (svc y')) = false.
Proof.
  intros Hb He. cbv zeta. unfold _start_recording. rewrite busy_guard, Hb, He. cbv zeta.
  assert (Hne : bool_decide (_state (svc y) ≠ PREPARING) = true).
  { apply bool_decide_eq_true_2. intros E. rewrite E in Hb. discriminate. }
  rewrite invoke_svc, invoke_calls, invoke_world.
  rewrite !set_state_svc, !set_state_calls, !set_state_world.
  cbn [svc world calls on_svc on_world with_popen with_path with_state
       _state _process _timer_id _current_path running glib_sources
       on_state_changed on_recording_failed].
  rewrite !set_state_svc, !set_state_calls, !set_state_world.
  cbn [svc world calls on_svc on_world with_popen with_path with_state
       _state _process _timer_id _current_path running glib_sources
       on_state_changed on_recording_failed].
  rewrite Hne. repeat split.
  destruct (on_state_changed (svc y)); cbn [andb app]; rewrite <- ?app_assoc; reflexivity.
Qed.

Lemma start_launch_failure_reports_witness :
  busy (_state (svc after_completed_recording)) = false
  /\ popen_error failing_launch = Some "[Errno 2] No such file or directory: 'ffmpeg'"
  /\ calls (_start_recording None failing_launch after_completed_recording)
     = [StateChanged PREPARING; StateChanged FAILED;
        RecordingFailed
          "Failed to start recording: [Errno 2] No such file or directory: 'ffmpeg'"].
Proof.
  split; [reflexivity |]. split; [reflexivity |].
  exact (proj1 (proj2 (start_launch_failure_reports None failing_launch
                         after_completed_recording _ eq_refl eq_refl))).
Defined.

(** *** The encoder's input *)
Lemma before_dot_dot_free (d : string) : dot_free (before_dot d) = true.
Proof.
  induction d as [| c d IH]; [reflexivity |].
  cbn [before_dot]. destruct (Ascii.eqb c ".") eqn:E; [reflexivity |].
  cbn [dot_free]. rewrite E. exact IH.
Qed.

Lemma before_dot_prefix (d : string) : exists rest, d = before_dot d +:+ rest.
Proof.
  induction d as [| c d [rest IH]]; [exists ""; reflexivity |].
  cbn [before_dot]. destruct (Ascii.eqb c "."); [exists (String c d); reflexivity |].
  exists rest. change (String c d = String c (before_dot d +:+ rest)). f_equal. exact IH.
Qed.

Lemma before_dot_id (d : string) : dot_free d = true -> before_dot d = d.
Proof.
  induction d as [| c d IH]; [reflexivity |].
  cbn [dot_free before_dot]. destruct (Ascii.eqb c "."); [discriminate |].
  cbn [negb andb]. intros H. f_equal. exact (IH H).
Qed.

(** X22: the encoder reads from PipeWire exactly when the service was
    built for Wayland and holds a non-empty node id, and grabs the X
    display otherwise.  The display it grabs is [DISPLAY] (or [:0])
    cut before its first dot, so it never carries a screen number, and
    the offsets of a region are never negative.  The output path is
    always the last argument. *)
Theorem encoder_input_selection (s : VideoRecordingService) (os : World)
    (region : option (Z * Z * Z * Z)) :
  let argv := _build_ffmpeg_command s os region in
  let display := before_dot (environ_get os "DISPLAY" ":0") in
  (argv !! 3%nat = Some "pipewire"
   <-> _display_server s = WAYLAND /\ truthy (_pipewire_node_id s) = true)
  /\ (argv !! 3%nat = Some "x11grab"
      <-> ~ (_display_server s = WAYLAND /\ truthy (_pipewire_node_id s) = true))
  /\ (argv !! 3%nat = Some "pipewire" -> argv !! 5%nat = _pipewire_node_id s)
  /\ last argv = Some (default "" (_current_path s))
  /\ dot_free display = true
  /\ (exists rest, environ_get os "DISPLAY" ":0" = display +:+ rest)
  /\ (dot_free (environ_get os "DISPLAY" ":0") = true
      -> display = environ_get os "DISPLAY" ":0")
  /\ (argv !! 3%nat = Some "x11grab" ->
      match region with
      | Some (x, y, w, h) =>
          argv !! 8%nat = Some "-video_size"
          /\ argv !! 9%nat = Some (pretty w +:+ "x" +:+ pretty h)
          /\ argv !! 11%nat
             = Some (display +:+ "+" +:+ pretty (Z.max 0 x) +:+ "," +:+ pretty (Z.max 0 y))
          /\ 0 <= Z.max 0 x /\ 0 <= Z.max 0 y
      | None => argv !! 8%nat = Some "-i" /\ argv !! 9%nat = Some display
      end).
Proof.
  cbv zeta. unfold _build_ffmpeg_command.
  split; [| split; [| split; [| split; [| split; [| split; [| split]]]]]].
  - case_bool_decide as Hd; cbn [andb].
    + destruct (truthy (_pipewire_node_id s)) eqn:Hn.
      * split; [auto | reflexivity].
      * destruct region as [[[[x y] w] h] |]; cbn;
          (split; [discriminate | intros [_ H]; discriminate]).
    + destruct region as [[[[x y] w] h] |]; cbn;
        (split; [discriminate | intros [H _]; contradiction]).
  - case_bool_decide as Hd; cbn [andb].
    + destruct (truthy (_pipewire_node_id s)) eqn:Hn.
      * split; [discriminate | intros H; exfalso; apply H; auto].
      * destruct region as [[[[x y] w] h] |]; cbn;
          (split; [intros _ [_ H]; discriminate | reflexivity]).
    + destruct region as [[[[x y] w] h] |]; cbn;
        (split; [intros _ [H _]; contradiction | reflexivity]).
  - destruct (bool_decide (_display_server s = WAYLAND) && truthy (_pipewire_node_id s))
      eqn:Hb.
    + intros _. apply andb_true_iff in Hb. destruct Hb as [_ Hn].
      destruct (_pipewire_node_id s); [reflexivity | discriminate].
    + destruct region as [[[[x y] w] h] |]; cbn; discriminate.
  - destruct (bool_decide (_display_server s = WAYLAND) && truthy (_pipewire_node_id s));
      [reflexivity |].
    destruct region as [[[[x y] w] h] |]; reflexivity.
  - apply before_dot_dot_free.
  - apply before_dot_prefix.
  - apply before_dot_id.
  - destruct (bool_decide (_display_server s = WAYLAND) && truthy (_pipewire_node_id s));
      [discriminate |].
    intros _. destruct region as [[[[x y] w] h] |]; cbn; repeat split; lia.
Qed.

Lemma encoder_input_selection_witness :
  _build_ffmpeg_command (svc after_completed_recording) (world after_completed_recording)
    (Some (-5, 20, 102, 152)) !! 3%nat = Some "x11grab"
  /\ _build_ffmpeg_command (svc after_completed_recording) (world after_completed_recording)
       (Some (-5, 20, 102, 152)) !! 11%nat = Some ":0+0,20".
Proof.
  split; [reflexivity |].
  destruct (encoder_input_selection (svc after_completed_recording)
              (world after_completed_recording) (Some (-5, 20, 102, 152)))
    as (_ & _ & _ & _ & _ & _ & _ & H).
  exact (proj1 (proj2 (proj2 (H eq_refl)))).
Defined.

(** *** The error output in a failure report *)
Lemma char_length_drop_continuation (r : string) :
  char_length (drop_continuation r) = char_length r.
Proof.
  induction r as [| c r IH]; [reflexivity |].
  cbn [drop_continuation char_length]. destruct (is_continuation c) eqn:E.
  - exact IH.
  - cbn [char_length]. rewrite E. reflexivity.
Qed.

Lemma boundary_drop_continuation (r : string) :
  starts_at_boundary (drop_continuation r) = true.
Proof.
  induction r as [| c r IH]; [reflexivity |].
  cbn [drop_continuation]. destruct (is_continuation c) eqn:E; [exact IH |].
  cbn [starts_at_boundary]. rewrite E. reflexivity.
Qed.

Lemma drop_continuation_suffix (r : string) :
  exists front, r = front +:+ drop_continuation r.
Proof.
  induction r as [| c r [front IH]]; [exists ""; reflexivity |].
  cbn [drop_continuation]. destruct (is_continuation c); [| exists ""; reflexivity].
  exists (String c front). change (String c r = String c (front +:+ drop_continuation r)).
  f_equal. exact IH.
Qed.

Lemma string_append_assoc (a b c : string) : (a +:+ b) +:+ c = a +:+ (b +:+ c).
Proof.
  induction a as [| x a IH]; [reflexivity |].
  change (String x ((a +:+ b) +:+ c) = String x (a +:+ (b +:+ c))).
  f_equal. exact IH.
Qed.

Lemma drop_chars_spec (k : nat) (s : string) :
  starts_at_boundary s = true ->
  char_length (drop_chars k s) = (char_length s - k)%nat
  /\ starts_at_boundary (drop_chars k s) = true
  /\ exists front, s = front +:+ drop_chars k s.
Proof.
  revert s. induction k as [| k IH]; intros s Hs.
  - cbn [drop_chars]. destruct s; (split; [cbn; lia | split; [exact Hs | exists ""; reflexivity]]).
  - destruct s as [| c r].
    + cbn. split; [reflexivity | split; [reflexivity | exists ""; reflexivity]].
    + cbn [drop_chars]. cbn [starts_at_boundary] in Hs. apply negb_true_iff in Hs.
      destruct (IH (drop_continuation r) (boundary_drop_continuation r))
        as (Hlen & Hb & back & Hback).
      split; [| split; [exact Hb |]].
      * rewrite Hlen, char_length_drop_continuation. cbn [char_length]. rewrite Hs. lia.
      * destruct (drop_continuation_suffix r) as [front Hfront].
        exists (String c (front +:+ back)).
        change (String c r
                = String c ((front +:+ back) +:+ drop_chars k (drop_continuation r))).
        f_equal. rewrite string_append_assoc, <- Hback. exact Hfront.
Qed.

(** X23: the error output quoted in a failure report is cut by
    characters, not by bytes: for a text that starts at a character
    boundary and [n] above 0, [text[-n:]] has [n] characters, or all of
    them when the text has fewer, begins at a character boundary, is the
    end of the text, and is the whole text when that has at most [n]
    characters. *)
Theorem last_chars_are_whole_characters (n : nat) (s : string) :
  (0 < n)%nat ->
  starts_at_boundary s = true ->
  char_length (last_chars n s) = Nat.min n (char_length s)
  /\ starts_at_boundary (last_chars n s) = true
  /\ (exists front, s = front +:+ last_chars n s)
  /\ ((char_length s <= n)%nat -> last_chars n s = s).
Proof.
  intros Hn Hs. unfold last_chars.
  rewrite (proj2 (Nat.eqb_neq n 0)) by lia.
  destruct (drop_chars_spec (char_length s - n) s Hs) as (Hlen & Hb & Hsuffix).
  split; [rewrite Hlen; lia |]. split; [exact Hb |]. split; [exact Hsuffix |].
  intros Hle. replace (char_length s - n)%nat with 0%nat by lia.
  destruct s; reflexivity.
Qed.

Lemma last_chars_are_whole_characters_witness :
  starts_at_boundary accented_text = true
  /\ String.length accented_text = 9%nat
  /\ char_length accented_text = 6%nat
  /\ char_length (last_chars 3 accented_text) = 3%nat
  /\ String.length (last_chars 3 accented_text) = 6%nat.
Proof.
  split; [reflexivity |]. split; [reflexivity |]. split; [reflexivity |].
  split; [| reflexivity].
  apply (last_chars_are_whole_characters 3 accented_text); [lia | reflexivity].
Defined.

End RecordingRunProperties.
